(** * MicroSense Mini 3: AlphaEye fusion, streaming chat client, scan orchestration

    A shallow embedding of the parts of the application that carry its
    numeric profile ([AlphaEye], js/avatar.js), its streaming client
    ([OllamaClient.chat], js/ollama.js) and its two scan orchestrators
    (the tabbed one and the avatar-first one), with their settings,
    history, countdown, navigation and chat, followed by the properties
    proved about them.

    Conventions of the embedding.
    - Numbers are exact: a finite Number is a rational and arithmetic on
      finite Numbers is exact, so the rounding of binary64 products such
      as [x * 0.6] is not represented.  The one place where the rounding
      decides a result is rounded as binary64 does it: the scores
      [100 - energy] and [100 - balance] of [getDominantState], where two
      scores that differ as rationals can tie ([sub64]).  [Math.sqrt] and
      [Math.exp] only occur under [Math.round]; the first is computed
      through the integer square root and proved to agree with the real
      square root, the second is taken over the reals.
    - A property that may be missing is an [option]; a value that may be
      [null] or [undefined] is an [option] as well.
    - An [async] function is one step: the awaited calls answer through
      an argument ([Devices], [Analysis], the chunks of a [Response]) and
      nothing else runs in between.  A call that is not awaited
      ([startMonitoring()] in the avatar-first orchestrator) is split in
      two: what runs inside the caller, and what runs after the caller
      has finished.  A thrown value is an [Error] with a message.
    - Of the effects on the page, the devices, the timers and the
      messages shown to the user are recorded, in order, in [effects]. *)

From Stdlib Require Import ZArith QArith Qround Qabs Qreals Reals Lia Psatz.
From Stdlib Require Import List String Ascii Bool.
Import ListNotations.

Set Implicit Arguments.
Set Warnings "-register-all".

(* ================================================================== *)
(** * JavaScript numbers *)
(* ================================================================== *)

(** A JavaScript Number: the two infinities, NaN, or a finite value.
    Finite values are carried as exact rationals (every binary64 value is
    one).  The sign of zero is not represented; nothing below observes it. *)
Module JS.

Inductive Number : Type :=
| NaN
| PosInf
| NegInf
| Fin (q : Q).

Definition num (z : Z) : Number := Fin (inject_Z z).

(** ToBoolean on a Number: [0] and [NaN] are falsy. *)
Definition truthy (x : Number) : bool :=
  match x with
  | NaN => false
  | PosInf | NegInf => true
  | Fin q => negb (Qeq_bool q 0)
  end.

(** [field || dflt] where the property may be missing ([undefined] is
    falsy, so a missing property selects the right operand). *)
Definition or_default (field : option Number) (dflt : Number) : Number :=
  match field with
  | Some v => if truthy v then v else dflt
  | None => dflt
  end.

Definition sgn (q : Q) : comparison := (q ?= 0)%Q.

Definition neg (x : Number) : Number :=
  match x with
  | NaN => NaN
  | PosInf => NegInf
  | NegInf => PosInf
  | Fin q => Fin (- q)
  end.

Definition add (x y : Number) : Number :=
  match x, y with
  | NaN, _ | _, NaN => NaN
  | PosInf, NegInf | NegInf, PosInf => NaN
  | PosInf, _ | _, PosInf => PosInf
  | NegInf, _ | _, NegInf => NegInf
  | Fin a, Fin b => Fin (a + b)
  end.

Definition sub (x y : Number) : Number := add x (neg y).

(** ** Rounding to binary64 *)

(** The nearest integer, a tie going to the even one. *)
Definition round_ties_even (q : Q) : Z :=
  let f := Qfloor q in
  match (q - inject_Z f ?= 1 # 2)%Q with
  | Lt => f
  | Gt => (f + 1)%Z
  | Eq => if Z.even f then f else (f + 1)%Z
  end.

(** [floor (log2 q)] for [q > 0]: the difference of the bit lengths of
    numerator and denominator, or one less. *)
Definition floor_log2 (q : Q) : Z :=
  let k := (Z.log2 (Qnum q) - Z.log2 (Z.pos (Qden q)))%Z in
  if Qle_bool (2 ^ k) q then k else (k - 1)%Z.

(** The binary64 value nearest to [q], ties to even, when the exponent
    is not bounded above: 53 significant bits, and steps of [2^-1074]
    below [2^-1022]. *)
Definition binary64_nearest (q : Q) : Q :=
  if Qeq_bool q 0 then 0
  else
    let a := Qabs q in
    let e := Z.max (floor_log2 a - 52)%Z (-1074)%Z in
    let m := round_ties_even (a / 2 ^ e) in
    Qred (inject_Z (if Qle_bool 0 q then m else (- m)%Z) * 2 ^ e).

(** From this magnitude on the nearest value is an infinity. *)
Definition binary64_overflow : Q := 2 ^ 1024 - 2 ^ 970.

(** The Number that an arithmetic operation delivers for the exact
    result [x]. *)
Definition binary64 (x : Number) : Number :=
  match x with
  | Fin q =>
      if Qle_bool binary64_overflow (Qabs q)
      then (if Qle_bool 0 q then PosInf else NegInf)
      else Fin (binary64_nearest q)
  | _ => x
  end.

(** [x - y] as binary64 delivers it. *)
Definition sub64 (x y : Number) : Number := binary64 (sub x y).

Definition inf_of (c : comparison) : Number :=
  match c with
  | Gt => PosInf
  | Lt => NegInf
  | Eq => NaN
  end.

Definition mul (x y : Number) : Number :=
  match x, y with
  | NaN, _ | _, NaN => NaN
  | Fin a, Fin b => Fin (a * b)
  | PosInf, Fin b | Fin b, PosInf => inf_of (sgn b)
  | NegInf, Fin b | Fin b, NegInf => inf_of (CompOpp (sgn b))
  | PosInf, PosInf | NegInf, NegInf => PosInf
  | PosInf, NegInf | NegInf, PosInf => NegInf
  end.

(** Division; a zero divisor is taken as [+0]. *)
Definition div (x y : Number) : Number :=
  match x, y with
  | NaN, _ | _, NaN => NaN
  | Fin a, Fin b =>
      if Qeq_bool b 0 then inf_of (sgn a) else Fin (a / b)
  | Fin _, (PosInf | NegInf) => Fin 0
  | (PosInf | NegInf), (PosInf | NegInf) => NaN
  | PosInf, Fin b => if Qle_bool 0 b then PosInf else NegInf
  | NegInf, Fin b => if Qle_bool 0 b then NegInf else PosInf
  end.

(** [x < y]; any comparison with NaN is false. *)
Definition lt (x y : Number) : bool :=
  match x, y with
  | NaN, _ | _, NaN => false
  | _, NegInf => false
  | PosInf, _ => false
  | NegInf, _ => true
  | Fin _, PosInf => true
  | Fin a, Fin b => negb (Qle_bool b a)
  end.

Definition gt (x y : Number) : bool := lt y x.

(** [x >= y]. *)
Definition ge (x y : Number) : bool :=
  match x, y with
  | NaN, _ | _, NaN => false
  | _, NegInf => true
  | PosInf, _ => true
  | NegInf, _ => false
  | Fin _, PosInf => false
  | Fin a, Fin b => Qle_bool b a
  end.

(** [Math.round]: the nearest integer, ties towards [+Infinity]. *)
Definition Math_round (x : Number) : Number :=
  match x with
  | Fin q => num (Qfloor (q + (1 # 2)))
  | _ => x
  end.

Definition Math_min (x y : Number) : Number :=
  match x, y with
  | NaN, _ | _, NaN => NaN
  | _, _ => if lt y x then y else x
  end.

Definition Math_max (x y : Number) : Number :=
  match x, y with
  | NaN, _ | _, NaN => NaN
  | _, _ => if lt x y then y else x
  end.

(** [Math.pow(x, 2)]. *)
Definition Math_pow2 (x : Number) : Number := mul x x.

(** [Math.round(Math.sqrt(v) * 2)] on a finite [v >= 0], in integers:
    [floor (2 * sqrt v + 1/2) = floor ((sqrt (16 v) + 1) / 2)], and the
    floor of a square root is the integer square root of the floor. *)
Definition round_sqrt_x2 (v : Q) : Z :=
  (Z.sqrt (Qfloor (16 * v)) + 1) / 2.

(** [Math.round(Math.sqrt(x) * 2)]. *)
Definition Math_round_sqrt_x2 (x : Number) : Number :=
  match x with
  | NaN | NegInf => NaN
  | PosInf => PosInf
  | Fin v => if Qle_bool 0 v then num (round_sqrt_x2 v) else NaN
  end.

(** [Math.round(((2 / (1 + Math.exp(-raw / 20))) - 1) * 100)] on a finite
    [raw], over the reals. *)
Definition round_sigmoid_x100 (raw : Q) : Z :=
  Zfloor ((2 / (1 + exp (- Q2R raw / 20)) - 1) * 100 + / 2)%R.

Definition Math_round_sigmoid_x100 (raw : Number) : Number :=
  match raw with
  | NaN => NaN
  | PosInf => num 100
  | NegInf => num (-100)
  | Fin q => num (round_sigmoid_x100 q)
  end.

(** [arr.reduce(f, init)]. *)
Definition reduce {A B : Type} (f : B -> A -> B) (init : B) (arr : list A) : B :=
  fold_left f arr init.

(** [arr.sort(comparefn)]: the sort is stable, an element moves behind
    its right neighbour only when the comparator is positive (a NaN
    comparator result counts as [0]). *)
Section Sort.
Variable A : Type.
Variable comparefn : A -> A -> Number.

Fixpoint sort_insert (x : A) (l : list A) : list A :=
  match l with
  | [] => [x]
  | y :: t => if gt (comparefn x y) (Fin 0) then y :: sort_insert x t else x :: l
  end.

Definition sort (l : list A) : list A := fold_right sort_insert [] l.
End Sort.

End JS.

(* ================================================================== *)
(** * AlphaEye profiler (js/avatar.js) *)
(* ================================================================== *)

Module AlphaEye.
Import JS.
Local Open Scope string_scope.

(** Entries of [conditions], [microExpressions] and [deceptionTimeline]
    are passed through untouched. *)
Definition Payload := string.

(** [ThreatEngine.fullAnalysis().metrics] *)
Record Metrics := {
  m_aggression : option Number;
  m_stress : option Number;
  m_tension : option Number;
  m_badIntent : option Number;
  m_stability : option Number
}.

Record ThreatResult := { metrics : option Metrics }.

(** [NeuroAnalyzer.analyze().biometrics] *)
Record Biometrics := {
  b_expressionRange : option Number;
  b_psychomotorIndex : option Number;
  b_gazeStability : option Number;
  b_microTremorScore : option Number
}.

Record NeuroResult := {
  biometrics : option Biometrics;
  n_conditions : option (list Payload)
}.

Record DeceptionResult := {
  d_truthfulnessIndex : option Number;
  d_deceptionProbability : option Number;
  d_microExpressions : option (list Payload);
  d_deceptionTimeline : option (list Payload)
}.

Record VsaResult := { voiceStressScore : option Number }.

(** The empty object [{}] standing in for a missing record. *)
Definition no_metrics : Metrics := Build_Metrics None None None None None.
Definition no_biometrics : Biometrics := Build_Biometrics None None None None.
Definition no_deception : DeceptionResult := Build_DeceptionResult None None None None.

Record Params := {
  aggression : Number;
  stress : Number;
  tension : Number;
  suspect : Number;
  balance : Number;
  charm : Number;
  energy : Number;
  selfRegulation : Number;
  inhibition : Number;
  neuroticism : Number
}.

Record EmotionalVariation := { ev_score : Number; ev_label : string }.

Record StateOfMind := {
  stability : Number;
  pleasure : Number;
  quadrant : string
}.

Record Profile := {
  params : Params;
  voiceStress : Number;
  deceptionProb : Number;
  conditions : list Payload;
  microExpressions : list Payload;
  deceptionTimeline : list Payload;
  emotionalVariation : EmotionalVariation;
  vitalityIndex : Number;
  concentrationIndex : Number;
  stateOfMind : StateOfMind;
  timestamp : Z
}.

Definition clamp (v : Number) : Number :=
  Math_max (num 0) (Math_min (num 100) (Math_round v)).

Definition computeEmotionalVariation (p : Params) : EmotionalVariation :=
  let neg := [aggression p; stress p; tension p; neuroticism p] in
  let len := num (Z.of_nat (List.length neg)) in
  let avg := div (reduce (fun a b => add a b) (num 0) neg) len in
  let variance :=
    div (reduce (fun a b => add a (Math_pow2 (sub b avg))) (num 0) neg) len in
  let score := Math_round_sqrt_x2 variance in
  {| ev_score := clamp score;
     ev_label := if gt score (num 30) then "Unstable"
                 else if gt score (num 15) then "Moderate"
                 else "Stable" |}.

Definition computeVitality (energy stress neuroticism : Number) : Number :=
  let raw := sub energy (add (mul stress (Fin 0.4)) (mul neuroticism (Fin 0.3))) in
  Math_round_sigmoid_x100 raw.

Definition computeConcentration (gazeStability inhibition stress : Number) : Number :=
  clamp (Math_round
    (add (add (mul gazeStability (Fin 0.5))
              (mul (sub (num 100) inhibition) (Fin 0.3)))
         (mul (sub (num 100) stress) (Fin 0.2)))).

Definition classifyStateOfMind (p : Params) : StateOfMind :=
  let stability := balance p in
  let pleasure :=
    Math_round (sub (num 100) (div (add (stress p) (tension p)) (num 2))) in
  let quadrant :=
    if ge stability (num 50) && ge pleasure (num 50) then "Calm & Content"
    else if lt stability (num 50) && ge pleasure (num 50) then "Excited & Active"
    else if ge stability (num 50) && lt pleasure (num 50) then "Bored & Low"
    else "Distressed & Anxious" in
  {| stability := stability; pleasure := pleasure; quadrant := quadrant |}.

Definition or_empty (l : option (list Payload)) : list Payload :=
  match l with Some x => x | None => [] end.

(** [threat?.metrics || {}] *)
Definition metrics_of (threat : option ThreatResult) : Metrics :=
  match threat with
  | Some t => match metrics t with Some m => m | None => no_metrics end
  | None => no_metrics
  end.

(** [neuro?.biometrics || {}] *)
Definition biometrics_of (neuro : option NeuroResult) : Biometrics :=
  match neuro with
  | Some n => match biometrics n with Some b => b | None => no_biometrics end
  | None => no_biometrics
  end.

(** [deception || {}] *)
Definition deception_of (deception : option DeceptionResult) : DeceptionResult :=
  match deception with Some d => d | None => no_deception end.

(** [AlphaEye.compute]; [now] is the value of [Date.now()]. *)
Definition compute (threat : option ThreatResult) (deception : option DeceptionResult)
    (neuro : option NeuroResult) (vsa : option VsaResult) (now : Z) : Profile :=
  let m := metrics_of threat in
  let bio := biometrics_of neuro in
  let dec := deception_of deception in
  let aggression := clamp (or_default (m_aggression m) (num 30)) in
  let stress := clamp (or_default (m_stress m) (num 25)) in
  let tension := clamp (or_default (m_tension m) (num 20)) in
  let suspect := clamp (or_default (m_badIntent m) (num 25)) in
  let balance := clamp (or_default (m_stability m) (num 60)) in
  let expressionRange := clamp (or_default (b_expressionRange bio) (num 50)) in
  let truthfulness := clamp (or_default (d_truthfulnessIndex dec) (num 70)) in
  let charm := clamp (Math_round (add (mul truthfulness (Fin 0.6))
                                      (mul expressionRange (Fin 0.4)))) in
  let energy := clamp (or_default (b_psychomotorIndex bio) (num 50)) in
  let selfRegulation := clamp (Math_round (div (add balance charm) (num 2))) in
  let gazeStability := clamp (or_default (b_gazeStability bio) (num 60)) in
  let inhibition := clamp (Math_round (sub (num 100) gazeStability)) in
  let neuroticism := clamp (or_default (b_microTremorScore bio) (num 20)) in
  let params := {|
    aggression := aggression;
    stress := stress;
    tension := tension;
    suspect := suspect;
    balance := balance;
    charm := charm;
    energy := energy;
    selfRegulation := selfRegulation;
    inhibition := inhibition;
    neuroticism := neuroticism |} in
  let voiceStress :=
    clamp (or_default (match vsa with Some v => voiceStressScore v | None => None end)
                      (num 0)) in
  let deceptionProb := clamp (or_default (d_deceptionProbability dec) (num 0)) in
  let conditions :=
    or_empty (match neuro with Some n => n_conditions n | None => None end) in
  let microExpressions := or_empty (d_microExpressions dec) in
  let deceptionTimeline := or_empty (d_deceptionTimeline dec) in
  let emotionalVariation := computeEmotionalVariation params in
  let vitalityIndex := computeVitality energy stress neuroticism in
  let concentrationIndex := computeConcentration gazeStability inhibition stress in
  let stateOfMind := classifyStateOfMind params in
  {| params := params;
     voiceStress := voiceStress;
     deceptionProb := deceptionProb;
     conditions := conditions;
     microExpressions := microExpressions;
     deceptionTimeline := deceptionTimeline;
     emotionalVariation := emotionalVariation;
     vitalityIndex := vitalityIndex;
     concentrationIndex := concentrationIndex;
     stateOfMind := stateOfMind;
     timestamp := now |}.

Record Candidate := { key : string; score : Number }.

(** [getDominantState]; a property missing from [params] reads as
    [undefined], which behaves as [NaN] both in [100 - x] and in [x < 40].
    The two differences are rounded ([sub64]): scores that differ as
    rationals can be equal as Numbers.  The comparator and [< 40] are
    exact, which gives their sign and their answer on binary64 values. *)
Definition getDominantState (p : Params) : string :=
  let states := [
    {| key := "high-stress"; score := stress p |};
    {| key := "high-tension"; score := tension p |};
    {| key := "high-aggression"; score := aggression p |};
    {| key := "low-energy"; score := sub64 (num 100) (energy p) |};
    {| key := "low-balance"; score := sub64 (num 100) (balance p) |}
  ] in
  let sorted := sort (fun a b => sub (score b) (score a)) states in
  match sorted with
  | top :: _ => if lt (score top) (num 40) then "balanced" else key top
  | [] => "balanced"
  end.

End AlphaEye.

(* ================================================================== *)
(** * Text: JavaScript strings and the streaming UTF-8 decoder *)
(* ================================================================== *)

Module Text.

(** A JavaScript string is a sequence of UTF-16 code units. *)
Definition jsstring := list N.

(** The code units of an ASCII literal. *)
Definition str (s : string) : jsstring :=
  List.map (fun b => Byte.to_N b) (list_byte_of_string s).

Definition LF : N := 10.
Definition QUOTE : N := 34.

(** Literals of JSON text are written with ['] for the double quote and
    [~] for the line feed. *)
Definition unquote (c : N) : N :=
  if (c =? 39)%N then QUOTE else if (c =? 126)%N then LF else c.

Definition text (s : string) : jsstring := List.map unquote (str s).

Definition bytes (s : string) : list Byte.byte :=
  List.map (fun b => match Byte.of_N (unquote (Byte.to_N b)) with
                     | Some b' => b'
                     | None => b
                     end) (list_byte_of_string s).

Fixpoint eqb (a b : jsstring) : bool :=
  match a, b with
  | [], [] => true
  | x :: a', y :: b' => (x =? y)%N && eqb a' b'
  | _, _ => false
  end.

(** [s.split('\n')]: never empty; the last element is the text after the
    last line feed. *)
Fixpoint split_lines (s : jsstring) : list jsstring :=
  match s with
  | [] => [[]]
  | c :: t =>
      if (c =? LF)%N then [] :: split_lines t
      else match split_lines t with
           | l :: ls => (c :: l) :: ls
           | [] => [[c]]
           end
  end.

(** WhiteSpace and LineTerminator code units, as [String.prototype.trim]
    strips them. *)
Definition is_white_space (c : N) : bool :=
  ((9 <=? c) && (c <=? 13) || (c =? 32) || (c =? 160) || (c =? 5760)
   || (8192 <=? c) && (c <=? 8202) || (c =? 8232) || (c =? 8233)
   || (c =? 8239) || (c =? 8287) || (c =? 12288) || (c =? 65279))%N.

Fixpoint trim_start (s : jsstring) : jsstring :=
  match s with
  | c :: t => if is_white_space c then trim_start t else s
  | [] => []
  end.

Definition trim (s : jsstring) : jsstring :=
  rev (trim_start (rev (trim_start s))).

(** ** [TextDecoder('utf-8')] used with [{stream: true}]

    The decoder of the Encoding standard, one byte at a time; malformed
    input yields U+FFFD, a leading byte order mark is dropped, and the
    state is kept between calls. *)
Record utf8_state := {
  bytes_needed : N;
  bytes_seen : N;
  code_point : N;
  lower_boundary : N;
  upper_boundary : N;
  bom_seen : bool
}.

Definition utf8_init : utf8_state :=
  {| bytes_needed := 0; bytes_seen := 0; code_point := 0;
     lower_boundary := 128; upper_boundary := 191; bom_seen := false |}.

Definition utf8_reset (st : utf8_state) : utf8_state :=
  {| bytes_needed := 0; bytes_seen := 0; code_point := 0;
     lower_boundary := 128; upper_boundary := 191; bom_seen := bom_seen st |}.

Definition REPLACEMENT : N := 65533.

(** A byte met while no sequence is pending. *)
Definition utf8_lead (st : utf8_state) (b : N) : utf8_state * list N :=
  if (b <=? 127)%N then (st, [b])
  else if ((194 <=? b) && (b <=? 223))%N then
    ({| bytes_needed := 1; bytes_seen := 0; code_point := N.land b 31;
        lower_boundary := 128; upper_boundary := 191;
        bom_seen := bom_seen st |}, [])
  else if ((224 <=? b) && (b <=? 239))%N then
    ({| bytes_needed := 2; bytes_seen := 0; code_point := N.land b 15;
        lower_boundary := if (b =? 224)%N then 160 else 128;
        upper_boundary := if (b =? 237)%N then 159 else 191;
        bom_seen := bom_seen st |}, [])
  else if ((240 <=? b) && (b <=? 244))%N then
    ({| bytes_needed := 3; bytes_seen := 0; code_point := N.land b 7;
        lower_boundary := if (b =? 240)%N then 144 else 128;
        upper_boundary := if (b =? 244)%N then 143 else 191;
        bom_seen := bom_seen st |}, [])
  else (st, [REPLACEMENT]).

(** One byte through the decoder: the new state and the code points
    produced. *)
Definition utf8_handler (st : utf8_state) (b : N) : utf8_state * list N :=
  if (bytes_needed st =? 0)%N then utf8_lead st b
  else if ((b <? lower_boundary st) || (upper_boundary st <? b))%N then
    let '(st', out) := utf8_lead (utf8_reset st) b in
    (st', REPLACEMENT :: out)
  else
    let cp := N.lor (N.shiftl (code_point st) 6) (N.land b 63) in
    if (bytes_seen st + 1 =? bytes_needed st)%N then (utf8_reset st, [cp])
    else ({| bytes_needed := bytes_needed st; bytes_seen := bytes_seen st + 1;
             code_point := cp; lower_boundary := 128; upper_boundary := 191;
             bom_seen := bom_seen st |}, []).

(** Code points leaving the decoder: the first one is dropped when it is
    the byte order mark. *)
Fixpoint strip_bom (seen : bool) (cps : list N) : bool * list N :=
  match cps with
  | [] => (seen, [])
  | cp :: t =>
      if seen then (true, cps)
      else if (cp =? 65279)%N then strip_bom true t
      else (true, cps)
  end.

(** A code point as UTF-16 code units. *)
Definition utf16 (cp : N) : jsstring :=
  if (cp <? 65536)%N then [cp]
  else [55296 + N.shiftr (cp - 65536) 10; 56320 + N.land (cp - 65536) 1023]%N.

Definition utf8_decode_byte (st : utf8_state) (b : Byte.byte)
  : utf8_state * jsstring :=
  let '(st1, cps) := utf8_handler st (Byte.to_N b) in
  let '(seen, cps') := strip_bom (bom_seen st1) cps in
  ({| bytes_needed := bytes_needed st1; bytes_seen := bytes_seen st1;
      code_point := code_point st1; lower_boundary := lower_boundary st1;
      upper_boundary := upper_boundary st1; bom_seen := seen |},
   flat_map utf16 cps').

End Text.

(* ================================================================== *)
(** * JSON values and [JSON.parse] *)
(* ================================================================== *)

Module JSON.
Import JS Text.

Inductive json : Type :=
| JNull
| JBool (b : bool)
| JNumber (n : Number)
| JString (s : jsstring)
| JArray (items : list json)
| JObject (props : list (jsstring * json)).

(** What a property read or an expression evaluates to. *)
Inductive value : Type :=
| Undefined
| Val (j : json).

(** ToBoolean. *)
Definition truthy (v : value) : bool :=
  match v with
  | Undefined => false
  | Val JNull => false
  | Val (JBool b) => b
  | Val (JNumber n) => JS.truthy n
  | Val (JString s) => match s with [] => false | _ => true end
  | Val (JArray _) | Val (JObject _) => true
  end.

(** The own property [k] of a parsed object; a later duplicate key
    replaces an earlier one. *)
Fixpoint own_property (props : list (jsstring * json)) (k : jsstring) : value :=
  match props with
  | [] => Undefined
  | (k', v) :: rest =>
      match own_property rest k with
      | Undefined => if Text.eqb k' k then Val v else Undefined
      | found => found
      end
  end.

(** [v.k] for the property names read by the client ([message],
    [content], [done]), none of which is inherited from a prototype.
    Reading a property of [null] or [undefined] raises TypeError
    ([None]). *)
Definition get (v : value) (k : jsstring) : option value :=
  match v with
  | Undefined | Val JNull => None
  | Val (JObject props) => Some (own_property props k)
  | Val _ => Some Undefined
  end.

(** ** The parser *)

Definition is_ws (c : N) : bool :=
  ((c =? 32) || (c =? 9) || (c =? 10) || (c =? 13))%N.

Fixpoint skip_ws (s : jsstring) : jsstring :=
  match s with
  | c :: t => if is_ws c then skip_ws t else s
  | [] => []
  end.

Definition is_digit (c : N) : bool := ((48 <=? c) && (c <=? 57))%N.

Definition hex_value (c : N) : option N :=
  if is_digit c then Some (c - 48)%N
  else if ((97 <=? c) && (c <=? 102))%N then Some (c - 87)%N
  else if ((65 <=? c) && (c <=? 70))%N then Some (c - 55)%N
  else None.

(** The characters after the opening quote, up to and including the
    closing one. *)
Fixpoint string_body (s : jsstring) (acc : jsstring) : option (jsstring * jsstring) :=
  match s with
  | [] => None
  | c :: t =>
      if (c =? QUOTE)%N then Some (rev acc, t)
      else if (c <? 32)%N then None
      else if (c =? 92)%N then
        match t with
        | e :: t' =>
            if (e =? QUOTE)%N then string_body t' (QUOTE :: acc)
            else if (e =? 92)%N then string_body t' (92 :: acc)%N
            else if (e =? 47)%N then string_body t' (47 :: acc)%N
            else if (e =? 98)%N then string_body t' (8 :: acc)%N
            else if (e =? 102)%N then string_body t' (12 :: acc)%N
            else if (e =? 110)%N then string_body t' (10 :: acc)%N
            else if (e =? 114)%N then string_body t' (13 :: acc)%N
            else if (e =? 116)%N then string_body t' (9 :: acc)%N
            else if (e =? 117)%N then
              match t' with
              | h1 :: h2 :: h3 :: h4 :: t'' =>
                  match hex_value h1, hex_value h2, hex_value h3, hex_value h4 with
                  | Some a, Some b, Some c', Some d =>
                      string_body t'' ((((a * 16 + b) * 16 + c') * 16 + d)%N :: acc)
                  | _, _, _, _ => None
                  end
              | _ => None
              end
            else None
        | [] => None
        end
      else string_body t (c :: acc)
  end.

(** A run of digits: their value, how many there are, and the rest. *)
Fixpoint digits (s : jsstring) (acc : Z) (count : Z) : Z * Z * jsstring :=
  match s with
  | c :: t =>
      if is_digit c then digits t (acc * 10 + Z.of_N (c - 48)) (count + 1)
      else (acc, count, s)
  | [] => (acc, count, [])
  end.

Definition pow10 (e : Z) : Q :=
  if (0 <=? e)%Z then inject_Z (10 ^ e) else / inject_Z (10 ^ (- e)).

(** The Number a literal denotes.  The exact decimal value is kept,
    except that a magnitude which rounds to zero or to an infinity in
    binary64 is replaced by that result. *)
Definition number_of (negative : bool) (mantissa : Z) (exponent : Z) : Number :=
  let q := (inject_Z mantissa * pow10 exponent)%Q in
  let signed := if negative then (- q)%Q else q in
  if Qle_bool q (1 # (2 ^ 1075)) then Fin 0
  else if Qle_bool (inject_Z (2 ^ 1024 - 2 ^ 970)) q then
    (if negative then NegInf else PosInf)
  else Fin signed.

(** [-? int frac? exp?] *)
Definition number (s : jsstring) : option (Number * jsstring) :=
  let '(negative, s1) :=
    match s with
    | c :: t => if (c =? 45)%N then (true, t) else (false, s)
    | [] => (false, s)
    end in
  let '(int, ni, s2) := digits s1 0 0 in
  let leading_zero :=
    match s1 with c :: _ => (c =? 48)%N | [] => false end in
  if (ni =? 0)%Z || (leading_zero && (1 <? ni)%Z) then None
  else
    let frac :=
      match s2 with
      | c :: t =>
          if (c =? 46)%N then
            let '(m, nf, s3) := digits t int 0 in
            if (nf =? 0)%Z then None else Some (m, nf, s3)
          else Some (int, 0%Z, s2)
      | [] => Some (int, 0%Z, s2)
      end in
    match frac with
    | None => None
    | Some (m, nf, s3) =>
        match s3 with
        | c :: t =>
            if ((c =? 101) || (c =? 69))%N then
              let '(eneg, s4) :=
                match t with
                | c' :: t' =>
                    if (c' =? 45)%N then (true, t')
                    else if (c' =? 43)%N then (false, t')
                    else (false, t)
                | [] => (false, t)
                end in
              let '(e, ne, s5) := digits s4 0 0 in
              if (ne =? 0)%Z then None
              else Some (number_of negative m ((if eneg then - e else e) - nf), s5)
            else Some (number_of negative m (- nf), s3)
        | [] => Some (number_of negative m (- nf), s3)
        end
    end.

Fixpoint starts_with (lit s : jsstring) : option jsstring :=
  match lit, s with
  | [], _ => Some s
  | a :: lit', b :: s' => if (a =? b)%N then starts_with lit' s' else None
  | _ :: _, [] => None
  end.

(** One JSON value after optional white space; [fuel] bounds the number
    of nested calls. *)
Fixpoint parse_value (fuel : nat) (s : jsstring) : option (json * jsstring) :=
  match fuel with
  | O => None
  | S n =>
      match skip_ws s with
      | [] => None
      | c :: t =>
          if (c =? 123)%N then
            match skip_ws t with
            | c' :: t' =>
                if (c' =? 125)%N then Some (JObject [], t')
                else parse_members n (c' :: t') []
            | [] => None
            end
          else if (c =? 91)%N then
            match skip_ws t with
            | c' :: t' =>
                if (c' =? 93)%N then Some (JArray [], t')
                else parse_elements n (c' :: t') []
            | [] => None
            end
          else if (c =? QUOTE)%N then
            match string_body t [] with
            | Some (str, rest) => Some (JString str, rest)
            | None => None
            end
          else if (c =? 116)%N then
            match starts_with (str "rue") t with
            | Some rest => Some (JBool true, rest)
            | None => None
            end
          else if (c =? 102)%N then
            match starts_with (str "alse") t with
            | Some rest => Some (JBool false, rest)
            | None => None
            end
          else if (c =? 110)%N then
            match starts_with (str "ull") t with
            | Some rest => Some (JNull, rest)
            | None => None
            end
          else
            match number (c :: t) with
            | Some (x, rest) => Some (JNumber x, rest)
            | None => None
            end
      end
  end

with parse_members (fuel : nat) (s : jsstring) (acc : list (jsstring * json))
  : option (json * jsstring) :=
  match fuel with
  | O => None
  | S n =>
      match skip_ws s with
      | c :: t =>
          if (c =? QUOTE)%N then
            match string_body t [] with
            | Some (k, r) =>
                match skip_ws r with
                | c2 :: r2 =>
                    if (c2 =? 58)%N then
                      match parse_value n r2 with
                      | Some (v, r3) =>
                          match skip_ws r3 with
                          | c3 :: r4 =>
                              if (c3 =? 44)%N then
                                parse_members n r4 (acc ++ [(k, v)])
                              else if (c3 =? 125)%N then
                                Some (JObject (acc ++ [(k, v)]), r4)
                              else None
                          | [] => None
                          end
                      | None => None
                      end
                    else None
                | [] => None
                end
            | None => None
            end
          else None
      | [] => None
      end
  end

with parse_elements (fuel : nat) (s : jsstring) (acc : list json)
  : option (json * jsstring) :=
  match fuel with
  | O => None
  | S n =>
      match parse_value n s with
      | Some (v, r) =>
          match skip_ws r with
          | c :: r' =>
              if (c =? 44)%N then parse_elements n r' (acc ++ [v])
              else if (c =? 93)%N then Some (JArray (acc ++ [v]), r')
              else None
          | [] => None
          end
      | None => None
      end
  end.

(** [JSON.parse(text)]; [None] stands for the SyntaxError it raises. *)
Definition parse (s : jsstring) : option json :=
  match parse_value (2 * List.length s + 2) s with
  | Some (v, rest) => match skip_ws rest with [] => Some v | _ => None end
  | None => None
  end.

End JSON.

(* ================================================================== *)
(** * OllamaClient.chat (js/ollama.js) *)
(* ================================================================== *)

Module OllamaClient.
Import Text JSON.

(** How the token sequence came to its end: a record with [done] set
    made the generator return, or the transport reported the end of the
    body. *)
Inductive ending : Type :=
| DoneRecord
| TransportEnd.

(** The response handed back by [fetch]: [ok], [status], and the chunks
    that successive [reader.read()] calls deliver before [done].  A read
    that rejects (a transport failure, [abort()]) is not represented. *)
Record Response := {
  ok : bool;
  status : Z;
  body : list (list Byte.byte)
}.

Inductive result : Type :=
| HttpError (status : Z)
| Tokens (yielded : list value) (e : ending).

Section Chat.
(** The text decoder, one byte at a time, and [JSON.parse]. *)
Variable decoder : Type.
Variable decode_byte : decoder -> Byte.byte -> decoder * jsstring.
Variable JSON_parse : jsstring -> option json.

(** [decoder.decode(value, { stream: true })] *)
Fixpoint decode (d : decoder) (chunk : list Byte.byte) : decoder * jsstring :=
  match chunk with
  | [] => (d, [])
  | b :: rest =>
      let '(d1, out) := decode_byte d b in
      let '(d2, out') := decode d1 rest in
      (d2, out ++ out')
  end.

(** The body of the [for] loop on one line: the tokens it yields and
    whether it executes [return]. *)
Definition on_line (line : jsstring) : list value * bool :=
  match trim line with
  | [] => ([], false)
  | _ :: _ =>
      match JSON_parse line with
      | None => ([], false)
      | Some j =>
          let json := Val j in
          match get json (str "message") with
          | None => ([], false)
          | Some message =>
              let content :=
                if truthy message then
                  match get message (str "content") with
                  | Some c => c
                  | None => Undefined
                  end
                else message in
              let yielded := if truthy content then [content] else [] in
              match get json (str "done") with
              | Some done => (yielded, truthy done)
              | None => (yielded, false)
              end
          end
      end
  end.

(** [for (const line of lines) { ... }] *)
Fixpoint for_lines (lines : list jsstring) : list value * bool :=
  match lines with
  | [] => ([], false)
  | line :: rest =>
      let '(yielded, returned) := on_line line in
      if returned then (yielded, true)
      else
        let '(more, r) := for_lines rest in
        (yielded ++ more, r)
  end.

(** [while (true) { ... }] over the chunks still to come. *)
Fixpoint read_loop (chunks : list (list Byte.byte)) (d : decoder)
    (buffer : jsstring) : list value * ending :=
  match chunks with
  | [] => ([], TransportEnd)
  | value :: rest =>
      let '(d', decoded) := decode d value in
      let buffer := buffer ++ decoded in
      let lines := split_lines buffer in
      let buffer := last lines [] in
      let lines := removelast lines in
      let '(yielded, returned) := for_lines lines in
      if returned then (yielded, DoneRecord)
      else
        let '(more, e) := read_loop rest d' buffer in
        (yielded ++ more, e)
  end.

Variable new_decoder : decoder.

Definition chat (resp : Response) : result :=
  if negb (ok resp) then HttpError (status resp)
  else
    let '(yielded, e) := read_loop (body resp) new_decoder [] in
    Tokens yielded e.
End Chat.

(** The client as it runs: UTF-8 decoding and the JSON parser above. *)
Definition chat_utf8 : Response -> result :=
  chat utf8_decode_byte JSON.parse utf8_init.

End OllamaClient.

(* ================================================================== *)
(** * TherapyEngine (js/ollama.js): the labels of the directions *)
(* ================================================================== *)

Module TherapyEngine.
Local Open Scope string_scope.

Definition directions : list (string * string) :=
  [("high-stress", "Calming"); ("high-tension", "Relaxing");
   ("low-energy", "Uplifting"); ("high-aggression", "Soothing");
   ("low-balance", "Centering"); ("balanced", "Balanced")].

Fixpoint lookup (table : list (string * string)) (k : string) : option string :=
  match table with
  | [] => None
  | (k', v) :: rest => if String.eqb k' k then Some v else lookup rest k
  end.

(** [getDirection(state).label] *)
Definition getDirection_label (state : string) : string :=
  match lookup directions state with
  | Some l => l
  | None => "Balanced"
  end.

Definition lower (c : ascii) : ascii :=
  let n := nat_of_ascii c in
  if ((65 <=? n) && (n <=? 90))%nat then ascii_of_nat (n + 32) else c.

Fixpoint toLowerCase (s : string) : string :=
  match s with
  | EmptyString => EmptyString
  | String c t => String (lower c) (toLowerCase t)
  end.

End TherapyEngine.

(* ================================================================== *)
(** * Scan orchestration: what the two orchestrators share *)
(* ================================================================== *)

Module Scan.
Import JS AlphaEye.
Local Open Scope string_scope.

(** A call either returns or throws an [Error] with a message. *)
Inductive outcome (A : Type) : Type :=
| Returned (a : A)
| Threw (message : string).
Arguments Returned {A} a.
Arguments Threw {A} message.

Definition bind {A B : Type} (x : outcome A) (k : A -> outcome B) : outcome B :=
  match x with
  | Returned a => k a
  | Threw m => Threw m
  end.

Notation "x <- c ;; k" := (bind c (fun x => k))
  (at level 61, c at next level, right associativity).

(** An element of [scanHistory]. *)
Record HistoryEntry := {
  h_timestamp : Z;
  h_params : Params;
  h_stateOfMind : StateOfMind;
  h_dominantState : string
}.

(** What a step does to the world outside the orchestrator's variables,
    in the order it happens. *)
Inductive Effect : Type :=
| GetUserMediaVideo
| GetUserMediaAudio
| StopCameraTracks
| StopMicrophoneTracks
| SetInterval
| ClearInterval
| DetectLoop
| UpdateScanUI
| ShowResults
| StartMonitoring
| ConsoleError (message : string)
| ShowToast (message : string) (type : string)
| AppendChatBubble (role : string) (message : string)
| AvatarSpeak (message : string).

(** The devices and the clock at the time a scan is started. *)
Record Devices := {
  camera_granted : bool;
  microphone_granted : bool;
  clock_start : Z
}.

(** What the engines answer when a scan completes, and the two readings
    of [Date.now()]. *)
Record Analysis := {
  vsa_fullAnalysis : outcome (option VsaResult);
  threat_fullAnalysis : outcome (option ThreatResult);
  deception_fullAnalysis : outcome (option DeceptionResult);
  threat_frameHistory : outcome unit;
  neuro_analyze : outcome (option NeuroResult);
  clock_profile : Z;
  clock_entry : Z
}.

(** The fusion step as the orchestrators call it. *)
Definition Fusion : Type :=
  option ThreatResult -> option DeceptionResult -> option NeuroResult ->
  option VsaResult -> Z -> outcome Profile.

Definition AlphaEye_compute : Fusion :=
  fun threat deception neuro vsa now =>
    Returned (compute threat deception neuro vsa now).

(** The statements of the [try] block up to and including the call of
    [AlphaEye.compute]. *)
Definition analyse (fuse : Fusion) (a : Analysis) : outcome Profile :=
  vsaResult <- vsa_fullAnalysis a ;;
  threatResult <- threat_fullAnalysis a ;;
  deceptionResult <- deception_fullAnalysis a ;;
  _ <- threat_frameHistory a ;;
  neuroResult <- neuro_analyze a ;;
  fuse threatResult deceptionResult neuroResult vsaResult (clock_profile a).

Definition history_entry (a : Analysis) (p : Profile) : HistoryEntry :=
  {| h_timestamp := clock_entry a;
     h_params := params p;
     h_stateOfMind := stateOfMind p;
     h_dominantState := getDominantState (params p) |}.

(** [loadHistory]: what is stored under [HISTORY_KEY], or the empty
    array when nothing is. *)
Definition loadHistory (stored : option (list HistoryEntry)) : list HistoryEntry :=
  match stored with
  | Some saved => saved
  | None => []
  end.

(** [scanHistory.slice(0, 10)] as [saveHistory] writes it under
    [HISTORY_KEY]. *)
Definition saved_history (scanHistory : list HistoryEntry) : list HistoryEntry :=
  firstn 10 scanHistory.

End Scan.

(* ================================================================== *)
(** * The tabbed orchestrator *)
(* ================================================================== *)

Module Tabs.
Import JS AlphaEye Scan.
Local Open Scope string_scope.

Inductive AppState : Type :=
| IDLE
| LOADING_MODELS
| READY
| SCANNING
| ANALYZING
| RESULTS.

(** The orchestrator's variables; [cameraStream], [audioStream] and
    [scanTimer] record whether the variable is non-null, [stored_history]
    is the entry of [localStorage] under [HISTORY_KEY], [engine_resets]
    counts the re-creations of the threat and deception engines. *)
Record State := {
  appState : AppState;
  isScanning : bool;
  frameCount : nat;
  cameraStream : bool;
  audioStream : bool;
  scanTimer : bool;
  scanStartTime : option Z;
  lastProfile : option Profile;
  scanHistory : list HistoryEntry;
  stored_history : option (list HistoryEntry);
  engine_resets : nat;
  effects : list Effect
}.

Definition emit (e : list Effect) (s : State) : State :=
  {| appState := appState s; isScanning := isScanning s;
     frameCount := frameCount s; cameraStream := cameraStream s;
     audioStream := audioStream s; scanTimer := scanTimer s;
     scanStartTime := scanStartTime s; lastProfile := lastProfile s;
     scanHistory := scanHistory s; stored_history := stored_history s;
     engine_resets := engine_resets s; effects := effects s ++ e |}.

Definition set_devices (camera audio : bool) (s : State) : State :=
  {| appState := appState s; isScanning := isScanning s;
     frameCount := frameCount s; cameraStream := camera;
     audioStream := audio; scanTimer := scanTimer s;
     scanStartTime := scanStartTime s; lastProfile := lastProfile s;
     scanHistory := scanHistory s; stored_history := stored_history s;
     engine_resets := engine_resets s; effects := effects s |}.

(** [isScanning], [scanTimer] and [appState] are always assigned
    together. *)
Definition set_phase (a : AppState) (scanning timer : bool) (s : State) : State :=
  {| appState := a; isScanning := scanning;
     frameCount := frameCount s; cameraStream := cameraStream s;
     audioStream := audioStream s; scanTimer := timer;
     scanStartTime := scanStartTime s; lastProfile := lastProfile s;
     scanHistory := scanHistory s; stored_history := stored_history s;
     engine_resets := engine_resets s; effects := effects s |}.

Definition set_appState (a : AppState) (s : State) : State :=
  set_phase a (isScanning s) (scanTimer s) s.

Definition startCamera (d : Devices) (s : State) : bool * State :=
  if camera_granted d then
    (true, set_devices true (audioStream s) (emit [GetUserMediaVideo] s))
  else
    (false, emit [GetUserMediaVideo; ConsoleError "Camera error:";
                  ShowToast "Camera access denied" "error"] s).

Definition stopCamera (s : State) : State :=
  if cameraStream s then
    set_devices false (audioStream s) (emit [StopCameraTracks] s)
  else s.

Definition startMicrophone (d : Devices) (s : State) : State :=
  if microphone_granted d then
    set_devices (cameraStream s) true (emit [GetUserMediaAudio] s)
  else emit [GetUserMediaAudio] s.

Definition stopMicrophone (s : State) : State :=
  if audioStream s then
    set_devices (cameraStream s) false (emit [StopMicrophoneTracks] s)
  else s.

Definition stopScan (s : State) : State :=
  let s := emit [ClearInterval] s in
  let s := set_phase READY false false s in
  let s := emit [UpdateScanUI] s in
  stopMicrophone (stopCamera s).

Definition startScan (d : Devices) (s : State) : State :=
  match appState s with
  | SCANNING => stopScan s
  | _ =>
      let '(camOk, s) := startCamera d s in
      if negb camOk then s
      else
        let s := startMicrophone d s in
        let s :=
          {| appState := SCANNING; isScanning := true; frameCount := 0;
             cameraStream := cameraStream s; audioStream := audioStream s;
             scanTimer := true; scanStartTime := Some (clock_start d);
             lastProfile := lastProfile s; scanHistory := scanHistory s;
             stored_history := stored_history s;
             engine_resets := S (engine_resets s);
             effects := effects s ++ [UpdateScanUI; DetectLoop; SetInterval] |} in
        s
  end.

(** [scanHistory.unshift(entry); saveHistory()] together with the
    assignment of [lastProfile] that precedes them. *)
Definition record_profile (a : Analysis) (p : Profile) (s : State) : State :=
  let history := history_entry a p :: scanHistory s in
  {| appState := appState s; isScanning := isScanning s;
     frameCount := frameCount s; cameraStream := cameraStream s;
     audioStream := audioStream s; scanTimer := scanTimer s;
     scanStartTime := scanStartTime s; lastProfile := Some p;
     scanHistory := history;
     stored_history := Some (saved_history history);
     engine_resets := engine_resets s; effects := effects s |}.

Definition completeScan (fuse : Fusion) (a : Analysis) (s : State) : State :=
  let s := emit [ClearInterval] s in
  let s := set_phase ANALYZING false false s in
  let s := emit [UpdateScanUI] s in
  let s :=
    match analyse fuse a with
    | Returned profile =>
        let s := record_profile a profile s in
        let s := set_appState RESULTS s in
        emit [ShowResults; ShowToast "Scan complete! Viewing results." "success"] s
    | Threw message =>
        let s := emit [ConsoleError "Analysis error:";
                       ShowToast ("Analysis error: " ++ message) "error"] s in
        set_appState READY s
    end in
  let s := emit [UpdateScanUI] s in
  stopMicrophone (stopCamera s).

End Tabs.

(* ================================================================== *)
(** * The avatar-first orchestrator (js/ollama.js) *)
(* ================================================================== *)

Module Avatar.
Import JS AlphaEye Scan.
Local Open Scope string_scope.

(** As in [Tabs.State]; this orchestrator keeps no [appState], and
    [monitorInterval] records whether the interval of the background
    monitoring is set. *)
Record State := {
  isScanning : bool;
  modelsLoaded : bool;
  frameCount : nat;
  cameraStream : bool;
  audioStream : bool;
  scanTimer : bool;
  scanStartTime : option Z;
  lastProfile : option Profile;
  monitorInterval : bool;
  scanHistory : list HistoryEntry;
  stored_history : option (list HistoryEntry);
  engine_resets : nat;
  effects : list Effect
}.

Definition emit (e : list Effect) (s : State) : State :=
  {| isScanning := isScanning s; modelsLoaded := modelsLoaded s;
     frameCount := frameCount s; cameraStream := cameraStream s;
     audioStream := audioStream s; scanTimer := scanTimer s;
     scanStartTime := scanStartTime s; lastProfile := lastProfile s;
     monitorInterval := monitorInterval s;
     scanHistory := scanHistory s; stored_history := stored_history s;
     engine_resets := engine_resets s; effects := effects s ++ e |}.

Definition set_devices (camera audio : bool) (s : State) : State :=
  {| isScanning := isScanning s; modelsLoaded := modelsLoaded s;
     frameCount := frameCount s; cameraStream := camera;
     audioStream := audio; scanTimer := scanTimer s;
     scanStartTime := scanStartTime s; lastProfile := lastProfile s;
     monitorInterval := monitorInterval s;
     scanHistory := scanHistory s; stored_history := stored_history s;
     engine_resets := engine_resets s; effects := effects s |}.

Definition set_scanning (scanning timer : bool) (s : State) : State :=
  {| isScanning := scanning; modelsLoaded := modelsLoaded s;
     frameCount := frameCount s; cameraStream := cameraStream s;
     audioStream := audioStream s; scanTimer := timer;
     scanStartTime := scanStartTime s; lastProfile := lastProfile s;
     monitorInterval := monitorInterval s;
     scanHistory := scanHistory s; stored_history := stored_history s;
     engine_resets := engine_resets s; effects := effects s |}.

Definition startCamera (d : Devices) (s : State) : bool * State :=
  if cameraStream s then (true, s)
  else if camera_granted d then
    (true, set_devices true (audioStream s) (emit [GetUserMediaVideo] s))
  else (false, emit [GetUserMediaVideo; ConsoleError "Camera error:"] s).

Definition stopCamera (s : State) : State :=
  if cameraStream s then
    set_devices false (audioStream s) (emit [StopCameraTracks] s)
  else s.

Definition startMicrophone (d : Devices) (s : State) : State :=
  if microphone_granted d then
    set_devices (cameraStream s) true (emit [GetUserMediaAudio] s)
  else emit [GetUserMediaAudio] s.

Definition stopMicrophone (s : State) : State :=
  if audioStream s then
    set_devices (cameraStream s) false (emit [StopMicrophoneTracks] s)
  else s.

Definition triggerScan (d : Devices) (s : State) : State :=
  if isScanning s then s
  else if negb (modelsLoaded s) then
    emit [ShowToast "Face detection not ready" "error"] s
  else
    let '(camOk, s) := startCamera d s in
    if negb camOk then
      emit [ShowToast "Camera access required for scanning" "error";
            AppendChatBubble "assistant"
              "I couldn't access your camera. Please allow camera access and try again."] s
    else
      let s := startMicrophone d s in
      {| isScanning := true; modelsLoaded := modelsLoaded s; frameCount := 0;
         cameraStream := cameraStream s; audioStream := audioStream s;
         scanTimer := true; scanStartTime := Some (clock_start d);
         lastProfile := lastProfile s; monitorInterval := monitorInterval s;
         scanHistory := scanHistory s; stored_history := stored_history s;
         engine_resets := S (engine_resets s);
         effects := effects s ++ [UpdateScanUI; DetectLoop; SetInterval] |}.

Definition stopScan (s : State) : State :=
  let s := if scanTimer s then emit [ClearInterval] s else s in
  let s := set_scanning false false s in
  let s := emit [UpdateScanUI] s in
  stopMicrophone (stopCamera s).

Definition record_profile (a : Analysis) (p : Profile) (s : State) : State :=
  let history := history_entry a p :: scanHistory s in
  {| isScanning := isScanning s; modelsLoaded := modelsLoaded s;
     frameCount := frameCount s; cameraStream := cameraStream s;
     audioStream := audioStream s; scanTimer := scanTimer s;
     scanStartTime := scanStartTime s; lastProfile := Some p;
     monitorInterval := monitorInterval s;
     scanHistory := history;
     stored_history := Some (saved_history history);
     engine_resets := engine_resets s; effects := effects s |}.

Definition set_monitorInterval (m : bool) (s : State) : State :=
  {| isScanning := isScanning s; modelsLoaded := modelsLoaded s;
     frameCount := frameCount s; cameraStream := cameraStream s;
     audioStream := audioStream s; scanTimer := scanTimer s;
     scanStartTime := scanStartTime s; lastProfile := lastProfile s;
     monitorInterval := m;
     scanHistory := scanHistory s; stored_history := stored_history s;
     engine_resets := engine_resets s; effects := effects s |}.

(** [startMonitoring()] as far as it runs inside its caller, which does
    not await it: the guard, and [startCamera()] up to its first
    [await], which calls [getUserMedia] when no camera is held.  What is
    left runs after the caller has finished ([monitoring_resumes]). *)
Definition startMonitoring (s : State) : State :=
  if monitorInterval s then s
  else if cameraStream s then emit [StartMonitoring] s
  else emit [StartMonitoring; GetUserMediaVideo] s.

(** What a call of [startMonitoring()] leaves to run later: nothing
    behind the guard; the [then] callback alone when a camera was held,
    [startCamera()] having answered [true] at once; otherwise the rest of
    [startCamera()] as well, which waits for [getUserMedia]. *)
Inductive Pending : Type :=
| NothingPending
| CameraWasHeld
| CameraRequested.

Definition startMonitoring_pending (s : State) : Pending :=
  if monitorInterval s then NothingPending
  else if cameraStream s then CameraWasHeld
  else CameraRequested.

(** The pending part, run once [getUserMedia] has answered: on a grant
    [cameraStream] is assigned and [startCamera()] answers [true], so the
    callback sets [monitorInterval]; on a refusal the error is logged and
    the callback returns. *)
Definition monitoring_resumes (k : Pending) (d : Devices) (s : State) : State :=
  match k with
  | NothingPending => s
  | CameraWasHeld => set_monitorInterval true (emit [SetInterval] s)
  | CameraRequested =>
      if camera_granted d then
        set_monitorInterval true
          (emit [SetInterval] (set_devices true (audioStream s) s))
      else emit [ConsoleError "Camera error:"] s
  end.

Definition completeScan (fuse : Fusion) (a : Analysis) (s : State) : State :=
  let s := if scanTimer s then emit [ClearInterval] s else s in
  let s := set_scanning false false s in
  let s := emit [UpdateScanUI] s in
  let s :=
    match analyse fuse a with
    | Returned profile =>
        let s := record_profile a profile s in
        let state := getDominantState (params profile) in
        let label := TherapyEngine.getDirection_label state in
        let quadrant := quadrant (stateOfMind profile) in
        let s := emit [AvatarSpeak ("I've read you. You seem "
                                    ++ TherapyEngine.toLowerCase quadrant ++ ".");
                       AppendChatBubble "assistant"
                         ("I've completed your reading! Your state of mind: "
                          ++ quadrant ++ ". I'm here with "
                          ++ TherapyEngine.toLowerCase label
                          ++ " guidance. Check the Results tab for your full profile, or let's talk about how you're feeling.");
                       ShowResults] s in
        startMonitoring s
    | Threw message =>
        emit [ConsoleError "Analysis error:";
              AppendChatBubble "assistant"
                "I had trouble reading you this time. Let's just chat instead!"] s
    end in
  stopMicrophone (stopCamera s).

(** What [completeScan] leaves pending: its call of [startMonitoring()]
    sees the [monitorInterval] and the [cameraStream] that [completeScan]
    was entered with, since nothing before the call assigns them. *)
Definition completeScan_pending (fuse : Fusion) (a : Analysis) (s : State)
  : Pending :=
  match analyse fuse a with
  | Returned _ => startMonitoring_pending s
  | Threw _ => NothingPending
  end.

(** [completeScan] followed by what it left pending. *)
Definition completeScan_settled (fuse : Fusion) (a : Analysis) (d : Devices)
    (s : State) : State :=
  monitoring_resumes (completeScan_pending fuse a s) d (completeScan fuse a s).

End Avatar.

(* ================================================================== *)
(** * Opening a history entry (settings panel of both orchestrators) *)
(* ================================================================== *)

Module Replay.
Import JS AlphaEye Scan.

(** The object assigned to [lastProfile] when a history item is
    clicked; it has no [microExpressions]. *)
Record ReplayedProfile := {
  r_params : Params;
  r_stateOfMind : StateOfMind;
  r_vitalityIndex : Number;
  r_concentrationIndex : Number;
  r_emotionalVariation : EmotionalVariation;
  r_voiceStress : Number;
  r_deceptionProb : Number;
  r_conditions : list Payload;
  r_deceptionTimeline : list Payload;
  r_timestamp : Z
}.

(** The avatar-first orchestrator builds the object in one go. *)
Definition avatar_replay (scan : HistoryEntry) : ReplayedProfile :=
  {| r_params := h_params scan;
     r_stateOfMind := h_stateOfMind scan;
     r_vitalityIndex :=
       computeVitality (energy (h_params scan)) (stress (h_params scan))
                       (neuroticism (h_params scan));
     r_concentrationIndex :=
       computeConcentration (sub (num 100) (inhibition (h_params scan)))
                            (inhibition (h_params scan)) (stress (h_params scan));
     r_emotionalVariation := computeEmotionalVariation (h_params scan);
     r_voiceStress := num 0;
     r_deceptionProb := num 0;
     r_conditions := [];
     r_deceptionTimeline := [];
     r_timestamp := h_timestamp scan |}.

Definition set_vitalityIndex (v : Number) (r : ReplayedProfile) : ReplayedProfile :=
  {| r_params := r_params r; r_stateOfMind := r_stateOfMind r;
     r_vitalityIndex := v; r_concentrationIndex := r_concentrationIndex r;
     r_emotionalVariation := r_emotionalVariation r;
     r_voiceStress := r_voiceStress r; r_deceptionProb := r_deceptionProb r;
     r_conditions := r_conditions r;
     r_deceptionTimeline := r_deceptionTimeline r;
     r_timestamp := r_timestamp r |}.

Definition set_concentrationIndex (c : Number) (r : ReplayedProfile) : ReplayedProfile :=
  {| r_params := r_params r; r_stateOfMind := r_stateOfMind r;
     r_vitalityIndex := r_vitalityIndex r; r_concentrationIndex := c;
     r_emotionalVariation := r_emotionalVariation r;
     r_voiceStress := r_voiceStress r; r_deceptionProb := r_deceptionProb r;
     r_conditions := r_conditions r;
     r_deceptionTimeline := r_deceptionTimeline r;
     r_timestamp := r_timestamp r |}.

(** The tabbed orchestrator starts from placeholders (vitality 0,
    concentration 50) and then assigns the two indices. *)
Definition tabs_replay (scan : HistoryEntry) : ReplayedProfile :=
  let lastProfile :=
    {| r_params := h_params scan;
       r_stateOfMind := h_stateOfMind scan;
       r_vitalityIndex := num 0;
       r_concentrationIndex := num 50;
       r_emotionalVariation := computeEmotionalVariation (h_params scan);
       r_voiceStress := num 0;
       r_deceptionProb := num 0;
       r_conditions := [];
       r_deceptionTimeline := [];
       r_timestamp := h_timestamp scan |} in
  let lastProfile :=
    set_vitalityIndex
      (computeVitality (energy (h_params scan)) (stress (h_params scan))
                       (neuroticism (h_params scan))) lastProfile in
  set_concentrationIndex
    (computeConcentration (sub (num 100) (inhibition (h_params scan)))
                          (inhibition (h_params scan)) (stress (h_params scan)))
    lastProfile.

(** [const scan = scanHistory[idx]; if (scan) { ... }] *)
Definition open_history_item (replay : HistoryEntry -> ReplayedProfile)
    (scanHistory : list HistoryEntry) (idx : nat) : option ReplayedProfile :=
  match nth_error scanHistory idx with
  | Some scan => Some (replay scan)
  | None => None
  end.

End Replay.

(* ================================================================== *)
(** * The request of [OllamaClient.chat] and the connection probe *)
(* ================================================================== *)

Module OllamaRequest.
Import JS Text.

(** An element of [messages]. *)
Record Message := {
  role : string;
  content : jsstring
}.

(** The body of the POST to [/api/chat]. *)
Record Request := {
  model : string;
  messages : list Message;
  stream : bool;
  num_ctx : Z;
  temperature : Q
}.

(** [arr.slice(-n)]: the last [n] elements, all of them when there are
    fewer. *)
Definition slice_last {A : Type} (n : nat) (arr : list A) : list A :=
  skipn (List.length arr - n) arr.

(** The request [chat(messages, systemPrompt)] sends; a missing prompt is
    [None], and an empty one is falsy as well. *)
Definition build (model : string) (messages : list Message)
    (systemPrompt : option jsstring) : Request :=
  let allMessages :=
    match systemPrompt with
    | Some (c :: p) => [{| role := "system"; content := c :: p |}]
    | Some [] | None => []
    end in
  let allMessages := allMessages ++ slice_last 6 messages in
  {| model := model;
     messages := allMessages;
     stream := true;
     num_ctx := 2048;
     temperature := 0.7 |}.

(** What [fetch] of [/api/tags] does in [testConnection]. *)
Inductive probe : Type :=
| Responded (ok : bool)
| Rejected.

(** [testConnection]: the value returned and the new [connected]. *)
Definition testConnection (p : probe) (connected : bool) : bool * bool :=
  match p with
  | Responded true => (true, true)
  | Responded false => (false, connected)
  | Rejected => (false, false)
  end.

End OllamaRequest.

(* ================================================================== *)
(** * The countdown, navigation and background monitoring *)
(* ================================================================== *)

Module Session.
Import JS AlphaEye Scan.
Local Open Scope string_scope.

(** The callback of the countdown [setInterval] of the tabbed
    orchestrator, run at time [now = fst tick]; [duration] is
    [settings.scanDuration * 1000], and a [scanStartTime] that is [null]
    counts as [0] in the subtraction.  The callback tests nothing but
    the time. *)
Definition scanTimer_tick (fuse : Fusion) (duration : Z)
    (tick : Z * Analysis) (s : Tabs.State) : Tabs.State :=
  let now := fst tick in
  let elapsed :=
    (now - match Tabs.scanStartTime s with Some t => t | None => 0 end)%Z in
  let remaining := Z.max 0 (duration - elapsed) in
  if (remaining <=? 0)%Z then Tabs.completeScan fuse (snd tick) s else s.

(** The tabbed orchestrator together with [chatMonitorInterval]. *)
Record TabsSession := {
  scan : Tabs.State;
  chatMonitorInterval : bool
}.

Definition startChatMonitoring (d : Devices) (ses : TabsSession) : TabsSession :=
  if chatMonitorInterval ses then ses
  else
    let '(ok, s) := Tabs.startCamera d (scan ses) in
    if ok then {| scan := Tabs.emit [SetInterval] s; chatMonitorInterval := true |}
    else {| scan := s; chatMonitorInterval := false |}.

Definition stopChatMonitoring (ses : TabsSession) : TabsSession :=
  let s := if chatMonitorInterval ses
           then Tabs.emit [ClearInterval] (scan ses)
           else scan ses in
  {| scan := Tabs.stopCamera s; chatMonitorInterval := false |}.

(** The click handler of a navigation item of the tabbed orchestrator. *)
Definition tabs_navigate (d : Devices) (tab : string) (ses : TabsSession)
  : TabsSession :=
  match tab with
  | EmptyString => ses
  | _ =>
      let shown :=
        if String.eqb tab "panelResults" then
          match Tabs.lastProfile (scan ses) with
          | Some _ => Tabs.emit [ShowResults] (scan ses)
          | None => scan ses
          end
        else scan ses in
      let ses := {| scan := shown; chatMonitorInterval := chatMonitorInterval ses |} in
      if String.eqb tab "panelChat" then
        match Tabs.lastProfile (scan ses) with
        | Some _ => startChatMonitoring d ses
        | None => stopChatMonitoring ses
        end
      else stopChatMonitoring ses
  end.

Definition stopMonitoring (s : Avatar.State) : Avatar.State :=
  let s := if Avatar.monitorInterval s
           then Avatar.set_monitorInterval false (Avatar.emit [ClearInterval] s)
           else s in
  Avatar.stopCamera s.

(** The click handler of a navigation item of the avatar-first
    orchestrator. *)
Definition avatar_navigate (tab : string) (s : Avatar.State) : Avatar.State :=
  match tab with
  | EmptyString => s
  | _ =>
      let s :=
        if String.eqb tab "panelResults" then
          match Avatar.lastProfile s with
          | Some _ => Avatar.emit [ShowResults] s
          | None => s
          end
        else s in
      if String.eqb tab "panelHome" then
        match Avatar.lastProfile s with
        | Some _ => Avatar.startMonitoring s
        | None => s
        end
      else stopMonitoring s
  end.

End Session.

(* ================================================================== *)
(** * Stored settings *)
(* ================================================================== *)

Module Settings.
Import JS Text JSON.
Local Open Scope string_scope.

Definition DEFAULTS : list (jsstring * json) :=
  [(str "theme", JString (str "dark"));
   (str "avatarGender", JString (str "female"));
   (str "ollamaUrl", JString (str "http://localhost:11434"));
   (str "ollamaModel", JString (str "llama3.2"));
   (str "scanDuration", JNumber (num 33));
   (str "ttsEnabled", JBool true);
   (str "ttsSpeed", JNumber (num 1));
   (str "language", JString (str "en"))].

(** The decimal digits of an index, as a property key. *)
Fixpoint digits_of (fuel : nat) (n : N) (acc : jsstring) : jsstring :=
  match fuel with
  | O => acc
  | S f =>
      let acc := (48 + N.modulo n 10)%N :: acc in
      if (n <? 10)%N then acc else digits_of f (N.div n 10) acc
  end.

Definition index_key (i : nat) : jsstring :=
  digits_of (S i) (N.of_nat i) [].

Fixpoint indexed {A : Type} (f : A -> json) (i : nat) (l : list A)
  : list (jsstring * json) :=
  match l with
  | [] => []
  | x :: t => (index_key i, f x) :: indexed f (S i) t
  end.

(** The own enumerable properties that [{...v}] copies. *)
Definition spread (v : json) : list (jsstring * json) :=
  match v with
  | JObject props => props
  | JArray items => indexed (fun x => x) 0 items
  | JString s => indexed (fun c => JString [c]) 0 s
  | JNull | JBool _ | JNumber _ => []
  end.

(** [loadSettings]; [stored] is [localStorage.getItem(STORAGE_KEY)]. *)
Definition loadSettings (stored : option jsstring) : list (jsstring * json) :=
  match stored with
  | Some (c :: t) =>
      match JSON.parse (c :: t) with
      | Some parsed => DEFAULTS ++ spread parsed
      | None => DEFAULTS
      end
  | Some [] | None => DEFAULTS
  end.

End Settings.

(* ================================================================== *)
(** * Sending a chat message *)
(* ================================================================== *)

Module Conversation.
Import JS AlphaEye Text JSON OllamaRequest.
Local Open Scope string_scope.

(** What the call of [chat] does while [sendMessage] consumes it: the
    tokens it yields, and the [name] of what it throws, if it throws. *)
Record Reply := {
  tokens : list value;
  thrown : option string
}.

(** The world during one [sendMessage]: the text of the input box, what
    the probe of the server does, and the reply. *)
Record Exchange := {
  input : jsstring;
  probed : probe;
  reply : Reply
}.

(** [chatMessages], [ollamaClient.connected], [lastProfile], and what
    the call shows, sends, speaks and schedules. *)
Record State := {
  chatMessages : list Message;
  connected : bool;
  lastProfile : option Profile;
  bubbles : list (string * jsstring);
  requests : list Request;
  spoken : list jsstring;
  scans_scheduled : nat
}.

Definition push (m : Message) (s : State) : State :=
  {| chatMessages := chatMessages s ++ [m]; connected := connected s;
     lastProfile := lastProfile s; bubbles := bubbles s;
     requests := requests s; spoken := spoken s;
     scans_scheduled := scans_scheduled s |}.

Definition appendChatBubble (role : string) (text : jsstring) (s : State) : State :=
  {| chatMessages := chatMessages s; connected := connected s;
     lastProfile := lastProfile s; bubbles := bubbles s ++ [(role, text)];
     requests := requests s; spoken := spoken s;
     scans_scheduled := scans_scheduled s |}.

Definition set_connected (c : bool) (s : State) : State :=
  {| chatMessages := chatMessages s; connected := c;
     lastProfile := lastProfile s; bubbles := bubbles s;
     requests := requests s; spoken := spoken s;
     scans_scheduled := scans_scheduled s |}.

Definition send (r : Request) (s : State) : State :=
  {| chatMessages := chatMessages s; connected := connected s;
     lastProfile := lastProfile s; bubbles := bubbles s;
     requests := requests s ++ [r]; spoken := spoken s;
     scans_scheduled := scans_scheduled s |}.

Definition speak (text : jsstring) (s : State) : State :=
  {| chatMessages := chatMessages s; connected := connected s;
     lastProfile := lastProfile s; bubbles := bubbles s;
     requests := requests s; spoken := spoken s ++ [text];
     scans_scheduled := scans_scheduled s |}.

Definition schedule_scan (s : State) : State :=
  {| chatMessages := chatMessages s; connected := connected s;
     lastProfile := lastProfile s; bubbles := bubbles s;
     requests := requests s; spoken := spoken s;
     scans_scheduled := S (scans_scheduled s) |}.

Fixpoint starts (needle hay : jsstring) : bool :=
  match needle, hay with
  | [], _ => true
  | a :: n', b :: h' => (a =? b)%N && starts n' h'
  | _ :: _, [] => false
  end.

(** [hay.includes(needle)] *)
Fixpoint includes (needle hay : jsstring) : bool :=
  starts needle hay ||
  match hay with
  | [] => false
  | _ :: h' => includes needle h'
  end.

Definition default_prompt : jsstring :=
  str "You are MicroSense, a warm and caring AI companion. Keep responses brief (2-3 sentences).".

Section SendMessage.
(** The string a token becomes in [fullResponse += token], the prompt
    builder, [String.prototype.toLowerCase], and the settings read. *)
Variable ToString : value -> jsstring.
Variable buildSystemPrompt : Profile -> jsstring.
Variable toLowerCase : jsstring -> jsstring.
Variable ollamaModel : string.
Variable ollamaUrl : jsstring.
Variable ttsEnabled : bool.

(** From the connection check to the end; shared by both orchestrators
    but for how the answer is spoken. *)
Definition converse (speak_if : bool) (x : Exchange) (s : State) : State :=
  let '(proceed, s) :=
    if connected s then (true, s)
    else
      let '(ok, c) := testConnection (probed x) (connected s) in
      let s := set_connected c s in
      if ok then (true, s)
      else (false,
            appendChatBubble "assistant"
              (str "I cannot connect to Ollama. Please check that Ollama is running on "
                 ++ ollamaUrl)%list s) in
  if negb proceed then s
  else
    let systemPrompt :=
      match lastProfile s with
      | Some p => buildSystemPrompt p
      | None => default_prompt
      end in
    let s := send (build ollamaModel (chatMessages s) (Some systemPrompt)) s in
    let fullResponse := flat_map ToString (tokens (reply x)) in
    match thrown (reply x) with
    | None =>
        let s := push {| role := "assistant"; content := fullResponse |} s in
        let s := appendChatBubble "assistant" fullResponse s in
        match fullResponse with
        | [] => s
        | _ :: _ => if speak_if then speak fullResponse s else s
        end
    | Some name =>
        if String.eqb name "AbortError" then s
        else appendChatBubble "assistant"
               (str "Sorry, I encountered an error. Please try again.") s
    end.

(** [sendMessage] of the tabbed orchestrator. *)
Definition tabs_sendMessage (x : Exchange) (s : State) : State :=
  match trim (input x) with
  | [] => s
  | c :: t =>
      let text := c :: t in
      let s := push {| role := "user"; content := text |} s in
      let s := appendChatBubble "user" text s in
      converse ttsEnabled x s
  end.

(** [sendMessage] of the avatar-first orchestrator. *)
Definition avatar_sendMessage (x : Exchange) (s : State) : State :=
  match trim (input x) with
  | [] => s
  | c :: t =>
      let text := c :: t in
      let s := push {| role := "user"; content := text |} s in
      let s := appendChatBubble "user" text s in
      let lower := toLowerCase text in
      if includes (str "scan me") lower || includes (str "read me") lower
         || includes (str "analyze me") lower
      then
        let s := appendChatBubble "assistant"
                   (str "Of course! Let me take another look at you...") s in
        let s := speak (str "Let me read you...") s in
        schedule_scan s
      else converse true x s
  end.
End SendMessage.

End Conversation.

(* ================================================================== *)
(** * Vocabulary of the statements *)
(* ================================================================== *)

Import JS AlphaEye Text JSON OllamaClient Scan.
Local Open Scope string_scope.
Local Open Scope list_scope.
Local Open Scope Z_scope.

(** ** Numbers and the dominant state *)

(** A Number that is an integer between [lo] and [hi]. *)
Definition in_range (lo hi : Z) (x : Number) : Prop :=
  exists k : Z, x = num k /\ lo <= k <= hi.







(** The head of the sorted array, computed from the right end of the
    unsorted one. *)
Fixpoint sort_head {A : Type} (comparefn : A -> A -> Number) (l : list A)
  : option A :=
  match l with
  | [] => None
  | x :: t =>
      match sort_head comparefn t with
      | None => Some x
      | Some y => if gt (comparefn x y) (Fin 0) then Some y else Some x
      end
  end.

(** A reading with stress 70, tension 60, aggression 80, energy 50 and
    balance 20. *)
Definition sample_params : Params :=
  {| aggression := Fin 80; stress := Fin 70; tension := Fin 60;
     suspect := Fin 50; balance := Fin 20; charm := Fin 62;
     energy := Fin 50; selfRegulation := Fin 41; inhibition := Fin 40;
     neuroticism := Fin 20 |}.

(** The threat snapshot [{aggression: 80, stress: 70, tension: 60,
    badIntent: 50, stability: 20}]. *)
Definition example_threat : option ThreatResult :=
  Some {| metrics := Some {| m_aggression := Some (num 80);
                             m_stress := Some (num 70);
                             m_tension := Some (num 60);
                             m_badIntent := Some (num 50);
                             m_stability := Some (num 20) |} |}.

(** ** Lines of a stream *)

(** The lines that end in a line feed, and the text after the last one. *)
Definition complete_lines (s : jsstring) : list jsstring :=
  removelast (split_lines s).

Definition pending_line (s : jsstring) : jsstring := last (split_lines s) [].

(** The text a sequence of chunks decodes to, and the decoder after it. *)
Fixpoint decode_all {decoder : Type}
    (decode_byte : decoder -> Byte.byte -> decoder * jsstring)
    (d : decoder) (chunks : list (list Byte.byte)) : decoder * jsstring :=
  match chunks with
  | [] => (d, [])
  | c :: rest =>
      let '(d1, o1) := decode decode_byte d c in
      let '(d2, o2) := decode_all decode_byte d1 rest in
      (d2, o1 ++ o2)
  end.

(** The text the client's decoder makes of a body. *)
Definition decoded_text (body : list (list Byte.byte)) : jsstring :=
  snd (decode utf8_decode_byte utf8_init (List.concat body)).

(** What the generator has produced once the loop over [lines] is over
    and nothing more arrives. *)
Definition outcome_of (r : list value * bool) : list value * ending :=
  (fst r, if snd r then DoneRecord else TransportEnd).

(** The body of the spec's example, in two chunks and in one. *)
Definition example_chunks : list (list Byte.byte) :=
  [bytes "{'message':{'content':'Hi"; bytes "'}}~{'done':true}~"].

Definition example_unsplit : list (list Byte.byte) :=
  [bytes "{'message':{'content':'Hi'}}~{'done':true}~"].

(** A response whose body ends inside a line, and lines around a
    malformed one and around a record with [done] set. *)
Definition sample_response : Response :=
  {| ok := true; status := 200;
     body := [bytes "{'message':{'content':'a'}}~{'mess"] |}.

Definition sample_partial : jsstring := text "age':".
Definition sample_pre : list jsstring := [text "{'message':{'content':'a'}}"].
Definition sample_post : list jsstring := [text "{'message':{'content':'z'}}"].
Definition sample_malformed : jsstring := text "{'message':".
Definition sample_final : jsstring :=
  text "{'message':{'content':'b'},'done':true}".

Definition sample_record : json :=
  JObject [(str "message", JObject [(str "content", JString (str "b"))]);
           (str "done", JBool true)].

(** ** Scans *)

(** The tracks stopped by [stopCamera(); stopMicrophone()]: those of the
    streams that the two variables hold. *)
Definition stopped_tracks (camera audio : bool) : list Effect :=
  (if camera then [StopCameraTracks] else [])
  ++ (if audio then [StopMicrophoneTracks] else []).

(** Calls of [getUserMedia] among the effects. *)
Fixpoint acquisitions (l : list Effect) : nat :=
  match l with
  | [] => 0
  | (GetUserMediaVideo | GetUserMediaAudio) :: t => S (acquisitions t)
  | _ :: t => acquisitions t
  end.

(** One of the engine calls, or the fusion of what they returned, throws. *)
Definition some_call_throws (fuse : Fusion) (a : Analysis) : Prop :=
  (exists m, vsa_fullAnalysis a = Threw m) \/
  (exists m, threat_fullAnalysis a = Threw m) \/
  (exists m, deception_fullAnalysis a = Threw m) \/
  (exists m, threat_frameHistory a = Threw m) \/
  (exists m, neuro_analyze a = Threw m) \/
  (exists v t d n m,
      vsa_fullAnalysis a = Returned v /\ threat_fullAnalysis a = Returned t /\
      deception_fullAnalysis a = Returned d /\ neuro_analyze a = Returned n /\
      fuse t d n v (clock_profile a) = Threw m).

(** The entry a completion adds when every call returns. *)
Definition entry_of (a : Analysis) : option HistoryEntry :=
  match analyse AlphaEye_compute a with
  | Returned p => Some (history_entry a p)
  | Threw _ => None
  end.

(** A scan from its start to its natural completion, and a run of them. *)
Definition tabs_scan (da : Devices * Analysis) (s : Tabs.State) : Tabs.State :=
  Tabs.completeScan AlphaEye_compute (snd da) (Tabs.startScan (fst da) s).

Definition tabs_scans (scans : list (Devices * Analysis)) (s : Tabs.State)
  : Tabs.State :=
  fold_left (fun s da => tabs_scan da s) scans s.

(** The camera is granted and every call of the analysis returns. *)
Definition completes (da : Devices * Analysis) (e : HistoryEntry) : Prop :=
  camera_granted (fst da) = true /\ entry_of (snd da) = Some e.

(** Sample states, devices and analyses. *)
Definition tabs_scanning : Tabs.State :=
  {| Tabs.appState := Tabs.SCANNING; Tabs.isScanning := true;
     Tabs.frameCount := 12; Tabs.cameraStream := true;
     Tabs.audioStream := true; Tabs.scanTimer := true;
     Tabs.scanStartTime := Some 1000; Tabs.lastProfile := None;
     Tabs.scanHistory := []; Tabs.stored_history := None;
     Tabs.engine_resets := 1;
     Tabs.effects := [GetUserMediaVideo; GetUserMediaAudio; UpdateScanUI;
                      DetectLoop; SetInterval] |}.

Definition tabs_ready : Tabs.State :=
  {| Tabs.appState := Tabs.READY; Tabs.isScanning := false;
     Tabs.frameCount := 0; Tabs.cameraStream := false;
     Tabs.audioStream := false; Tabs.scanTimer := false;
     Tabs.scanStartTime := None; Tabs.lastProfile := None;
     Tabs.scanHistory := []; Tabs.stored_history := None;
     Tabs.engine_resets := 0; Tabs.effects := [] |}.

Definition avatar_scanning : Avatar.State :=
  {| Avatar.isScanning := true; Avatar.modelsLoaded := true;
     Avatar.frameCount := 12; Avatar.cameraStream := true;
     Avatar.audioStream := true; Avatar.scanTimer := true;
     Avatar.scanStartTime := Some 1000; Avatar.lastProfile := None;
     Avatar.monitorInterval := false;
     Avatar.scanHistory := []; Avatar.stored_history := None;
     Avatar.engine_resets := 1;
     Avatar.effects := [GetUserMediaVideo; GetUserMediaAudio; UpdateScanUI;
                        DetectLoop; SetInterval] |}.

Definition devices_granted : Devices :=
  {| camera_granted := true; microphone_granted := true; clock_start := 1000 |}.

(** An analysis in which every engine returns nothing. *)
Definition analysis_empty : Analysis :=
  {| vsa_fullAnalysis := Returned None;
     threat_fullAnalysis := Returned None;
     deception_fullAnalysis := Returned None;
     threat_frameHistory := Returned tt;
     neuro_analyze := Returned None;
     clock_profile := 34000;
     clock_entry := 34001 |}.

(** An analysis in which the threat engine throws. *)
Definition analysis_failing : Analysis :=
  {| vsa_fullAnalysis := Returned None;
     threat_fullAnalysis := Threw "no frames";
     deception_fullAnalysis := Returned None;
     threat_frameHistory := Returned tt;
     neuro_analyze := Returned None;
     clock_profile := 34000;
     clock_entry := 34001 |}.

Definition entry_empty : HistoryEntry :=
  history_entry analysis_empty (compute None None None None 34000).

(** ** More vocabulary: the profile *)

(** The three inputs of [compute] that reach the profile only through
    derived parameters. *)
Definition truthfulness_of (deception : option DeceptionResult) : Number :=
  clamp (or_default (d_truthfulnessIndex (deception_of deception)) (num 70)).

Definition expressionRange_of (neuro : option NeuroResult) : Number :=
  clamp (or_default (b_expressionRange (biometrics_of neuro)) (num 50)).

Definition gazeStability_of (neuro : option NeuroResult) : Number :=
  clamp (or_default (b_gazeStability (biometrics_of neuro)) (num 60)).

(** Sixteen times the variance of four integers. *)
Definition spread16 (a s t n : Z) : Z :=
  4 * (a * a + s * s + t * t + n * n) - (a + s + t + n) * (a + s + t + n).

(** The keys of [TherapyEngine.directions]. *)
Definition state_keys : list string :=
  ["high-stress"; "high-tension"; "low-energy"; "high-aggression";
   "low-balance"; "balanced"].

(** ** More vocabulary: scans *)

(** The variables of the tabbed orchestrator agree on whether a scan is
    running, and a running scan holds the camera. *)
Definition tabs_consistent (s : Tabs.State) : Prop :=
  (Tabs.isScanning s = true <-> Tabs.appState s = Tabs.SCANNING) /\
  Tabs.scanTimer s = Tabs.isScanning s /\
  (Tabs.isScanning s = true -> Tabs.cameraStream s = true).

(** A history entry that agrees with itself: the dominant state and the
    state of mind are those of its parameters, which are percentages. *)
Definition entry_sound (e : HistoryEntry) : Prop :=
  h_dominantState e = getDominantState (h_params e) /\
  h_stateOfMind e = classifyStateOfMind (h_params e) /\
  In (h_dominantState e) state_keys /\
  in_range 0 100 (aggression (h_params e)) /\
  in_range 0 100 (stress (h_params e)) /\
  in_range 0 100 (tension (h_params e)) /\
  in_range 0 100 (suspect (h_params e)) /\
  in_range 0 100 (balance (h_params e)) /\
  in_range 0 100 (charm (h_params e)) /\
  in_range 0 100 (energy (h_params e)) /\
  in_range 0 100 (selfRegulation (h_params e)) /\
  in_range 0 100 (inhibition (h_params e)) /\
  in_range 0 100 (neuroticism (h_params e)).

(** A scan of the avatar-first orchestrator from its start to its
    natural completion, and a run of them. *)
Definition avatar_scan (da : Devices * Analysis) (s : Avatar.State) : Avatar.State :=
  Avatar.completeScan AlphaEye_compute (snd da) (Avatar.triggerScan (fst da) s).

Definition avatar_scans (scans : list (Devices * Analysis)) (s : Avatar.State)
  : Avatar.State :=
  fold_left (fun s da => avatar_scan da s) scans s.

Definition avatar_ready : Avatar.State :=
  {| Avatar.isScanning := false; Avatar.modelsLoaded := true;
     Avatar.frameCount := 0; Avatar.cameraStream := false;
     Avatar.audioStream := false; Avatar.scanTimer := false;
     Avatar.scanStartTime := None; Avatar.lastProfile := None;
     Avatar.monitorInterval := false;
     Avatar.scanHistory := []; Avatar.stored_history := None;
     Avatar.engine_resets := 0; Avatar.effects := [] |}.

Definition devices_denied : Devices :=
  {| camera_granted := false; microphone_granted := true; clock_start := 1000 |}.

Definition devices_no_microphone : Devices :=
  {| camera_granted := true; microphone_granted := false; clock_start := 1000 |}.

Definition session_scanning : Session.TabsSession :=
  {| Session.scan := tabs_scanning; Session.chatMonitorInterval := false |}.

(** A tick of the interval whose id [scanTimer] holds: the browser runs
    the callback while that interval is set, and no more once
    [clearInterval(scanTimer)] has run.  A tick carries the time it fires
    at and what the engines would answer then. *)
Definition interval_tick (fuse : Fusion) (duration : Z) (tick : Z * Analysis)
    (s : Tabs.State) : Tabs.State :=
  if Tabs.scanTimer s then Session.scanTimer_tick fuse duration tick s else s.

(** A run of ticks of that interval. *)
Definition run_ticks (fuse : Fusion) (duration : Z) (ticks : list (Z * Analysis))
    (s : Tabs.State) : Tabs.State :=
  fold_left (fun s tick => interval_tick fuse duration tick s) ticks s.

(** A run of calls of the callback, whatever [scanTimer] holds: the ticks
    of an interval that [scanTimer] does not, or no longer, refer to. *)
Definition run_callbacks (fuse : Fusion) (duration : Z)
    (ticks : list (Z * Analysis)) (s : Tabs.State) : Tabs.State :=
  fold_left (fun s tick => Session.scanTimer_tick fuse duration tick s) ticks s.

(** The analysis returns a profile. *)
Definition analysis_returns (fuse : Fusion) (a : Analysis) : bool :=
  match analyse fuse a with
  | Returned _ => true
  | Threw _ => false
  end.

(** What the stored settings contribute, if they can be read. *)
Definition stored_overrides (stored : option jsstring) : list (jsstring * json) :=
  match stored with
  | Some (c :: t) =>
      match JSON.parse (c :: t) with
      | Some parsed => Settings.spread parsed
      | None => []
      end
  | _ => []
  end.

Definition no_message : OllamaRequest.Message :=
  {| OllamaRequest.role := EmptyString; OllamaRequest.content := [] |}.

Definition user_turn (x : Conversation.Exchange) : OllamaRequest.Message :=
  {| OllamaRequest.role := "user";
     OllamaRequest.content := trim (Conversation.input x) |}.

(** The prompt [sendMessage] passes to [chat], the turn the reply
    becomes, and the request made for the conversation with the new
    user turn. *)
Definition prompt_of (buildSystemPrompt : Profile -> jsstring)
    (s : Conversation.State) : jsstring :=
  match Conversation.lastProfile s with
  | Some p => buildSystemPrompt p
  | None => Conversation.default_prompt
  end.

Definition assistant_turn (ToString : value -> jsstring)
    (x : Conversation.Exchange) : OllamaRequest.Message :=
  {| OllamaRequest.role := "assistant";
     OllamaRequest.content :=
       flat_map ToString (Conversation.tokens (Conversation.reply x)) |}.

Definition request_of (buildSystemPrompt : Profile -> jsstring)
    (ollamaModel : string) (x : Conversation.Exchange) (s : Conversation.State)
  : OllamaRequest.Request :=
  OllamaRequest.build ollamaModel
    (Conversation.chatMessages s ++ [user_turn x])
    (Some (prompt_of buildSystemPrompt s)).

(** The text asks for a scan. *)
Definition asks_for_scan (toLowerCase : jsstring -> jsstring) (text : jsstring) : bool :=
  Conversation.includes (str "scan me") (toLowerCase text)
  || Conversation.includes (str "read me") (toLowerCase text)
  || Conversation.includes (str "analyze me") (toLowerCase text).

(** What one call of [sendMessage] that reaches the connection check
    does to the conversation and to the requests: the user turn is
    appended, at most one request is made, and the assistant turn follows
    exactly when a request was made and the reply ended without a throw. *)
Definition sent_as_expected (ToString : value -> jsstring)
    (buildSystemPrompt : Profile -> jsstring) (ollamaModel : string)
    (x : Conversation.Exchange) (s s' : Conversation.State) : Prop :=
  exists (replied : list OllamaRequest.Message) (sent : list OllamaRequest.Request),
    Conversation.chatMessages s'
      = Conversation.chatMessages s ++ user_turn x :: replied /\
    Conversation.requests s' = Conversation.requests s ++ sent /\
    (replied = [] \/
     (replied = [assistant_turn ToString x] /\
      Conversation.thrown (Conversation.reply x) = None /\ sent <> [])) /\
    (sent = [] \/ sent = [request_of buildSystemPrompt ollamaModel x s]) /\
    (sent <> [] -> Conversation.thrown (Conversation.reply x) = None ->
     replied = [assistant_turn ToString x]).

(* ================================================================== *)
(** * Properties of the AlphaEye profiler *)
(* ================================================================== *)

Lemma Qle_bool_inject (a b : Z) :
  Qle_bool (inject_Z a) (inject_Z b) = (a <=? b).
Proof.
  unfold Qle_bool, inject_Z; simpl. now rewrite !Z.mul_1_r.
Qed.

Lemma lt_num (a b : Z) : JS.lt (num a) (num b) = (a <? b).
Proof.
  unfold JS.lt, num. rewrite Qle_bool_inject.
  destruct (Z.leb_spec b a), (Z.ltb_spec a b); simpl; (reflexivity || lia).
Qed.


Lemma Qfloor_half (k : Z) : Qfloor (inject_Z k + (1 # 2)) = k.
Proof.
  unfold Qfloor, Qplus, inject_Z. cbn [Qnum Qden].
  change (Z.pos (1 * 2)) with 2.
  replace (k * 2 + 1 * 1) with (1 + k * 2) by lia.
  rewrite Z.div_add by lia. reflexivity.
Qed.

Lemma Math_round_num (k : Z) : Math_round (num k) = num k.
Proof. unfold Math_round, num at 1. now rewrite Qfloor_half. Qed.

Lemma max_min_num (k : Z) :
  Math_max (num 0) (Math_min (num 100) (num k)) = num (Z.max 0 (Z.min 100 k)).
Proof.
  assert (M : Math_min (num 100) (num k) = num (Z.min 100 k)).
  { change (Math_min (num 100) (num k))
      with (if JS.lt (num k) (num 100) then num k else num 100).
    rewrite lt_num. destruct (Z.ltb_spec k 100); f_equal; lia. }
  rewrite M.
  change (Math_max (num 0) (num (Z.min 100 k)))
    with (if JS.lt (num 0) (num (Z.min 100 k)) then num (Z.min 100 k) else num 0).
  rewrite lt_num. destruct (Z.ltb_spec 0 (Z.min 100 k)); f_equal; lia.
Qed.

Lemma clamp_Fin (q : Q) :
  clamp (Fin q) = num (Z.max 0 (Z.min 100 (Qfloor (q + (1 # 2))))).
Proof. unfold clamp. cbn [Math_round]. apply max_min_num. Qed.

Lemma clamp_num (k : Z) : clamp (num k) = num (Z.max 0 (Z.min 100 k)).
Proof. unfold clamp. rewrite Math_round_num. apply max_min_num. Qed.

Lemma clamp_range (x : Number) : x <> NaN -> in_range 0 100 (clamp x).
Proof.
  intros H. destruct x as [| | |q].
  - contradiction.
  - exists 100. split; [reflexivity | lia].
  - exists 0. split; [reflexivity | lia].
  - rewrite clamp_Fin. eexists. split; [reflexivity | lia].
Qed.

Lemma or_default_not_NaN (f : option Number) (d : Number) :
  d <> NaN -> or_default f d <> NaN.
Proof.
  intros H. unfold or_default. destruct f as [v|]; [| exact H].
  destruct v; simpl; try exact H; try discriminate.
  destruct (Qeq_bool q 0); simpl; [exact H | discriminate].
Qed.

Lemma clamp_or_default_range (f : option Number) (d : Z) :
  in_range 0 100 (clamp (or_default f (num d))).
Proof. apply clamp_range, or_default_not_NaN. discriminate. Qed.

(** The rounded sigmoid stays within [-100, 100] whatever [raw] is. *)
Lemma round_sigmoid_x100_range (raw : Q) :
  -100 <= round_sigmoid_x100 raw <= 100.
Proof.
  unfold round_sigmoid_x100.
  assert (He : (0 < exp (- Q2R raw / 20))%R) by apply exp_pos.
  generalize dependent (exp (- Q2R raw / 20)). intros e He.
  set (s := (2 / (1 + e))%R).
  assert (Hlo : (0 < s)%R).
  { apply Rdiv_lt_0_compat; lra. }
  assert (Hhi : (s < 2)%R).
  { apply (Rmult_lt_reg_r (1 + e)); [lra |].
    unfold s, Rdiv. rewrite Rmult_assoc, Rinv_l by lra. lra. }
  clearbody s.
  split.
  - apply Zfloor_lub. lra.
  - destruct (Zfloor_bound ((s - 1) * 100 + / 2)%R) as [B _].
    assert (L : (IZR (Zfloor ((s - 1) * 100 + / 2)) < IZR 101)%R) by lra.
    apply lt_IZR in L. lia.
Qed.

Lemma Q2R_inject_Z (z : Z) : Q2R (inject_Z z) = IZR z.
Proof. unfold Q2R, inject_Z. simpl. lra. Qed.

Lemma sq_le_le (a b : R) : (0 <= b)%R -> (a * a <= b * b)%R -> (a <= b)%R.
Proof. intros. nra. Qed.

Lemma sq_lt_lt (a b : R) : (0 < b)%R -> (a * a < b * b)%R -> (a < b)%R.
Proof. intros. nra. Qed.

(** [round_sqrt_x2] is [Math.round(Math.sqrt(v) * 2)] taken over the reals. *)
Lemma round_sqrt_x2_correct (v : Q) :
  (0 <= v)%Q -> round_sqrt_x2 v = Zfloor (sqrt (Q2R v) * 2 + / 2)%R.
Proof.
  intros Hv. unfold round_sqrt_x2.
  set (N := Qfloor (16 * v)).
  assert (HN : 0 <= N).
  { unfold N. rewrite <- (Qfloor_Z 0). apply Qfloor_resp_le. 
    change (inject_Z 0) with 0%Q. lra. }
  pose proof (Z.sqrt_spec N HN) as Hr. cbv zeta in Hr.
  pose proof (Z.sqrt_nonneg N) as Hr0.
  generalize dependent (Z.sqrt N). intros r Hr Hr0.
  assert (Hk : 2 * ((r + 1) / 2) <= r + 1 <= 2 * ((r + 1) / 2) + 1).
  { pose proof (Z.div_mod (r + 1) 2). pose proof (Z.mod_pos_bound (r + 1) 2). lia. }
  generalize dependent ((r + 1) / 2). intros k Hk.
  assert (HvR : (0 <= Q2R v)%R).
  { replace 0%R with (Q2R 0) by (unfold Q2R; simpl; lra). now apply Qle_Rle. }
  set (x := sqrt (Q2R v)).
  assert (Hx0 : (0 <= x)%R) by apply sqrt_pos.
  assert (Hxx : (x * x = Q2R v)%R) by (apply sqrt_sqrt; exact HvR).
  assert (HloQ : (IZR N <= 16 * Q2R v)%R).
  { rewrite <- Q2R_inject_Z.
    replace (16 * Q2R v)%R with (Q2R (16 * v)).
    - apply Qle_Rle, Qfloor_le.
    - rewrite Q2R_mult. f_equal. unfold Q2R; simpl; lra. }
  assert (HhiQ : (16 * Q2R v < IZR N + 1)%R).
  { replace (IZR N + 1)%R with (Q2R (inject_Z (N + 1))).
    - replace (16 * Q2R v)%R with (Q2R (16 * v)).
      + apply Qlt_Rlt, Qlt_floor.
      + rewrite Q2R_mult. f_equal. unfold Q2R; simpl; lra.
    - rewrite Q2R_inject_Z, plus_IZR. reflexivity. }
  symmetry. apply Zfloor_eq. split.
  - destruct (Z_le_gt_dec (2 * k - 1) 0) as [Le|Gt].
    + apply IZR_le in Le. rewrite minus_IZR, mult_IZR in Le. lra.
    + assert (Hz : (2 * k - 1) * (2 * k - 1) <= N) by nia.
      apply IZR_le in Hz. rewrite mult_IZR, minus_IZR, mult_IZR in Hz.
      assert (IZR 2 * IZR k - IZR 1 <= 4 * x)%R.
      { apply sq_le_le; [lra | nra]. }
      lra.
  - assert (Hz : N + 1 <= (2 * k + 1) * (2 * k + 1)) by nia.
    apply IZR_le in Hz. rewrite mult_IZR, !plus_IZR, mult_IZR in Hz.
    assert (4 * x < IZR 2 * IZR k + IZR 1)%R.
    { apply sq_lt_lt.
      - assert (0 <= k) by lia. apply IZR_le in H. lra.
      - nra. }
    lra.
Qed.

Lemma clamp_round_Fin_range (q : Q) : in_range 0 100 (clamp (Math_round (Fin q))).
Proof. apply clamp_range. discriminate. Qed.

Lemma computeVitality_range (e s n : Z) :
  in_range (-100) 100 (computeVitality (num e) (num s) (num n)).
Proof.
  unfold computeVitality. cbn [num mul add sub neg Math_round_sigmoid_x100].
  eexists. split; [reflexivity | apply round_sigmoid_x100_range].
Qed.

(** [Math.round] rounds a tie upwards, also below zero; [clamp] cuts at
    both ends. *)
Example Math_round_ties :
  Math_round (Fin 2.5) = num 3 /\ Math_round (Fin (-2.5)) = num (-2) /\
  Math_round (Fin 0.49) = num 0 /\ clamp (Fin 100.5) = num 100 /\
  clamp (Fin (-3)) = num 0 /\ clamp PosInf = num 100 /\ clamp NaN = NaN.
Proof. repeat split; vm_compute; reflexivity. Qed.


(** C1. Whatever the four snapshots are (each possibly missing, each
    field possibly missing, and a present field any Number, NaN and the
    infinities included), the ten primary parameters of the profile are
    integers in [0,100], [vitalityIndex] is an integer in [-100,100] and
    [concentrationIndex] is an integer in [0,100]. *)
Theorem compute_ranges :
  forall (threat : option ThreatResult) (deception : option DeceptionResult)
         (neuro : option NeuroResult) (vsa : option VsaResult) (now : Z),
    let p := compute threat deception neuro vsa now in
    in_range 0 100 (aggression (params p)) /\
    in_range 0 100 (stress (params p)) /\
    in_range 0 100 (tension (params p)) /\
    in_range 0 100 (suspect (params p)) /\
    in_range 0 100 (balance (params p)) /\
    in_range 0 100 (charm (params p)) /\
    in_range 0 100 (energy (params p)) /\
    in_range 0 100 (selfRegulation (params p)) /\
    in_range 0 100 (inhibition (params p)) /\
    in_range 0 100 (neuroticism (params p)) /\
    in_range (-100) 100 (vitalityIndex p) /\
    in_range 0 100 (concentrationIndex p).
Proof.
  intros threat deception neuro vsa now p. subst p. unfold compute.
  set (m := metrics_of threat).
  set (bio := biometrics_of neuro).
  set (dec := deception_of deception).
  cbn [params aggression stress tension suspect balance charm energy
       selfRegulation inhibition neuroticism vitalityIndex concentrationIndex].
  destruct (clamp_or_default_range (m_stress m) 25) as (ks & -> & Hs).
  destruct (clamp_or_default_range (m_stability m) 60) as (kb & -> & Hb).
  destruct (clamp_or_default_range (b_expressionRange bio) 50) as (kx & -> & Hx).
  destruct (clamp_or_default_range (d_truthfulnessIndex dec) 70) as (kt & -> & Ht).
  destruct (clamp_or_default_range (b_psychomotorIndex bio) 50) as (ke & -> & He).
  destruct (clamp_or_default_range (b_gazeStability bio) 60) as (kg & -> & Hg).
  destruct (clamp_or_default_range (b_microTremorScore bio) 20) as (kn & -> & Hn).
  assert (Hcharm : in_range 0 100
            (clamp (Math_round (add (mul (num kt) (Fin 0.6)) (mul (num kx) (Fin 0.4))))))
    by apply clamp_round_Fin_range.
  destruct Hcharm as (kc & -> & Hc).
  assert (Hinh : in_range 0 100 (clamp (Math_round (sub (num 100) (num kg)))))
    by apply clamp_round_Fin_range.
  destruct Hinh as (ki & -> & Hi).
  repeat split; try apply clamp_or_default_range.
  - exists ks; auto.
  - exists kb; auto.
  - exists kc; auto.
  - exists ke; auto.
  - apply clamp_round_Fin_range.
  - exists ki; auto.
  - exists kn; auto.
  - apply computeVitality_range.
  - apply clamp_round_Fin_range.
Qed.

(** ** The dominant state *)

Section SortHead.
Variable A : Type.
Variable comparefn : A -> A -> Number.

Lemma hd_sort_insert (x : A) (l : list A) :
  hd_error (sort_insert comparefn x l) =
  match hd_error l with
  | None => Some x
  | Some y => if gt (comparefn x y) (Fin 0) then Some y else Some x
  end.
Proof.
  destruct l as [|y t]; [reflexivity |].
  cbn [sort_insert hd_error].
  destruct (gt (comparefn x y) (Fin 0)); reflexivity.
Qed.

Lemma hd_sort (l : list A) : hd_error (sort comparefn l) = sort_head comparefn l.
Proof.
  induction l as [|x t IH]; [reflexivity |].
  cbn [sort_head]. rewrite <- IH.
  change (sort comparefn (x :: t)) with (sort_insert comparefn x (sort comparefn t)).
  apply hd_sort_insert.
Qed.
End SortHead.











(** ** The documented examples *)

(** C3, as stated, fails: with every snapshot missing the dominant state
    is not "balanced". *)
Lemma defaults_dominant_not_balanced :
  getDominantState (params (compute None None None None 0)) <> "balanced".
Proof. vm_compute. discriminate. Qed.

(** C3, amended. When the threat metrics, the biometrics and the
    truthfulness index are all missing, so that the primary parameters
    take their defaults, the quadrant is "Calm & Content" and the dominant
    state is "low-energy": the low-energy score is 100 - 50 = 50, the
    largest of the five and not below 40. *)
Theorem defaults_low_energy_calm :
  forall (threat : option ThreatResult) (deception : option DeceptionResult)
         (neuro : option NeuroResult) (vsa : option VsaResult) (now : Z),
    metrics_of threat = no_metrics ->
    biometrics_of neuro = no_biometrics ->
    d_truthfulnessIndex (deception_of deception) = None ->
    let p := compute threat deception neuro vsa now in
    getDominantState (params p) = "low-energy" /\
    quadrant (stateOfMind p) = "Calm & Content".
Proof.
  intros threat deception neuro vsa now Hm Hb Hd p. subst p.
  unfold compute. rewrite Hm, Hb, Hd. cbn [params stateOfMind].
  split; vm_compute; reflexivity.
Qed.

Lemma defaults_low_energy_calm_witness :
  (metrics_of None = no_metrics /\ biometrics_of None = no_biometrics /\
   d_truthfulnessIndex (deception_of None) = None) /\
  getDominantState (params (compute None None None None 0)) = "low-energy" /\
  quadrant (stateOfMind (compute None None None None 0)) = "Calm & Content".
Proof.
  split.
  - repeat split; reflexivity.
  - apply (@defaults_low_energy_calm None None None None 0); reflexivity.
Defined.

(** C4, as stated, fails: on the example threat snapshot the dominant
    state is not "high-stress". *)
Lemma example_dominant_not_high_stress :
  getDominantState (params (compute example_threat None None None 0))
  <> "high-stress".
Proof. vm_compute. discriminate. Qed.

(** C4, amended. On the example threat snapshot, the other snapshots
    missing, balance is 20, the emotional variation is labelled "Unstable",
    and the dominant state is "high-aggression": aggression scores 80,
    which ties with low-balance (100 - 20) and precedes it, while stress
    scores 70. *)
Theorem example_threat_profile :
  forall now : Z,
    let p := compute example_threat None None None now in
    balance (params p) = num 20 /\
    ev_label (emotionalVariation p) = "Unstable" /\
    getDominantState (params p) = "high-aggression".
Proof.
  intros now p. subst p. unfold compute.
  cbn [params emotionalVariation].
  repeat split; vm_compute; reflexivity.
Qed.

(** ** Defaults and the value zero *)

(** C5, evaluated where it fails: a field that is present with the value
    0 yields the default, not 0. *)
Theorem zero_field_takes_default :
  forall now : Z,
    let zero := Some (num 0) in
    let threat := Some {| metrics := Some (Build_Metrics zero zero zero zero zero) |} in
    let neuro := Some {| biometrics := Some (Build_Biometrics zero zero zero zero);
                         n_conditions := None |} in
    let p := params (compute threat None neuro None now) in
    aggression p = num 30 /\ stress p = num 25 /\ tension p = num 20 /\
    suspect p = num 25 /\ balance p = num 60 /\ energy p = num 50 /\
    neuroticism p = num 20 /\
    clamp (num 0) = num 0.
Proof.
  intros now zero threat neuro p. subst p threat neuro zero. unfold compute.
  cbn [params aggression stress tension suspect balance energy neuroticism].
  repeat split; vm_compute; reflexivity.
Qed.

(** What [field || default] does hold: a missing field, a field equal to
    0 and a NaN field give the default; every other Number is kept. *)
Lemma or_default_cases (field : option Number) (d : Number) :
  or_default field d =
  match field with
  | None | Some NaN => d
  | Some (Fin q) => if Qeq_bool q 0 then d else Fin q
  | Some v => v
  end.
Proof.
  destruct field as [[| | |q]|]; simpl; try reflexivity.
  destruct (Qeq_bool q 0); reflexivity.
Qed.

(* ================================================================== *)
(** * Properties of the streaming client *)
(* ================================================================== *)

Lemma split_lines_nonempty (s : jsstring) : split_lines s <> [].
Proof.
  induction s as [|c t IH]; simpl; [discriminate |].
  destruct (c =? LF)%N; [discriminate |].
  destruct (split_lines t); [contradiction | discriminate].
Qed.

(** The lines of [a ++ b]: the complete lines of [a], then the lines of
    [b] with the unfinished line of [a] in front of the first. *)
Lemma split_lines_app (a b : jsstring) :
  split_lines (a ++ b) =
  removelast (split_lines a) ++
  match split_lines b with
  | l :: ls => (last (split_lines a) [] ++ l) :: ls
  | [] => []
  end.
Proof.
  induction a as [|c a IH].
  - simpl. destruct (split_lines b); reflexivity.
  - cbn [app split_lines]. rewrite IH. clear IH.
    pose proof (split_lines_nonempty a) as Ha.
    pose proof (split_lines_nonempty b) as Hb.
    destruct (split_lines b) as [|l ls]; [contradiction |].
    destruct (split_lines a) as [|l0 [|l1 rest]]; [contradiction | |].
    + destruct (c =? LF)%N; reflexivity.
    + destruct (c =? LF)%N; reflexivity.
Qed.

Lemma split_lines_pending (s : jsstring) :
  split_lines (pending_line s) = [pending_line s].
Proof.
  unfold pending_line. induction s as [|c t IH]; [reflexivity |].
  cbn [split_lines].
  pose proof (split_lines_nonempty t) as Ht.
  destruct (c =? LF)%N eqn:E.
  - destruct (split_lines t) as [|l ls]; [contradiction | exact IH].
  - destruct (split_lines t) as [|l [|l1 ls]]; [contradiction | |].
    + cbn [last] in *. cbn [split_lines]. rewrite E, IH. reflexivity.
    + exact IH.
Qed.

Lemma split_lines_no_LF (p : jsstring) : ~ In LF p -> split_lines p = [p].
Proof.
  induction p as [|c t IH]; intros H; [reflexivity |].
  cbn [split_lines]. destruct (N.eqb_spec c LF) as [E|E].
  - exfalso. apply H. left. exact E.
  - rewrite IH; [reflexivity |]. intros I. apply H. right. exact I.
Qed.

Lemma complete_lines_app (a b : jsstring) :
  complete_lines (a ++ b) = complete_lines a ++ complete_lines (pending_line a ++ b).
Proof.
  unfold complete_lines. rewrite (split_lines_app (pending_line a) b).
  rewrite split_lines_pending. cbn [removelast last app].
  rewrite split_lines_app. fold (pending_line a).
  pose proof (split_lines_nonempty b) as Hb.
  destruct (split_lines b) as [|l ls]; [contradiction |].
  apply removelast_app. discriminate.
Qed.

(** Text after the last line feed never reaches the loop body. *)
Lemma complete_lines_partial (t p : jsstring) :
  ~ In LF p -> complete_lines (t ++ p) = complete_lines t.
Proof.
  intros H. unfold complete_lines. rewrite split_lines_app.
  rewrite (split_lines_no_LF p H).
  rewrite removelast_app by discriminate. cbn [removelast]. apply app_nil_r.
Qed.

Section ChatFacts.
Variable decoder : Type.
Variable decode_byte : decoder -> Byte.byte -> decoder * jsstring.
Variable JSON_parse : jsstring -> option json.

Lemma decode_app (d : decoder) (a b : list Byte.byte) :
  decode decode_byte d (a ++ b) =
  let '(d1, o1) := decode decode_byte d a in
  let '(d2, o2) := decode decode_byte d1 b in
  (d2, o1 ++ o2).
Proof.
  revert d. induction a as [|x a IH]; intros d.
  - cbn [app decode]. destruct (decode decode_byte d b). reflexivity.
  - cbn [app decode]. destruct (decode_byte d x) as [d1 o].
    rewrite IH. destruct (decode decode_byte d1 a) as [d2 o2].
    destruct (decode decode_byte d2 b) as [d3 o3]. now rewrite app_assoc.
Qed.

Lemma decode_concat (d : decoder) (chunks : list (list Byte.byte)) :
  decode decode_byte d (List.concat chunks) = decode_all decode_byte d chunks.
Proof.
  revert d. induction chunks as [|c rest IH]; intros d; [reflexivity |].
  cbn [List.concat decode_all]. rewrite decode_app.
  destruct (decode decode_byte d c) as [d1 o1]. now rewrite IH.
Qed.

Lemma for_lines_app (l1 l2 : list jsstring) :
  for_lines JSON_parse (l1 ++ l2) =
  let '(y1, r1) := for_lines JSON_parse l1 in
  if r1 then (y1, true)
  else let '(y2, r2) := for_lines JSON_parse l2 in (y1 ++ y2, r2).
Proof.
  induction l1 as [|x l1 IH].
  - cbn [app for_lines]. destruct (for_lines JSON_parse l2). reflexivity.
  - cbn [app for_lines].
    destruct (on_line JSON_parse x) as [y r]. destruct r; [reflexivity |].
    rewrite IH. destruct (for_lines JSON_parse l1) as [y1 [|]]; [reflexivity |].
    destruct (for_lines JSON_parse l2) as [y2 r2]. now rewrite app_assoc.
Qed.

(** The loop sees exactly the complete lines of the decoded text, in
    their order, however the text is cut into chunks. *)
Lemma read_loop_complete_lines (chunks : list (list Byte.byte)) :
  forall (d : decoder) (buffer : jsstring),
    split_lines buffer = [buffer] ->
    read_loop decode_byte JSON_parse chunks d buffer =
    outcome_of (for_lines JSON_parse
                  (complete_lines (buffer ++ snd (decode_all decode_byte d chunks)))).
Proof.
  induction chunks as [|c rest IH]; intros d buffer Hb.
  - cbn [read_loop decode_all snd]. rewrite app_nil_r.
    unfold complete_lines. rewrite Hb. reflexivity.
  - cbn [read_loop decode_all].
    destruct (decode decode_byte d c) as [d1 o1].
    destruct (decode_all decode_byte d1 rest) as [d2 o2] eqn:E2. cbn [snd].
    rewrite app_assoc, complete_lines_app.
    fold (complete_lines (buffer ++ o1)). fold (pending_line (buffer ++ o1)).
    rewrite for_lines_app.
    destruct (for_lines JSON_parse (complete_lines (buffer ++ o1))) as [y1 [|]];
      [reflexivity |].
    rewrite (IH d1 (pending_line (buffer ++ o1)) (split_lines_pending _)).
    rewrite E2. cbn [snd]. unfold outcome_of.
    destruct (for_lines JSON_parse
                (complete_lines (pending_line (buffer ++ o1) ++ o2)))
      as [y2 r2]. reflexivity.
Qed.

Variable new_decoder : decoder.

Lemma chat_complete_lines (resp : Response) :
  chat decode_byte JSON_parse new_decoder resp =
  if negb (ok resp) then HttpError (status resp)
  else
    let r := for_lines JSON_parse
               (complete_lines
                  (snd (decode decode_byte new_decoder (List.concat (body resp))))) in
    Tokens (fst r) (if snd r then DoneRecord else TransportEnd).
Proof.
  unfold chat. destruct (negb (ok resp)); [reflexivity |].
  rewrite read_loop_complete_lines by reflexivity.
  rewrite decode_concat. reflexivity.
Qed.

(** Any decoder that works byte by byte, any parser: the chunking of the
    body does not show in what [chat] yields. *)
Lemma chat_unsplit (resp : Response) :
  chat decode_byte JSON_parse new_decoder resp =
  chat decode_byte JSON_parse new_decoder
       {| ok := ok resp; status := status resp;
          body := [List.concat (body resp)] |}.
Proof.
  rewrite !chat_complete_lines. cbn [ok status body List.concat].
  now rewrite app_nil_r.
Qed.

Lemma on_line_malformed (line : jsstring) :
  JSON_parse line = None -> on_line JSON_parse line = ([], false).
Proof.
  intros H. unfold on_line. rewrite H. destruct (trim line); reflexivity.
Qed.

Lemma for_lines_skip (pre post : list jsstring) (line : jsstring) :
  on_line JSON_parse line = ([], false) ->
  for_lines JSON_parse (pre ++ line :: post) = for_lines JSON_parse (pre ++ post).
Proof.
  intros H. rewrite !for_lines_app. cbn [for_lines]. rewrite H.
  destruct (for_lines JSON_parse pre) as [y1 [|]]; [reflexivity |].
  destruct (for_lines JSON_parse post) as [y2 r2]. reflexivity.
Qed.

Lemma on_line_done (line : jsstring) (j : json) (done : value) :
  trim line <> [] ->
  JSON_parse line = Some j ->
  get (Val j) (str "done") = Some done ->
  truthy done = true ->
  snd (on_line JSON_parse line) = true.
Proof.
  intros Ht Hp Hd Hdone. unfold on_line. rewrite Hp.
  destruct (trim line); [contradiction |].
  destruct (get (Val j) (str "message")) as [message|] eqn:Hm.
  - rewrite Hd. exact Hdone.
  - destruct j; simpl in Hm, Hd; discriminate.
Qed.

Lemma for_lines_return (pre post : list jsstring) (line : jsstring) :
  snd (on_line JSON_parse line) = true ->
  for_lines JSON_parse (pre ++ line :: post) = for_lines JSON_parse (pre ++ [line]) /\
  (snd (for_lines JSON_parse pre) = false ->
   for_lines JSON_parse (pre ++ line :: post) =
   (fst (for_lines JSON_parse pre) ++ fst (on_line JSON_parse line), true)).
Proof.
  intros H. rewrite !for_lines_app. cbn [for_lines].
  destruct (on_line JSON_parse line) as [y r]. cbn [snd] in H. subst r.
  destruct (for_lines JSON_parse pre) as [y1 [|]]; split; cbn [fst snd];
    try reflexivity; discriminate.
Qed.
End ChatFacts.

(** A two-byte character cut between two chunks, after a byte order mark:
    the token is the same as without the cut. *)
Example chat_utf8_split_character :
  chat_utf8 {| ok := true; status := 200;
               body := [[Byte.xef; Byte.xbb; Byte.xbf]
                          ++ bytes "{'message':{'content':'caf" ++ [Byte.xc3];
                        [Byte.xa9] ++ bytes "'}}~"] |}
  = Tokens [Val (JString (str "caf" ++ [233%N]))] TransportEnd.
Proof. vm_compute. reflexivity. Qed.

(** C6. Cutting the response bytes into chunks at any places, inside a
    line, an object or a multi-byte character, changes nothing in what
    [chat] yields: the tokens and the way the sequence ends are those of
    the body delivered as one chunk.  The body of the example, cut inside
    the token, yields the one token "Hi" and ends on the [done] record,
    as it does uncut. *)
Theorem chat_chunking_invariant :
  (forall resp : Response,
      chat_utf8 resp =
      chat_utf8 {| ok := ok resp; status := status resp;
                   body := [List.concat (body resp)] |}) /\
  chat_utf8 {| ok := true; status := 200; body := example_chunks |}
    = Tokens [Val (JString (str "Hi"))] DoneRecord /\
  chat_utf8 {| ok := true; status := 200; body := example_unsplit |}
    = Tokens [Val (JString (str "Hi"))] DoneRecord.
Proof.
  split; [| split].
  - intros resp. unfold chat_utf8. apply chat_unsplit.
  - vm_compute. reflexivity.
  - vm_compute. reflexivity.
Qed.

(** C7. [chat] runs the loop body on the complete lines of the decoded
    text and on nothing else, so text after the last line feed is dropped
    when the transport ends; a line that [JSON.parse] rejects adds
    nothing and the lines after it are still processed; a line whose
    record has a truthy [done] yields its own token, if any, and ends the
    sequence, whatever follows it. *)
Theorem chat_line_handling :
  forall (resp : Response) (partial : jsstring) (pre post : list jsstring)
         (malformed final : jsstring) (j : json) (done : value),
    ~ In LF partial ->
    JSON.parse malformed = None ->
    trim final <> [] ->
    JSON.parse final = Some j ->
    get (Val j) (str "done") = Some done ->
    truthy done = true ->
    snd (for_lines JSON.parse pre) = false ->
    (chat_utf8 resp =
     if negb (ok resp) then HttpError (status resp)
     else
       let r := for_lines JSON.parse (complete_lines (decoded_text (body resp))) in
       Tokens (fst r) (if snd r then DoneRecord else TransportEnd)) /\
    complete_lines (decoded_text (body resp) ++ partial)
      = complete_lines (decoded_text (body resp)) /\
    for_lines JSON.parse (pre ++ malformed :: post)
      = for_lines JSON.parse (pre ++ post) /\
    for_lines JSON.parse (pre ++ final :: post)
      = (fst (for_lines JSON.parse pre) ++ fst (on_line JSON.parse final), true).
Proof.
  intros resp partial pre post malformed final j done Hp Hm Ht Hj Hd Hdone Hpre.
  repeat split.
  - unfold chat_utf8, decoded_text. apply chat_complete_lines.
  - apply complete_lines_partial, Hp.
  - apply for_lines_skip, on_line_malformed, Hm.
  - apply for_lines_return; [| exact Hpre].
    exact (@on_line_done JSON.parse final j done Ht Hj Hd Hdone).
Qed.

Lemma chat_line_handling_witness :
  (~ In LF sample_partial /\
   JSON.parse sample_malformed = None /\
   trim sample_final <> [] /\
   JSON.parse sample_final = Some sample_record /\
   get (Val sample_record) (str "done") = Some (Val (JBool true)) /\
   snd (for_lines JSON.parse sample_pre) = false) /\
  chat_utf8 sample_response = Tokens [Val (JString (str "a"))] TransportEnd /\
  complete_lines (decoded_text (body sample_response) ++ sample_partial)
    = complete_lines (decoded_text (body sample_response)) /\
  for_lines JSON.parse (sample_pre ++ sample_malformed :: sample_post)
    = for_lines JSON.parse (sample_pre ++ sample_post) /\
  for_lines JSON.parse (sample_pre ++ sample_final :: sample_post)
    = ([Val (JString (str "a")); Val (JString (str "b"))], true).
Proof.
  assert (Hp : ~ In LF sample_partial).
  { vm_compute. intros H. repeat (destruct H as [H|H]; [discriminate |]). exact H. }
  assert (Hm : JSON.parse sample_malformed = None) by (vm_compute; reflexivity).
  assert (Ht : trim sample_final <> []) by (vm_compute; discriminate).
  assert (Hj : JSON.parse sample_final = Some sample_record)
    by (vm_compute; reflexivity).
  assert (Hd : get (Val sample_record) (str "done") = Some (Val (JBool true)))
    by (vm_compute; reflexivity).
  assert (Hpre : snd (for_lines JSON.parse sample_pre) = false)
    by (vm_compute; reflexivity).
  split; [repeat split; assumption |].
  destruct (@chat_line_handling sample_response sample_partial sample_pre
              sample_post sample_malformed sample_final sample_record
              (Val (JBool true)) Hp Hm Ht Hj Hd eq_refl Hpre)
    as (H1 & H2 & H3 & H4).
  split; [| split; [| split]].
  - rewrite H1. vm_compute. reflexivity.
  - exact H2.
  - exact H3.
  - rewrite H4. vm_compute. reflexivity.
Defined.

(* ================================================================== *)
(** * Properties of the scan orchestrators *)
(* ================================================================== *)

Lemma acquisitions_app (l1 l2 : list Effect) :
  acquisitions (l1 ++ l2) = (acquisitions l1 + acquisitions l2)%nat.
Proof.
  induction l1 as [|e l1 IH]; [reflexivity |].
  destruct e; simpl; rewrite IH; reflexivity.
Qed.

Lemma analyse_throws (fuse : Fusion) (a : Analysis) :
  some_call_throws fuse a -> exists m, analyse fuse a = Threw m.
Proof.
  unfold some_call_throws, analyse, bind.
  intros [(m & H) | [(m & H) | [(m & H) | [(m & H) | [(m & H) | H]]]]].
  - rewrite H. eauto.
  - rewrite H. destruct (vsa_fullAnalysis a); eauto.
  - rewrite H. destruct (vsa_fullAnalysis a), (threat_fullAnalysis a); eauto.
  - rewrite H. destruct (vsa_fullAnalysis a), (threat_fullAnalysis a),
      (deception_fullAnalysis a); eauto.
  - rewrite H. destruct (vsa_fullAnalysis a), (threat_fullAnalysis a),
      (deception_fullAnalysis a), (threat_frameHistory a); eauto.
  - destruct H as (v & t & d & n & m & Hv & Ht & Hd & Hn & Hf).
    rewrite Hv, Ht, Hd, Hn, Hf. destruct (threat_frameHistory a); eauto.
Qed.

(** ** The tabbed orchestrator *)

(** Releasing the devices touches nothing but the two streams. *)
Lemma tabs_stop_devices_fields (s : Tabs.State) :
  let s' := Tabs.stopMicrophone (Tabs.stopCamera s) in
  Tabs.cameraStream s' = false /\ Tabs.audioStream s' = false /\
  Tabs.appState s' = Tabs.appState s /\ Tabs.isScanning s' = Tabs.isScanning s /\
  Tabs.scanTimer s' = Tabs.scanTimer s /\
  Tabs.frameCount s' = Tabs.frameCount s /\
  Tabs.lastProfile s' = Tabs.lastProfile s /\
  Tabs.scanHistory s' = Tabs.scanHistory s /\
  Tabs.stored_history s' = Tabs.stored_history s /\
  exists tail, Tabs.effects s' = Tabs.effects s ++ tail /\ acquisitions tail = 0%nat.
Proof.
  unfold Tabs.stopMicrophone, Tabs.stopCamera.
  destruct s as [a sc fc cam aud tm st lp h sh er ef].
  destruct cam, aud; cbn; repeat split;
    (eexists; split;
     [try rewrite <- app_assoc; try reflexivity; symmetry; apply app_nil_r
     | reflexivity]).
Qed.

(** Names what the release of the devices at the end of a step leaves
    unchanged. *)
Ltac tabs_release_devices pat :=
  match goal with
  | |- context [Tabs.stopMicrophone (Tabs.stopCamera ?x)] =>
      destruct (tabs_stop_devices_fields x) as pat; cbv zeta in *
  end.

Lemma tabs_startScan_while_scanning (d : Devices) (s : Tabs.State) :
  Tabs.appState s = Tabs.SCANNING ->
  let s' := Tabs.startScan d s in
  s' = Tabs.stopScan s /\
  Tabs.appState s' = Tabs.READY /\ Tabs.isScanning s' = false /\
  Tabs.scanTimer s' = false /\
  Tabs.cameraStream s' = false /\ Tabs.audioStream s' = false /\
  Tabs.frameCount s' = Tabs.frameCount s /\
  acquisitions (Tabs.effects s') = acquisitions (Tabs.effects s).
Proof.
  intros H s'. subst s'. unfold Tabs.startScan. rewrite H.
  split; [reflexivity |]. unfold Tabs.stopScan.
  tabs_release_devices
    ipattern:((Hc & Ha & Hst & Hsc & Htm & Hfc & _ & _ & _ & tail & Hef & Hacq)).
  rewrite Hc, Ha, Hst, Hsc, Htm, Hfc, Hef.
  cbn. rewrite !acquisitions_app, Hacq. cbn. repeat split; lia.
Qed.

Lemma tabs_completeScan_failure (fuse : Fusion) (a : Analysis) (s : Tabs.State) :
  some_call_throws fuse a ->
  let s' := Tabs.completeScan fuse a s in
  Tabs.appState s' = Tabs.READY /\
  Tabs.isScanning s' = false /\
  Tabs.scanHistory s' = Tabs.scanHistory s /\
  Tabs.stored_history s' = Tabs.stored_history s /\
  Tabs.lastProfile s' = Tabs.lastProfile s /\
  Tabs.cameraStream s' = false /\ Tabs.audioStream s' = false /\
  exists message tail,
    Tabs.effects s' =
    Tabs.effects s ++
      [ClearInterval; UpdateScanUI; ConsoleError "Analysis error:";
       ShowToast ("Analysis error: " ++ message)%string "error"; UpdateScanUI]
      ++ tail.
Proof.
  intros H s'. subst s'. destruct (@analyse_throws fuse a H) as (m & Hm).
  unfold Tabs.completeScan. rewrite Hm.
  tabs_release_devices
    ipattern:((Hc & Ha & Hst & Hsc & Htm & Hfc & Hlp & Hh & Hsh & tail & Hef & Hacq)).
  rewrite Hc, Ha, Hst, Hsc, Hlp, Hh, Hsh, Hef.
  cbn. repeat split. exists m, tail. rewrite <- !app_assoc. reflexivity.
Qed.

(** ** The avatar-first orchestrator *)

Lemma avatar_triggerScan_while_scanning (d : Devices) (s : Avatar.State) :
  Avatar.isScanning s = true -> Avatar.triggerScan d s = s.
Proof. intros H. unfold Avatar.triggerScan. now rewrite H. Qed.

Lemma avatar_stop_devices_fields (s : Avatar.State) :
  let s' := Avatar.stopMicrophone (Avatar.stopCamera s) in
  Avatar.cameraStream s' = false /\ Avatar.audioStream s' = false /\
  Avatar.isScanning s' = Avatar.isScanning s /\
  Avatar.scanTimer s' = Avatar.scanTimer s /\
  Avatar.lastProfile s' = Avatar.lastProfile s /\
  Avatar.scanHistory s' = Avatar.scanHistory s /\
  Avatar.stored_history s' = Avatar.stored_history s /\
  exists tail, Avatar.effects s' = Avatar.effects s ++ tail.
Proof.
  unfold Avatar.stopMicrophone, Avatar.stopCamera.
  destruct s as [sc ml fc cam aud tm st lp mi h sh er ef].
  destruct cam, aud; cbn; repeat split;
    (eexists; try rewrite <- app_assoc; try reflexivity; symmetry; apply app_nil_r).
Qed.

Lemma avatar_completeScan_failure (fuse : Fusion) (a : Analysis) (s : Avatar.State) :
  some_call_throws fuse a ->
  let s' := Avatar.completeScan fuse a s in
  Avatar.isScanning s' = false /\ Avatar.scanTimer s' = false /\
  Avatar.scanHistory s' = Avatar.scanHistory s /\
  Avatar.stored_history s' = Avatar.stored_history s /\
  Avatar.lastProfile s' = Avatar.lastProfile s /\
  Avatar.cameraStream s' = false /\ Avatar.audioStream s' = false /\
  exists pre tail,
    Avatar.effects s' =
    Avatar.effects s ++ pre ++
      [UpdateScanUI; ConsoleError "Analysis error:";
       AppendChatBubble "assistant"
         "I had trouble reading you this time. Let's just chat instead!"] ++ tail.
Proof.
  intros H s'. subst s'. destruct (@analyse_throws fuse a H) as (m & Hm).
  unfold Avatar.completeScan. rewrite Hm.
  match goal with |- context [Avatar.stopMicrophone (Avatar.stopCamera ?x)] =>
    destruct (avatar_stop_devices_fields x) as
      (Hc & Ha & Hsc & Htm & Hlp & Hh & Hsh & tail & Hef)
  end.
  cbv zeta in *. rewrite Hc, Ha, Hsc, Htm, Hlp, Hh, Hsh, Hef.
  destruct (Avatar.scanTimer s); cbn; repeat split.
  - exists [ClearInterval], tail. rewrite <- !app_assoc. reflexivity.
  - exists [], tail. rewrite <- !app_assoc. reflexivity.
Qed.

Lemma tabs_stopScan_effects (s : Tabs.State) :
  Tabs.effects (Tabs.stopScan s)
  = Tabs.effects s ++ [ClearInterval; UpdateScanUI]
    ++ stopped_tracks (Tabs.cameraStream s) (Tabs.audioStream s).
Proof.
  unfold Tabs.stopScan, Tabs.stopMicrophone, Tabs.stopCamera, stopped_tracks.
  destruct s as [a sc fc cam aud tm st lp h sh er ef].
  destruct cam, aud; cbn; rewrite <- ?app_assoc; reflexivity.
Qed.

(** ** Starting while a scan runs *)

(** C8, as stated, fails for the tabbed orchestrator: [startScan] called
    during a scan ends that scan. *)
Lemma tabs_startScan_ends_running_scan :
  Tabs.appState tabs_scanning = Tabs.SCANNING /\
  Tabs.startScan devices_granted tabs_scanning <> tabs_scanning /\
  Tabs.appState (Tabs.startScan devices_granted tabs_scanning) = Tabs.READY /\
  Tabs.isScanning (Tabs.startScan devices_granted tabs_scanning) = false.
Proof.
  repeat split; try reflexivity.
  intros H. apply (f_equal Tabs.appState) in H. vm_compute in H. discriminate.
Qed.

(** C8, amended. While a scan runs, [triggerScan] of the avatar-first
    orchestrator changes nothing at all.  [startScan] of the tabbed
    orchestrator asks for neither camera nor microphone again and leaves
    [frameCount] as it is, and it stops the running scan: it is
    [stopScan], the state is Ready, the timer is cleared, the tracks of
    the streams that [cameraStream] and [audioStream] hold are stopped,
    and both variables are null afterwards. *)
Theorem start_while_scanning :
  forall (d : Devices) (sa : Avatar.State) (st : Tabs.State),
    Avatar.isScanning sa = true ->
    Tabs.appState st = Tabs.SCANNING ->
    Avatar.triggerScan d sa = sa /\
    Tabs.startScan d st = Tabs.stopScan st /\
    acquisitions (Tabs.effects (Tabs.startScan d st)) = acquisitions (Tabs.effects st) /\
    Tabs.frameCount (Tabs.startScan d st) = Tabs.frameCount st /\
    Tabs.appState (Tabs.startScan d st) = Tabs.READY /\
    Tabs.isScanning (Tabs.startScan d st) = false /\
    Tabs.scanTimer (Tabs.startScan d st) = false /\
    Tabs.cameraStream (Tabs.startScan d st) = false /\
    Tabs.audioStream (Tabs.startScan d st) = false /\
    Tabs.effects (Tabs.startScan d st)
      = Tabs.effects st ++ [ClearInterval; UpdateScanUI]
        ++ stopped_tracks (Tabs.cameraStream st) (Tabs.audioStream st).
Proof.
  intros d sa st Ha Ht.
  destruct (@tabs_startScan_while_scanning d st Ht)
    as (H1 & H2 & H3 & H4 & H5 & H6 & H7 & H8).
  split; [apply avatar_triggerScan_while_scanning, Ha |].
  cbv zeta in H1.
  repeat (split; [assumption |]).
  rewrite H1. apply tabs_stopScan_effects.
Qed.

Lemma start_while_scanning_witness :
  (Avatar.isScanning avatar_scanning = true /\
   Tabs.appState tabs_scanning = Tabs.SCANNING) /\
  Avatar.triggerScan devices_granted avatar_scanning = avatar_scanning /\
  Tabs.frameCount (Tabs.startScan devices_granted tabs_scanning) = 12%nat /\
  Tabs.appState (Tabs.startScan devices_granted tabs_scanning) = Tabs.READY.
Proof.
  split; [split; reflexivity |].
  destruct (@start_while_scanning devices_granted avatar_scanning tabs_scanning
              eq_refl eq_refl) as (H1 & _ & _ & H4 & H5 & _).
  repeat split; assumption.
Defined.

(** ** A failing analysis *)

(** C9. When an engine call or the fusion throws while a scan completes,
    both orchestrators catch it: the tabbed one goes back to Ready and
    shows the error toast, the avatar-first one is no longer scanning and
    says so in the chat; in both the devices are released, and
    [scanHistory], what is stored under [HISTORY_KEY] and [lastProfile]
    are what they were. *)
Theorem completeScan_failure :
  forall (fuse : Fusion) (a : Analysis) (st : Tabs.State) (sa : Avatar.State),
    some_call_throws fuse a ->
    (Tabs.appState (Tabs.completeScan fuse a st) = Tabs.READY /\
     Tabs.isScanning (Tabs.completeScan fuse a st) = false /\
     Tabs.scanHistory (Tabs.completeScan fuse a st) = Tabs.scanHistory st /\
     Tabs.stored_history (Tabs.completeScan fuse a st) = Tabs.stored_history st /\
     Tabs.lastProfile (Tabs.completeScan fuse a st) = Tabs.lastProfile st /\
     Tabs.cameraStream (Tabs.completeScan fuse a st) = false /\
     Tabs.audioStream (Tabs.completeScan fuse a st) = false /\
     exists message tail,
       Tabs.effects (Tabs.completeScan fuse a st) =
       Tabs.effects st ++
         [ClearInterval; UpdateScanUI; ConsoleError "Analysis error:";
          ShowToast ("Analysis error: " ++ message)%string "error"; UpdateScanUI]
         ++ tail) /\
    (Avatar.isScanning (Avatar.completeScan fuse a sa) = false /\
     Avatar.scanTimer (Avatar.completeScan fuse a sa) = false /\
     Avatar.scanHistory (Avatar.completeScan fuse a sa) = Avatar.scanHistory sa /\
     Avatar.stored_history (Avatar.completeScan fuse a sa) = Avatar.stored_history sa /\
     Avatar.lastProfile (Avatar.completeScan fuse a sa) = Avatar.lastProfile sa /\
     Avatar.cameraStream (Avatar.completeScan fuse a sa) = false /\
     Avatar.audioStream (Avatar.completeScan fuse a sa) = false /\
     exists pre tail,
       Avatar.effects (Avatar.completeScan fuse a sa) =
       Avatar.effects sa ++ pre ++
         [UpdateScanUI; ConsoleError "Analysis error:";
          AppendChatBubble "assistant"
            "I had trouble reading you this time. Let's just chat instead!"]
         ++ tail).
Proof.
  intros fuse a st sa H. split.
  - exact (@tabs_completeScan_failure fuse a st H).
  - exact (@avatar_completeScan_failure fuse a sa H).
Qed.

Lemma completeScan_failure_witness :
  some_call_throws AlphaEye_compute analysis_failing /\
  Tabs.appState (Tabs.completeScan AlphaEye_compute analysis_failing tabs_scanning)
    = Tabs.READY /\
  Tabs.stored_history (Tabs.completeScan AlphaEye_compute analysis_failing tabs_scanning)
    = None /\
  Avatar.scanHistory (Avatar.completeScan AlphaEye_compute analysis_failing avatar_scanning)
    = [].
Proof.
  assert (H : some_call_throws AlphaEye_compute analysis_failing).
  { right. left. exists "no frames". reflexivity. }
  split; [exact H |].
  destruct (@completeScan_failure AlphaEye_compute analysis_failing tabs_scanning
              avatar_scanning H) as ((T1 & _ & _ & T4 & _) & (_ & _ & A3 & _)).
  repeat split; assumption.
Defined.

(** ** The history *)

Lemma tabs_startScan_history (d : Devices) (s : Tabs.State) :
  Tabs.appState s <> Tabs.SCANNING ->
  camera_granted d = true ->
  let s' := Tabs.startScan d s in
  Tabs.scanHistory s' = Tabs.scanHistory s /\
  Tabs.stored_history s' = Tabs.stored_history s.
Proof.
  intros Hs Hc s'. subst s'.
  unfold Tabs.startScan, Tabs.startCamera, Tabs.startMicrophone.
  rewrite Hc. destruct (Tabs.appState s); try contradiction;
    destruct (microphone_granted d); split; reflexivity.
Qed.

Lemma tabs_completeScan_success (a : Analysis) (e : HistoryEntry) (s : Tabs.State) :
  entry_of a = Some e ->
  let s' := Tabs.completeScan AlphaEye_compute a s in
  Tabs.appState s' = Tabs.RESULTS /\
  Tabs.scanHistory s' = e :: Tabs.scanHistory s /\
  Tabs.stored_history s' = Some (saved_history (e :: Tabs.scanHistory s)).
Proof.
  intros H s'. subst s'. unfold entry_of in H. unfold Tabs.completeScan.
  destruct (analyse AlphaEye_compute a) as [p|m]; [| discriminate].
  inversion H; subst e; clear H.
  tabs_release_devices ipattern:((_ & _ & Hst & _ & _ & _ & _ & Hh & Hsh & _)).
  rewrite Hst, Hh, Hsh. cbn. repeat split.
Qed.

Lemma tabs_scan_history (da : Devices * Analysis) (e : HistoryEntry) (s : Tabs.State) :
  Tabs.appState s <> Tabs.SCANNING ->
  completes da e ->
  let s' := tabs_scan da s in
  Tabs.appState s' = Tabs.RESULTS /\
  Tabs.scanHistory s' = e :: Tabs.scanHistory s /\
  Tabs.stored_history s' = Some (saved_history (e :: Tabs.scanHistory s)).
Proof.
  intros Hs [Hc He] s'. subst s'. unfold tabs_scan.
  destruct (@tabs_startScan_history (fst da) s Hs Hc) as [Hh _]. cbv zeta in Hh.
  destruct (@tabs_completeScan_success (snd da) e (Tabs.startScan (fst da) s) He)
    as (H1 & H2 & H3).
  cbv zeta in *. rewrite H1, H2, H3, Hh. repeat split.
Qed.

(** After a run of completed scans the array holds their entries, the
    latest first, in front of what it held; the store holds its first ten. *)
Lemma tabs_scans_history (scans : list (Devices * Analysis)) :
  forall (entries : list HistoryEntry) (s : Tabs.State),
    Tabs.appState s <> Tabs.SCANNING ->
    Forall2 completes scans entries ->
    let s' := tabs_scans scans s in
    Tabs.appState s' <> Tabs.SCANNING /\
    Tabs.scanHistory s' = rev entries ++ Tabs.scanHistory s /\
    (scans <> [] ->
     Tabs.stored_history s' = Some (firstn 10 (rev entries ++ Tabs.scanHistory s))).
Proof.
  induction scans as [|da rest IH]; intros entries s Hs HF; inversion HF; subst.
  - cbn. repeat split; [exact Hs | congruence].
  - rename y into e. rename l' into es.
    destruct (@tabs_scan_history da e s Hs H1) as (Ha & Hh & Hsh). cbv zeta in *.
    assert (Hs' : Tabs.appState (tabs_scan da s) <> Tabs.SCANNING)
      by (rewrite Ha; discriminate).
    destruct (IH es (tabs_scan da s) Hs' H3) as (Ia & Ih & Ish).
    cbn [tabs_scans fold_left]. fold (tabs_scans rest (tabs_scan da s)).
    cbv zeta in *. split; [exact Ia |].
    rewrite Hh in Ih, Ish.
    assert (E : rev (e :: es) ++ Tabs.scanHistory s
                = rev es ++ e :: Tabs.scanHistory s).
    { cbn [rev]. rewrite <- app_assoc. reflexivity. }
    rewrite E. split; [exact Ih |]. intros _.
    destruct rest as [|da' rest'].
    + inversion H3; subst. cbn. exact Hsh.
    + apply Ish. discriminate.
Qed.

(** C10. Starting with no history, in memory or stored, after [n] scans
    that each complete, the stored history is the first ten of the
    entries of these scans taken from the latest to the earliest: it has
    [min n 10] entries, the newest first.  After eleven scans it has
    exactly ten. *)
Theorem stored_history_after_scans :
  forall (scans : list (Devices * Analysis)) (entries : list HistoryEntry)
         (s : Tabs.State),
    Tabs.appState s <> Tabs.SCANNING ->
    Tabs.scanHistory s = [] ->
    loadHistory (Tabs.stored_history s) = [] ->
    Forall2 completes scans entries ->
    loadHistory (Tabs.stored_history (tabs_scans scans s))
      = firstn 10 (rev entries) /\
    List.length (loadHistory (Tabs.stored_history (tabs_scans scans s)))
      = Nat.min (List.length scans) 10 /\
    (List.length scans = 11%nat ->
     List.length (loadHistory (Tabs.stored_history (tabs_scans scans s))) = 10%nat).
Proof.
  intros scans entries s Hs Hh Hl HF.
  destruct (@tabs_scans_history scans entries s Hs HF) as (_ & _ & Hst).
  cbv zeta in Hst. rewrite Hh, app_nil_r in Hst.
  assert (Hlen : List.length entries = List.length scans).
  { symmetry. eapply Forall2_length; eassumption. }
  assert (E : loadHistory (Tabs.stored_history (tabs_scans scans s))
              = firstn 10 (rev entries)).
  { destruct scans as [|da rest].
    - inversion HF; subst. cbn. exact Hl.
    - rewrite Hst by discriminate. reflexivity. }
  rewrite E, length_firstn, length_rev, Hlen.
  repeat split; lia.
Qed.

Lemma stored_history_after_scans_witness :
  (Tabs.appState tabs_ready <> Tabs.SCANNING /\
   Tabs.scanHistory tabs_ready = [] /\
   loadHistory (Tabs.stored_history tabs_ready) = [] /\
   Forall2 completes (repeat (devices_granted, analysis_empty) 11)
           (repeat entry_empty 11)) /\
  loadHistory (Tabs.stored_history
                 (tabs_scans (repeat (devices_granted, analysis_empty) 11) tabs_ready))
    = repeat entry_empty 10 /\
  List.length (loadHistory (Tabs.stored_history
                 (tabs_scans (repeat (devices_granted, analysis_empty) 11) tabs_ready)))
    = 10%nat.
Proof.
  assert (Hs : Tabs.appState tabs_ready <> Tabs.SCANNING) by discriminate.
  assert (HF : Forall2 completes (repeat (devices_granted, analysis_empty) 11)
                 (repeat entry_empty 11)).
  { cbn [repeat]. repeat constructor. }
  split; [repeat split; try assumption; reflexivity |].
  destruct (@stored_history_after_scans
              (repeat (devices_granted, analysis_empty) 11)
              (repeat entry_empty 11) tabs_ready Hs eq_refl eq_refl HF)
    as (H1 & _ & H3).
  split; [rewrite H1; reflexivity | apply H3; reflexivity].
Defined.

(* ================================================================== *)
(** * Closed forms of the profile *)
(* ================================================================== *)

Lemma Qfloor_div (n : Z) (d : positive) (q : Q) :
  (q == inject_Z n / inject_Z (Z.pos d))%Q -> Qfloor q = n / Z.pos d.
Proof. intros H. rewrite (Qfloor_comp _ _ H). symmetry. apply Zdiv_Qdiv. Qed.

Lemma Math_round_tenths (q : Q) (n : Z) :
  (q == inject_Z n / 10)%Q -> Math_round (Fin q) = num ((n + 5) / 10).
Proof.
  intros H. unfold Math_round. f_equal.
  apply (@Qfloor_div (n + 5) 10). rewrite H, inject_Z_plus.
  change (inject_Z (Z.pos 10)) with 10%Q. change (inject_Z 5) with 5%Q. field.
Qed.

Lemma Math_round_halves (q : Q) (n : Z) :
  (q == inject_Z n / 2)%Q -> Math_round (Fin q) = num ((n + 1) / 2).
Proof.
  intros H. unfold Math_round. f_equal.
  apply (@Qfloor_div (n + 1) 2). rewrite H, inject_Z_plus.
  change (inject_Z (Z.pos 2)) with 2%Q. change (inject_Z 1) with 1%Q. field.
Qed.

Lemma clamp_in_range (k : Z) : 0 <= k <= 100 -> clamp (num k) = num k.
Proof. intros H. rewrite clamp_num. f_equal. lia. Qed.

Lemma charm_closed_form (t x : Z) :
  0 <= t <= 100 -> 0 <= x <= 100 ->
  clamp (Math_round (add (mul (num t) (Fin 0.6)) (mul (num x) (Fin 0.4))))
  = num ((6 * t + 4 * x + 5) / 10).
Proof.
  intros Ht Hx. cbn [num mul add].
  rewrite (@Math_round_tenths _ (6 * t + 4 * x)).
  - apply clamp_in_range. 
    pose proof (Z.div_mod (6 * t + 4 * x + 5) 10). 
    pose proof (Z.mod_pos_bound (6 * t + 4 * x + 5) 10). lia.
  - rewrite inject_Z_plus, !inject_Z_mult.
    change (inject_Z 6) with 6%Q. change (inject_Z 4) with 4%Q. field.
Qed.

Lemma selfRegulation_closed_form (b c : Z) :
  0 <= b <= 100 -> 0 <= c <= 100 ->
  clamp (Math_round (div (add (num b) (num c)) (num 2))) = num ((b + c + 1) / 2).
Proof.
  intros Hb Hc.
  assert (E : div (add (num b) (num c)) (num 2)
              = Fin ((inject_Z b + inject_Z c) / inject_Z 2)) by reflexivity.
  rewrite E.
  rewrite (@Math_round_halves _ (b + c)).
  - apply clamp_in_range.
    pose proof (Z.div_mod (b + c + 1) 2).
    pose proof (Z.mod_pos_bound (b + c + 1) 2). lia.
  - rewrite inject_Z_plus. reflexivity.
Qed.

Lemma inhibition_closed_form (g : Z) :
  0 <= g <= 100 -> clamp (Math_round (sub (num 100) (num g))) = num (100 - g).
Proof.
  intros Hg. cbn [num sub add neg].
  replace (Math_round (Fin (inject_Z 100 + - inject_Z g))) with (num (100 - g)).
  - apply clamp_in_range. lia.
  - unfold Math_round. f_equal.
    rewrite <- (Qfloor_half (100 - g)). apply Qfloor_comp.
    unfold Z.sub. rewrite inject_Z_plus, inject_Z_opp. reflexivity.
Qed.

(** [computeConcentration] on a gaze value equal to [g], an inhibition
    equal to [i] and a stress equal to [s]. *)
Lemma computeConcentration_closed_form (qg : Q) (g i s : Z) :
  (qg == inject_Z g)%Q ->
  computeConcentration (Fin qg) (num i) (num s)
  = num (Z.max 0 (Z.min 100 ((5 * g + 3 * (100 - i) + 2 * (100 - s) + 5) / 10))).
Proof.
  intros Hg. unfold computeConcentration. cbn [num mul add sub neg].
  rewrite (@Math_round_tenths _ (5 * g + 3 * (100 - i) + 2 * (100 - s))).
  - apply clamp_num.
  - rewrite Hg. unfold Z.sub. 
    rewrite !inject_Z_plus, !inject_Z_mult, !inject_Z_plus, !inject_Z_opp.
    change (inject_Z 5) with 5%Q. change (inject_Z 3) with 3%Q.
    change (inject_Z 2) with 2%Q. change (inject_Z 100) with 100%Q. field.
Qed.

(** X1. In every profile the derived parameters are given by integer
    formulas of the clamped inputs, and [clamp] never cuts them: charm is
    [(6 t + 4 x + 5) / 10] for truthfulness [t] and expression range [x],
    selfRegulation is [(balance + charm + 1) / 2], inhibition is
    [100 - g] for gaze stability [g], and concentrationIndex is
    [(8 g - 2 stress + 205) / 10]. *)
Theorem derived_parameters_closed_form :
  forall (threat : option ThreatResult) (deception : option DeceptionResult)
         (neuro : option NeuroResult) (vsa : option VsaResult) (now : Z),
    let p := compute threat deception neuro vsa now in
    exists t x g b s c : Z,
      (0 <= t <= 100 /\ 0 <= x <= 100 /\ 0 <= g <= 100) /\
      truthfulness_of deception = num t /\
      expressionRange_of neuro = num x /\
      gazeStability_of neuro = num g /\
      balance (params p) = num b /\
      stress (params p) = num s /\
      charm (params p) = num c /\
      c = (6 * t + 4 * x + 5) / 10 /\
      selfRegulation (params p) = num ((b + c + 1) / 2) /\
      inhibition (params p) = num (100 - g) /\
      concentrationIndex p = num ((8 * g - 2 * s + 205) / 10).
Proof.
  intros threat deception neuro vsa now p. subst p.
  unfold compute, truthfulness_of, expressionRange_of, gazeStability_of.
  set (m := metrics_of threat).
  set (bio := biometrics_of neuro).
  set (dec := deception_of deception).
  cbn [params balance stress charm selfRegulation inhibition concentrationIndex].
  destruct (clamp_or_default_range (m_stress m) 25) as (s & -> & Hs).
  destruct (clamp_or_default_range (m_stability m) 60) as (b & -> & Hb).
  destruct (clamp_or_default_range (b_expressionRange bio) 50) as (x & -> & Hx).
  destruct (clamp_or_default_range (d_truthfulnessIndex dec) 70) as (t & -> & Ht).
  destruct (clamp_or_default_range (b_gazeStability bio) 60) as (g & -> & Hg).
  rewrite (charm_closed_form Ht Hx).
  assert (Hc : 0 <= (6 * t + 4 * x + 5) / 10 <= 100).
  { pose proof (Z.div_mod (6 * t + 4 * x + 5) 10).
    pose proof (Z.mod_pos_bound (6 * t + 4 * x + 5) 10). lia. }
  rewrite (selfRegulation_closed_form Hb Hc).
  rewrite (inhibition_closed_form Hg).
  exists t, x, g, b, s, ((6 * t + 4 * x + 5) / 10).
  repeat (split; [first [reflexivity | lia] |]).
  etransitivity;
    [exact (@computeConcentration_closed_form (inject_Z g) g (100 - g) s
              (Qeq_refl _)) |].
  f_equal.
  replace (5 * g + 3 * (100 - (100 - g)) + 2 * (100 - s) + 5)
    with (8 * g - 2 * s + 205) by lia.
  pose proof (Z.div_mod (8 * g - 2 * s + 205) 10).
  pose proof (Z.mod_pos_bound (8 * g - 2 * s + 205) 10). lia.
Qed.

(** ** Emotional variation *)

Lemma variance_closed_form (a s t n : Z) :
  let neg := [num a; num s; num t; num n] in
  let len := num (Z.of_nat (List.length neg)) in
  let avg := div (reduce (fun x y => add x y) (num 0) neg) len in
  exists v : Q,
    div (reduce (fun x y => add x (Math_pow2 (sub y avg))) (num 0) neg) len = Fin v /\
    (v == inject_Z (spread16 a s t n) / 16)%Q.
Proof.
  cbv zeta. eexists. split; [reflexivity |].
  unfold spread16. unfold Z.sub.
  rewrite !inject_Z_plus, !inject_Z_opp, !inject_Z_mult, !inject_Z_plus, !inject_Z_mult.
  change (inject_Z 4) with 4%Q. change (inject_Z 0) with 0%Q.
  change (inject_Z (Z.of_nat (List.length [num a; num s; num t; num n]))) with 4%Q.
  field.
Qed.

Lemma spread16_bounds (a s t n : Z) :
  0 <= a <= 100 -> 0 <= s <= 100 -> 0 <= t <= 100 -> 0 <= n <= 100 ->
  0 <= spread16 a s t n <= 40000.
Proof.
  intros Ha Hs Ht Hn. unfold spread16. split.
  - assert (E : 4 * (a * a + s * s + t * t + n * n) - (a + s + t + n) * (a + s + t + n)
                = (a - s) * (a - s) + (a - t) * (a - t) + (a - n) * (a - n)
                  + (s - t) * (s - t) + (s - n) * (s - n) + (t - n) * (t - n)) by ring.
    rewrite E.
    pose proof (Z.square_nonneg (a - s)). pose proof (Z.square_nonneg (a - t)).
    pose proof (Z.square_nonneg (a - n)). pose proof (Z.square_nonneg (s - t)).
    pose proof (Z.square_nonneg (s - n)). pose proof (Z.square_nonneg (t - n)).
    lia.
  - assert (E : 4 * (a * a + s * s + t * t + n * n) - (a + s + t + n) * (a + s + t + n)
                = 4 * ((a - 50) * (a - 50) + (s - 50) * (s - 50)
                       + (t - 50) * (t - 50) + (n - 50) * (n - 50))
                  - (a + s + t + n - 200) * (a + s + t + n - 200)) by ring.
    rewrite E.
    assert ((a - 50) * (a - 50) <= 2500) by nia.
    assert ((s - 50) * (s - 50) <= 2500) by nia.
    assert ((t - 50) * (t - 50) <= 2500) by nia.
    assert ((n - 50) * (n - 50) <= 2500) by nia.
    pose proof (Z.square_nonneg (a + s + t + n - 200)).
    lia.
Qed.

(** X2. For aggression, stress, tension and neuroticism that are integers
    in [0,100], the score of the emotional variation is twice the
    population standard deviation of the four, rounded; it is at most 100,
    so [clamp] leaves it alone, and the label is "Unstable" above 30,
    "Moderate" above 15 and "Stable" otherwise. *)
Theorem emotional_variation_spec :
  forall (p : Params) (a s t n : Z),
    aggression p = num a -> stress p = num s ->
    tension p = num t -> neuroticism p = num n ->
    0 <= a <= 100 -> 0 <= s <= 100 -> 0 <= t <= 100 -> 0 <= n <= 100 ->
    let k := (Z.sqrt (spread16 a s t n) + 1) / 2 in
    ev_score (computeEmotionalVariation p) = num k /\
    0 <= k <= 100 /\
    k = Zfloor (sqrt (IZR (spread16 a s t n) / 16) * 2 + / 2)%R /\
    ev_label (computeEmotionalVariation p)
      = (if 30 <? k then "Unstable" else if 15 <? k then "Moderate" else "Stable").
Proof.
  intros p a s t n Ea Es Et En Ha Hs Ht Hn k.
  pose proof (spread16_bounds Ha Hs Ht Hn) as HN.
  destruct (variance_closed_form a s t n) as (v & Hv & Hq). cbv zeta in Hv.
  assert (Hv0 : (0 <= v)%Q).
  { rewrite Hq. apply Qle_shift_div_l; [reflexivity |].
    rewrite Qmult_0_l. change 0%Q with (inject_Z 0). rewrite <- Zle_Qle. lia. }
  assert (Hfloor : Qfloor (16 * v) = spread16 a s t n).
  { rewrite <- (Qfloor_Z (spread16 a s t n)). apply Qfloor_comp.
    rewrite Hq. field. }
  assert (Hround : round_sqrt_x2 v = k).
  { unfold round_sqrt_x2. rewrite Hfloor. reflexivity. }
  assert (Hk : 0 <= k <= 100).
  { subst k. pose proof (Z.sqrt_nonneg (spread16 a s t n)).
    assert (Z.sqrt (spread16 a s t n) <= 200).
    { change 200 with (Z.sqrt 40000). apply Z.sqrt_le_mono. lia. }
    pose proof (Z.div_mod (Z.sqrt (spread16 a s t n) + 1) 2).
    pose proof (Z.mod_pos_bound (Z.sqrt (spread16 a s t n) + 1) 2). lia. }
  assert (Hscore : Math_round_sqrt_x2 (Fin v) = num k).
  { unfold Math_round_sqrt_x2. apply Qle_bool_iff in Hv0. rewrite Hv0, Hround.
    reflexivity. }
  unfold computeEmotionalVariation. rewrite Ea, Es, Et, En.
  cbv zeta. rewrite Hv, Hscore. cbn [ev_score ev_label].
  split; [apply clamp_in_range, Hk |]. split; [exact Hk |]. split.
  - rewrite <- Hround. rewrite (round_sqrt_x2_correct Hv0). f_equal. f_equal. f_equal.
    f_equal. rewrite (Qeq_eqR _ _ Hq). unfold Qdiv. rewrite Q2R_mult, Q2R_inv.
    + rewrite Q2R_inject_Z. unfold Rdiv. f_equal. f_equal. unfold Q2R. simpl. lra.
    + discriminate.
  - unfold gt. rewrite !lt_num. reflexivity.
Qed.

(** ** State of mind *)

Lemma emotional_variation_spec_witness :
  (aggression sample_params = num 80 /\ stress sample_params = num 70 /\
   tension sample_params = num 60 /\ neuroticism sample_params = num 20 /\
   0 <= 80 <= 100 /\ 0 <= 70 <= 100 /\ 0 <= 60 <= 100 /\ 0 <= 20 <= 100) /\
  spread16 80 70 60 20 = 8300 /\
  ev_score (computeEmotionalVariation sample_params) = num 46 /\
  ev_label (computeEmotionalVariation sample_params) = "Unstable".
Proof.
  split; [repeat split; (reflexivity || lia) |].
  split; [reflexivity |].
  destruct (@emotional_variation_spec sample_params 80 70 60 20
              eq_refl eq_refl eq_refl eq_refl
              ltac:(lia) ltac:(lia) ltac:(lia) ltac:(lia)) as (H1 & _ & _ & H4).
  split; [exact H1 | exact H4].
Defined.



(** ** Vitality *)

Lemma sigmoid_pos (e : R) : (0 < e)%R -> (0 < 2 / (1 + e))%R.
Proof. intros H. apply Rdiv_lt_0_compat; lra. Qed.








(** ** Opening a history entry *)

Import Replay.

Lemma tabs_replay_avatar_replay (scan : HistoryEntry) :
  tabs_replay scan = avatar_replay scan.
Proof. reflexivity. Qed.

(** X5. Opening the history entry made from a profile gives back the
    parameters, the state of mind, the emotional variation, the vitality
    index and the concentration index of that profile, in both
    orchestrators; the time is that of the entry, and voice stress,
    deception probability, conditions and timeline are reset. *)
Theorem replay_restores_indices :
  forall (threat : option ThreatResult) (deception : option DeceptionResult)
         (neuro : option NeuroResult) (vsa : option VsaResult) (a : Analysis),
    let p := compute threat deception neuro vsa (clock_profile a) in
    let r := avatar_replay (history_entry a p) in
    tabs_replay (history_entry a p) = r /\
    r_params r = params p /\
    r_stateOfMind r = stateOfMind p /\
    r_emotionalVariation r = emotionalVariation p /\
    r_vitalityIndex r = vitalityIndex p /\
    r_concentrationIndex r = concentrationIndex p /\
    r_timestamp r = clock_entry a /\
    r_voiceStress r = num 0 /\ r_deceptionProb r = num 0 /\
    r_conditions r = [] /\ r_deceptionTimeline r = [].
Proof.
  intros threat deception neuro vsa a p r. subst r.
  split; [reflexivity |].
  repeat (split; [reflexivity |]).
  split; [| repeat split; reflexivity].
  cbn [avatar_replay r_concentrationIndex history_entry h_params].
  subst p. unfold compute.
  set (bio := biometrics_of neuro). set (m := metrics_of threat).
  cbn [params inhibition stress concentrationIndex].
  destruct (clamp_or_default_range (m_stress m) 25) as (s & -> & Hs).
  destruct (clamp_or_default_range (b_gazeStability bio) 60) as (g & -> & Hg).
  rewrite (inhibition_closed_form Hg).
  etransitivity;
    [exact (@computeConcentration_closed_form
              (inject_Z 100 + - inject_Z (100 - g)) g (100 - g) s
              ltac:(unfold Z.sub; rewrite !inject_Z_plus, !inject_Z_opp; ring)) |].
  symmetry.
  exact (@computeConcentration_closed_form (inject_Z g) g (100 - g) s (Qeq_refl _)).
Qed.

(** ** [clamp] *)

(** X6. [clamp] is idempotent, and the values it leaves unchanged are
    NaN and the integers from 0 to 100 (the values [num k] with
    [0 <= k <= 100]). *)
Theorem clamp_idempotent_fixpoints :
  forall x : Number,
    clamp (clamp x) = clamp x /\
    (clamp x = x <-> (x = NaN \/ in_range 0 100 x)).
Proof.
  intros x. split.
  - destruct x as [| | |q]; try reflexivity.
    rewrite clamp_Fin, clamp_num. f_equal. lia.
  - split.
    + intros E. destruct x as [| | |q]; [left; reflexivity | | |];
        right; rewrite <- E; apply clamp_range; discriminate.
    + intros [-> | (k & -> & Hk)]; [reflexivity | apply clamp_in_range, Hk].
Qed.

(** ** The dominant state and the therapy directions *)

Lemma sort_head_In {A : Type} (cmp : A -> A -> Number) (l : list A) (c : A) :
  sort_head cmp l = Some c -> In c l.
Proof.
  revert c. induction l as [|x t IH]; intros c H; [discriminate |].
  cbn [sort_head] in H. destruct (sort_head cmp t) as [y|].
  - destruct (gt (cmp x y) (Fin 0)); inversion H; subst.
    + right. apply IH. reflexivity.
    + left. reflexivity.
  - inversion H. left. reflexivity.
Qed.

Lemma getDominantState_in_keys (p : Params) : In (getDominantState p) state_keys.
Proof.
  unfold getDominantState.
  set (cmp := fun a b : Candidate => sub (score b) (score a)).
  match goal with |- context [sort cmp ?l] => set (states := l) end.
  pose proof (hd_sort cmp states) as Hh.
  destruct (sort cmp states) as [|top rest].
  - simpl. tauto.
  - destruct (JS.lt (score top) (num 40)); [simpl; tauto |].
    cbn [hd_error] in Hh. symmetry in Hh. apply sort_head_In in Hh.
    unfold states in Hh. cbn [In] in Hh.
    destruct Hh as [E|[E|[E|[E|[E|[]]]]]]; subst top; simpl; tauto.
Qed.

(** X7. Whatever the params are, missing or NaN fields included,
    [getDominantState] answers one of the six keys of
    [TherapyEngine.directions], so [getDirection] finds an entry for it
    and never needs its fallback. *)
Theorem getDominantState_known_direction :
  forall p : Params,
    In (getDominantState p) state_keys /\
    TherapyEngine.lookup TherapyEngine.directions (getDominantState p) <> None.
Proof.
  intros p. pose proof (getDominantState_in_keys p) as H.
  split; [exact H |].
  unfold state_keys in H. cbn [In] in H.
  destruct H as [E|[E|[E|[E|[E|[E|[]]]]]]]; rewrite <- E; vm_compute; discriminate.
Qed.

(** The ten primary parameters of a profile are percentages. *)
Lemma compute_params_in_range
    (threat : option ThreatResult) (deception : option DeceptionResult)
    (neuro : option NeuroResult) (vsa : option VsaResult) (now : Z) :
  let p := params (compute threat deception neuro vsa now) in
  in_range 0 100 (aggression p) /\ in_range 0 100 (stress p) /\
  in_range 0 100 (tension p) /\ in_range 0 100 (suspect p) /\
  in_range 0 100 (balance p) /\ in_range 0 100 (charm p) /\
  in_range 0 100 (energy p) /\ in_range 0 100 (selfRegulation p) /\
  in_range 0 100 (inhibition p) /\ in_range 0 100 (neuroticism p).
Proof.
  cbv zeta. unfold compute.
  cbn [params aggression stress tension suspect balance charm energy
       selfRegulation inhibition neuroticism].
  repeat split;
    first [apply clamp_or_default_range | apply clamp_range; discriminate | idtac].
  - destruct (clamp_or_default_range
                (d_truthfulnessIndex (deception_of deception)) 70) as (t & -> & _).
    destruct (clamp_or_default_range
                (b_expressionRange (biometrics_of neuro)) 50) as (x & -> & _).
    apply clamp_round_Fin_range.
  - destruct (clamp_or_default_range
                (d_truthfulnessIndex (deception_of deception)) 70) as (t & -> & _).
    destruct (clamp_or_default_range
                (b_expressionRange (biometrics_of neuro)) 50) as (x & -> & _).
    destruct (clamp_or_default_range (m_stability (metrics_of threat)) 60)
      as (b & -> & _).
    destruct (clamp_round_Fin_range
                (inject_Z t * 0.6 + inject_Z x * 0.4)) as (c & Hc & _).
    cbn [num mul add] in *. rewrite Hc. apply clamp_round_Fin_range.
  - destruct (clamp_or_default_range
                (b_gazeStability (biometrics_of neuro)) 60) as (g & -> & _).
    apply clamp_round_Fin_range.
Qed.

(* ================================================================== *)
(** * The chat request and the tokens *)
(* ================================================================== *)

(** ** The request window *)

Import OllamaRequest.

Lemma slice_last_suffix {A : Type} (n : nat) (l : list A) :
  exists dropped : list A,
    l = dropped ++ slice_last n l /\
    List.length (slice_last n l) = Nat.min (List.length l) n.
Proof.
  exists (firstn (List.length l - n) l). unfold slice_last. split.
  - symmetry. apply firstn_skipn.
  - rewrite length_skipn. lia.
Qed.

Lemma last_app_nonempty {A : Type} (l l' : list A) (d : A) :
  l' <> [] -> last (l ++ l') d = last l' d.
Proof.
  intros H. induction l as [|x l IH]; [reflexivity |].
  cbn [app last]. destruct (l ++ l') eqn:E; [| exact IH].
  apply app_eq_nil in E. destruct E; contradiction.
Qed.

(** X8. The request [chat] posts holds the system message, when the
    prompt is a non-empty string, followed by the last six messages of the
    conversation in their order, or all of them when there are fewer: at
    most seven messages, and the last one is the last message of the
    conversation. *)
Theorem chat_request_window :
  forall (model : string) (conversation : list Message)
         (systemPrompt : option jsstring),
    let sent := messages (build model conversation systemPrompt) in
    exists (head dropped kept : list Message),
      sent = head ++ kept /\
      conversation = dropped ++ kept /\
      List.length kept = Nat.min (List.length conversation) 6 /\
      head = match systemPrompt with
             | Some (c :: p) => [{| role := "system"; content := c :: p |}]
             | _ => []
             end /\
      (List.length sent <= 7)%nat /\
      match conversation with
      | [] => sent = head
      | _ :: _ => last sent no_message = last conversation no_message
      end.
Proof.
  intros model conversation systemPrompt sent. subst sent.
  destruct (slice_last_suffix 6 conversation) as (dropped & Hd & Hl).
  cbn [build messages].
  set (head := match systemPrompt with
               | Some (c :: p) => [{| role := "system"; content := c :: p |}]
               | Some [] | None => []
               end).
  exists head, dropped, (slice_last 6 conversation).
  split; [reflexivity |]. split; [exact Hd |]. split; [exact Hl |].
  split; [unfold head; destruct systemPrompt as [[|c p]|]; reflexivity |].
  split.
  - rewrite length_app, Hl.
    assert (List.length head <= 1)%nat
      by (unfold head; destruct systemPrompt as [[|c p]|]; simpl; lia).
    lia.
  - assert (Hk : conversation <> [] -> slice_last 6 conversation <> []).
    { intros Hne E. apply (f_equal (@List.length _)) in E. rewrite Hl in E.
      destruct conversation; [contradiction | simpl in E; lia]. }
    destruct conversation as [|m rest] eqn:Ec.
    + cbn. apply app_nil_r.
    + rewrite <- Ec in *.
      assert (Hne : conversation <> []) by (rewrite Ec; discriminate).
      specialize (Hk Hne).
      rewrite (@last_app_nonempty _ head _ _ Hk).
      rewrite Hd at 2. rewrite (@last_app_nonempty _ dropped _ _ Hk). reflexivity.
Qed.

(** ** What the generator yields *)

Section TokenFacts.
Variable JSON_parse : jsstring -> option json.

Lemma on_line_tokens (line : jsstring) :
  Forall (fun v => truthy v = true) (fst (on_line JSON_parse line)) /\
  (List.length (fst (on_line JSON_parse line)) <= 1)%nat.
Proof.
  unfold on_line. destruct (trim line) as [|c0 rest0]; [simpl; auto |].
  destruct (JSON_parse line) as [j|]; [| simpl; auto].
  destruct (get (Val j) (str "message")) as [message|]; [| simpl; auto].
  set (content := if truthy message
                  then match get message (str "content") with
                       | Some c => c
                       | None => Undefined
                       end
                  else message).
  destruct (truthy content) eqn:E;
    destruct (get (Val j) (str "done")); simpl; auto.
Qed.

Lemma for_lines_tokens (lines : list jsstring) :
  Forall (fun v => truthy v = true) (fst (for_lines JSON_parse lines)) /\
  (List.length (fst (for_lines JSON_parse lines)) <= List.length lines)%nat.
Proof.
  induction lines as [|line rest [IH1 IH2]]; [simpl; auto |].
  cbn [for_lines]. destruct (on_line_tokens line) as [H1 H2].
  destruct (on_line JSON_parse line) as [y r]. cbn [fst] in H1, H2.
  destruct r; cbn [fst].
  - split; [exact H1 | simpl; lia].
  - destruct (for_lines JSON_parse rest) as [more r']. cbn [fst] in *.
    split; [apply Forall_app; split; assumption |].
    rewrite length_app. simpl. lia.
Qed.
End TokenFacts.

(** X9. When [chat] does not throw, the response was [ok], every value
    it yields is truthy (no empty content is ever yielded), and it yields
    at most one value for each complete line of the decoded body. *)
Theorem chat_tokens :
  forall (resp : Response) (tokens : list value) (e : ending),
    chat_utf8 resp = Tokens tokens e ->
    ok resp = true /\
    Forall (fun v => truthy v = true) tokens /\
    (List.length tokens
     <= List.length (complete_lines (decoded_text (body resp))))%nat.
Proof.
  intros resp tokens e H. unfold chat_utf8 in H.
  rewrite chat_complete_lines in H. fold (decoded_text (body resp)) in H.
  destruct (ok resp); cbn [negb] in H; [| discriminate].
  cbv zeta in H. inversion H; subst. split; [reflexivity |].
  apply for_lines_tokens.
Qed.

Lemma chat_tokens_witness :
  chat_utf8 sample_response = Tokens [Val (JString (str "a"))] TransportEnd /\
  ok sample_response = true /\
  Forall (fun v => truthy v = true) [Val (JString (str "a"))] /\
  (List.length [Val (JString (str "a"))]
   <= List.length (complete_lines (decoded_text (body sample_response))))%nat.
Proof.
  assert (H : chat_utf8 sample_response
              = Tokens [Val (JString (str "a"))] TransportEnd)
    by (vm_compute; reflexivity).
  split; [exact H |].
  exact (@chat_tokens sample_response _ _ H).
Defined.

(* ================================================================== *)
(** * Ends, starts and history of a scan *)
(* ================================================================== *)

(** ** More on the scan orchestrators *)

Lemma tabs_completeScan_released (fuse : Fusion) (a : Analysis) (st : Tabs.State) :
  Tabs.cameraStream (Tabs.completeScan fuse a st) = false /\
  Tabs.audioStream (Tabs.completeScan fuse a st) = false /\
  Tabs.isScanning (Tabs.completeScan fuse a st) = false /\
  Tabs.scanTimer (Tabs.completeScan fuse a st) = false.
Proof.
  unfold Tabs.completeScan.
  tabs_release_devices ipattern:((Hc & Ha & _ & Hsc & Htm & _)).
  rewrite Hc, Ha, Hsc, Htm.
  destruct (analyse fuse a); repeat split; reflexivity.
Qed.

Lemma tabs_stopScan_released (st : Tabs.State) :
  Tabs.cameraStream (Tabs.stopScan st) = false /\
  Tabs.audioStream (Tabs.stopScan st) = false /\
  Tabs.isScanning (Tabs.stopScan st) = false /\
  Tabs.scanTimer (Tabs.stopScan st) = false.
Proof.
  unfold Tabs.stopScan.
  tabs_release_devices ipattern:((Hc & Ha & _ & Hsc & Htm & _)).
  rewrite Hc, Ha, Hsc, Htm. repeat split; reflexivity.
Qed.

Lemma avatar_startMonitoring_fields (s : Avatar.State) :
  Avatar.isScanning (Avatar.startMonitoring s) = Avatar.isScanning s /\
  Avatar.scanTimer (Avatar.startMonitoring s) = Avatar.scanTimer s /\
  Avatar.monitorInterval (Avatar.startMonitoring s) = Avatar.monitorInterval s.
Proof.
  unfold Avatar.startMonitoring.
  destruct (Avatar.monitorInterval s) eqn:Em; [repeat split; exact Em |].
  destruct (Avatar.cameraStream s); repeat split; exact Em.
Qed.

Lemma avatar_stop_devices_monitorInterval (s : Avatar.State) :
  Avatar.monitorInterval (Avatar.stopMicrophone (Avatar.stopCamera s))
  = Avatar.monitorInterval s.
Proof.
  unfold Avatar.stopMicrophone, Avatar.stopCamera.
  destruct s as [sc ml fc cam aud tm st lp mi h sh er ef].
  destruct cam, aud; reflexivity.
Qed.

Lemma avatar_completeScan_released (fuse : Fusion) (a : Analysis) (sa : Avatar.State) :
  Avatar.cameraStream (Avatar.completeScan fuse a sa) = false /\
  Avatar.audioStream (Avatar.completeScan fuse a sa) = false /\
  Avatar.isScanning (Avatar.completeScan fuse a sa) = false /\
  Avatar.scanTimer (Avatar.completeScan fuse a sa) = false.
Proof.
  unfold Avatar.completeScan.
  match goal with |- context [Avatar.stopMicrophone (Avatar.stopCamera ?x)] =>
    destruct (avatar_stop_devices_fields x) as (Hc & Ha & Hsc & Htm & _)
  end.
  cbv zeta in *. rewrite Hc, Ha, Hsc, Htm. clear Hc Ha Hsc Htm.
  split; [reflexivity |]. split; [reflexivity |].
  destruct (analyse fuse a) as [p|m]; [| split; reflexivity].
  match goal with |- context [Avatar.startMonitoring ?x] =>
    destruct (avatar_startMonitoring_fields x) as (Hsc & Htm & _)
  end.
  rewrite Hsc, Htm. split; reflexivity.
Qed.

Lemma avatar_completeScan_monitorInterval (fuse : Fusion) (a : Analysis)
    (sa : Avatar.State) :
  Avatar.monitorInterval (Avatar.completeScan fuse a sa) = Avatar.monitorInterval sa.
Proof.
  unfold Avatar.completeScan. rewrite avatar_stop_devices_monitorInterval.
  destruct (analyse fuse a) as [p|m].
  - match goal with |- context [Avatar.startMonitoring ?x] =>
      destruct (avatar_startMonitoring_fields x) as (_ & _ & Hm)
    end.
    rewrite Hm. destruct (Avatar.scanTimer sa); reflexivity.
  - destruct (Avatar.scanTimer sa); reflexivity.
Qed.

Lemma avatar_monitoring_resumes_fields (k : Avatar.Pending) (d : Devices)
    (s : Avatar.State) :
  Avatar.audioStream (Avatar.monitoring_resumes k d s) = Avatar.audioStream s /\
  Avatar.isScanning (Avatar.monitoring_resumes k d s) = Avatar.isScanning s /\
  Avatar.scanTimer (Avatar.monitoring_resumes k d s) = Avatar.scanTimer s /\
  Avatar.cameraStream (Avatar.monitoring_resumes k d s)
    = match k with
      | Avatar.CameraRequested => (Avatar.cameraStream s || camera_granted d)%bool
      | _ => Avatar.cameraStream s
      end /\
  Avatar.monitorInterval (Avatar.monitoring_resumes k d s)
    = match k with
      | Avatar.NothingPending => Avatar.monitorInterval s
      | Avatar.CameraWasHeld => true
      | Avatar.CameraRequested => (Avatar.monitorInterval s || camera_granted d)%bool
      end.
Proof.
  destruct s as [sc ml fc cam aud tm st lp mi h sh er ef].
  destruct k; cbn; [repeat split | repeat split |].
  destruct (camera_granted d); cbn; rewrite ?orb_true_r, ?orb_false_r;
    repeat split.
Qed.

Lemma avatar_stopScan_released (sa : Avatar.State) :
  Avatar.cameraStream (Avatar.stopScan sa) = false /\
  Avatar.audioStream (Avatar.stopScan sa) = false /\
  Avatar.isScanning (Avatar.stopScan sa) = false /\
  Avatar.scanTimer (Avatar.stopScan sa) = false.
Proof.
  unfold Avatar.stopScan, Avatar.stopMicrophone, Avatar.stopCamera.
  destruct sa as [sc ml fc cam aud tm stt lp mi h sh er ef].
  destruct cam, aud, tm; repeat split; reflexivity.
Qed.

Lemma avatar_completeScan_settled_state (fuse : Fusion) (a : Analysis)
    (d : Devices) (sa : Avatar.State) :
  let s' := Avatar.completeScan_settled fuse a d sa in
  Avatar.audioStream s' = false /\
  Avatar.isScanning s' = false /\
  Avatar.scanTimer s' = false /\
  Avatar.cameraStream s'
    = (analysis_returns fuse a && negb (Avatar.monitorInterval sa)
       && negb (Avatar.cameraStream sa) && camera_granted d)%bool /\
  Avatar.monitorInterval s'
    = (Avatar.monitorInterval sa
       || analysis_returns fuse a
          && (Avatar.cameraStream sa || camera_granted d))%bool.
Proof.
  intros s'. subst s'. unfold Avatar.completeScan_settled.
  destruct (avatar_monitoring_resumes_fields
              (Avatar.completeScan_pending fuse a sa) d
              (Avatar.completeScan fuse a sa)) as (Ha & Hs & Ht & Hc & Hm).
  destruct (avatar_completeScan_released fuse a sa) as (Rc & Ra & Rs & Rt).
  rewrite Ha, Hs, Ht, Hc, Hm, Ra, Rs, Rt, Rc,
    (avatar_completeScan_monitorInterval fuse a sa).
  clear Ha Hs Ht Hc Hm Ra Rs Rt Rc.
  unfold Avatar.completeScan_pending, Avatar.startMonitoring_pending,
    analysis_returns.
  repeat (split; [reflexivity |]).
  destruct (analyse fuse a), (Avatar.monitorInterval sa),
    (Avatar.cameraStream sa), (camera_granted d); split; reflexivity.
Qed.

(** X10. However a scan ends, by [completeScan] (whether the analysis
    returns or throws) or by [stopScan], and whatever the state before,
    when the function returns [cameraStream] and [audioStream] are null,
    the countdown is cleared and [isScanning] is false, in both
    orchestrators; [stopScan] of the tabbed one stops the tracks of the
    streams the two variables held, and of no other.  In the avatar-first
    orchestrator a [completeScan] whose analysis returned has also called
    [startMonitoring()]: once that has settled, the camera is held again
    exactly when no monitoring interval was set, no camera was held when
    the scan completed and access is granted, and the monitoring interval
    is set when it was already, or when a camera was held or is granted. *)
Theorem streams_when_scan_ends :
  forall (fuse : Fusion) (a : Analysis) (d : Devices)
         (st : Tabs.State) (sa : Avatar.State),
    (Tabs.cameraStream (Tabs.completeScan fuse a st) = false /\
     Tabs.audioStream (Tabs.completeScan fuse a st) = false /\
     Tabs.isScanning (Tabs.completeScan fuse a st) = false /\
     Tabs.scanTimer (Tabs.completeScan fuse a st) = false) /\
    (Tabs.cameraStream (Tabs.stopScan st) = false /\
     Tabs.audioStream (Tabs.stopScan st) = false /\
     Tabs.isScanning (Tabs.stopScan st) = false /\
     Tabs.scanTimer (Tabs.stopScan st) = false /\
     Tabs.effects (Tabs.stopScan st)
       = Tabs.effects st ++ [ClearInterval; UpdateScanUI]
         ++ stopped_tracks (Tabs.cameraStream st) (Tabs.audioStream st)) /\
    (Avatar.cameraStream (Avatar.completeScan fuse a sa) = false /\
     Avatar.audioStream (Avatar.completeScan fuse a sa) = false /\
     Avatar.isScanning (Avatar.completeScan fuse a sa) = false /\
     Avatar.scanTimer (Avatar.completeScan fuse a sa) = false) /\
    (Avatar.cameraStream (Avatar.stopScan sa) = false /\
     Avatar.audioStream (Avatar.stopScan sa) = false /\
     Avatar.isScanning (Avatar.stopScan sa) = false /\
     Avatar.scanTimer (Avatar.stopScan sa) = false) /\
    (Avatar.audioStream (Avatar.completeScan_settled fuse a d sa) = false /\
     Avatar.isScanning (Avatar.completeScan_settled fuse a d sa) = false /\
     Avatar.scanTimer (Avatar.completeScan_settled fuse a d sa) = false /\
     Avatar.cameraStream (Avatar.completeScan_settled fuse a d sa)
       = (analysis_returns fuse a && negb (Avatar.monitorInterval sa)
          && negb (Avatar.cameraStream sa) && camera_granted d)%bool /\
     Avatar.monitorInterval (Avatar.completeScan_settled fuse a d sa)
       = (Avatar.monitorInterval sa
          || analysis_returns fuse a
             && (Avatar.cameraStream sa || camera_granted d))%bool).
Proof.
  intros fuse a d st sa. split; [| split; [| split; [| split]]].
  - apply tabs_completeScan_released.
  - destruct (tabs_stopScan_released st) as (H1 & H2 & H3 & H4).
    repeat (split; [assumption |]). apply tabs_stopScan_effects.
  - apply avatar_completeScan_released.
  - apply avatar_stopScan_released.
  - apply avatar_completeScan_settled_state.
Qed.

(** X11. When the camera is denied, starting a scan changes nothing but
    the trace: the tabbed orchestrator logs the error and shows the toast
    "Camera access denied"; the avatar-first one, with its models loaded
    and no camera held, shows its toast and a chat bubble. Neither asks
    for the microphone, resets the engines or starts the countdown. *)
Theorem camera_denied_aborts_start :
  forall (d : Devices) (st : Tabs.State) (sa : Avatar.State),
    camera_granted d = false ->
    Tabs.appState st <> Tabs.SCANNING ->
    Avatar.isScanning sa = false ->
    Avatar.modelsLoaded sa = true ->
    Avatar.cameraStream sa = false ->
    Tabs.startScan d st =
      Tabs.emit [GetUserMediaVideo; ConsoleError "Camera error:";
                 ShowToast "Camera access denied" "error"] st /\
    Avatar.triggerScan d sa =
      Avatar.emit [GetUserMediaVideo; ConsoleError "Camera error:";
                   ShowToast "Camera access required for scanning" "error";
                   AppendChatBubble "assistant"
                     "I couldn't access your camera. Please allow camera access and try again."]
                  sa.
Proof.
  intros d st sa Hd Ht Hs Hm Hc. split.
  - unfold Tabs.startScan, Tabs.startCamera. rewrite Hd.
    destruct (Tabs.appState st); try contradiction; reflexivity.
  - unfold Avatar.triggerScan, Avatar.startCamera. rewrite Hs, Hm, Hc, Hd.
    cbn. unfold Avatar.emit. cbn. rewrite <- app_assoc. reflexivity.
Qed.

Lemma camera_denied_aborts_start_witness :
  (camera_granted devices_denied = false /\
   Tabs.appState tabs_ready <> Tabs.SCANNING /\
   Avatar.isScanning avatar_ready = false /\
   Avatar.modelsLoaded avatar_ready = true /\
   Avatar.cameraStream avatar_ready = false) /\
  Tabs.startScan devices_denied tabs_ready =
    Tabs.emit [GetUserMediaVideo; ConsoleError "Camera error:";
               ShowToast "Camera access denied" "error"] tabs_ready /\
  Avatar.triggerScan devices_denied avatar_ready =
    Avatar.emit [GetUserMediaVideo; ConsoleError "Camera error:";
                 ShowToast "Camera access required for scanning" "error";
                 AppendChatBubble "assistant"
                   "I couldn't access your camera. Please allow camera access and try again."]
                avatar_ready.
Proof.
  assert (Hs : Tabs.appState tabs_ready <> Tabs.SCANNING) by discriminate.
  split; [repeat split; try assumption; reflexivity |].
  exact (@camera_denied_aborts_start devices_denied tabs_ready avatar_ready
           eq_refl Hs eq_refl eq_refl eq_refl).
Defined.

(** X12. When the camera is granted, a scan starts whether or not the
    microphone is: the state becomes scanning with the countdown set, the
    frame count zero, the start time taken and the engines reset once;
    the audio stream is held exactly when the microphone was granted or
    a stream was already held. *)
Theorem scan_starts_without_microphone :
  forall (d : Devices) (st : Tabs.State) (sa : Avatar.State),
    camera_granted d = true ->
    Tabs.appState st <> Tabs.SCANNING ->
    Avatar.isScanning sa = false ->
    Avatar.modelsLoaded sa = true ->
    (Tabs.appState (Tabs.startScan d st) = Tabs.SCANNING /\
     Tabs.isScanning (Tabs.startScan d st) = true /\
     Tabs.scanTimer (Tabs.startScan d st) = true /\
     Tabs.frameCount (Tabs.startScan d st) = 0%nat /\
     Tabs.cameraStream (Tabs.startScan d st) = true /\
     Tabs.audioStream (Tabs.startScan d st)
       = (microphone_granted d || Tabs.audioStream st)%bool /\
     Tabs.scanStartTime (Tabs.startScan d st) = Some (clock_start d) /\
     Tabs.engine_resets (Tabs.startScan d st) = S (Tabs.engine_resets st)) /\
    (Avatar.isScanning (Avatar.triggerScan d sa) = true /\
     Avatar.scanTimer (Avatar.triggerScan d sa) = true /\
     Avatar.frameCount (Avatar.triggerScan d sa) = 0%nat /\
     Avatar.cameraStream (Avatar.triggerScan d sa) = true /\
     Avatar.audioStream (Avatar.triggerScan d sa)
       = (microphone_granted d || Avatar.audioStream sa)%bool /\
     Avatar.scanStartTime (Avatar.triggerScan d sa) = Some (clock_start d) /\
     Avatar.engine_resets (Avatar.triggerScan d sa) = S (Avatar.engine_resets sa)).
Proof.
  intros d st sa Hd Ht Hs Hm. split.
  - unfold Tabs.startScan, Tabs.startCamera, Tabs.startMicrophone. rewrite Hd.
    destruct (Tabs.appState st); try contradiction;
      destruct (microphone_granted d); repeat split; reflexivity.
  - unfold Avatar.triggerScan, Avatar.startCamera, Avatar.startMicrophone.
    rewrite Hs, Hm, Hd.
    destruct (Avatar.cameraStream sa) eqn:Ec; cbn;
      destruct (microphone_granted d); cbn; rewrite ?Ec; repeat split; reflexivity.
Qed.

Lemma scan_starts_without_microphone_witness :
  (camera_granted devices_no_microphone = true /\
   Tabs.appState tabs_ready <> Tabs.SCANNING /\
   Avatar.isScanning avatar_ready = false /\
   Avatar.modelsLoaded avatar_ready = true) /\
  (Tabs.appState (Tabs.startScan devices_no_microphone tabs_ready) = Tabs.SCANNING /\
   Tabs.isScanning (Tabs.startScan devices_no_microphone tabs_ready) = true /\
   Tabs.cameraStream (Tabs.startScan devices_no_microphone tabs_ready) = true /\
   Tabs.audioStream (Tabs.startScan devices_no_microphone tabs_ready) = false) /\
  (Avatar.isScanning (Avatar.triggerScan devices_no_microphone avatar_ready) = true /\
   Avatar.cameraStream (Avatar.triggerScan devices_no_microphone avatar_ready) = true /\
   Avatar.audioStream (Avatar.triggerScan devices_no_microphone avatar_ready) = false).
Proof.
  assert (Hs : Tabs.appState tabs_ready <> Tabs.SCANNING) by discriminate.
  split; [repeat split; try assumption; reflexivity |].
  destruct (@scan_starts_without_microphone devices_no_microphone tabs_ready
              avatar_ready eq_refl Hs eq_refl eq_refl)
    as ((T1 & T2 & _ & _ & T5 & T6 & _) & (A1 & _ & _ & A4 & A5 & _)).
  split; [repeat split; assumption | repeat split; assumption].
Defined.

(** X13. In the tabbed orchestrator [startScan], [stopScan] and
    [completeScan] keep the scan variables consistent: [isScanning] holds
    exactly when [appState] is SCANNING, the countdown is set exactly
    while scanning, and a running scan holds the camera. *)
Theorem tabs_consistent_preserved :
  forall (d : Devices) (fuse : Fusion) (a : Analysis) (s : Tabs.State),
    tabs_consistent s ->
    tabs_consistent (Tabs.startScan d s) /\
    tabs_consistent (Tabs.stopScan s) /\
    tabs_consistent (Tabs.completeScan fuse a s).
Proof.
  intros d fuse a s (H1 & H2 & H3).
  assert (Hstop : tabs_consistent (Tabs.stopScan s)).
  { unfold tabs_consistent, Tabs.stopScan.
    tabs_release_devices ipattern:((Hc & Ha & Hst & Hsc & Htm & _)).
    rewrite Hc, Hst, Hsc, Htm. cbn. repeat split; discriminate. }
  split; [| split; [exact Hstop |]].
  - unfold Tabs.startScan.
    destruct (Tabs.appState s) eqn:E; try exact Hstop;
      unfold Tabs.startCamera, Tabs.startMicrophone;
      destruct (camera_granted d), (microphone_granted d); cbn;
      unfold tabs_consistent; cbn; rewrite ?E;
      repeat split; try tauto; try congruence;
      try (intros F; apply H1 in F; congruence);
      try (intros F; discriminate);
      try (intros F; apply H3, F).
  - unfold tabs_consistent, Tabs.completeScan.
    tabs_release_devices ipattern:((Hc & Ha & Hst & Hsc & Htm & _)).
    rewrite Hc, Hst, Hsc, Htm.
    destruct (analyse fuse a); cbn; repeat split; discriminate.
Qed.

Lemma tabs_consistent_preserved_witness :
  tabs_consistent tabs_scanning /\
  tabs_consistent (Tabs.startScan devices_granted tabs_scanning) /\
  tabs_consistent (Tabs.stopScan tabs_scanning) /\
  tabs_consistent (Tabs.completeScan AlphaEye_compute analysis_empty tabs_scanning).
Proof.
  assert (H : tabs_consistent tabs_scanning).
  { unfold tabs_consistent. cbn. split; [split; reflexivity |].
    split; reflexivity. }
  split; [exact H |].
  exact (@tabs_consistent_preserved devices_granted AlphaEye_compute
           analysis_empty tabs_scanning H).
Defined.

(** ** The history of the avatar-first orchestrator *)

Lemma avatar_triggerScan_history (d : Devices) (s : Avatar.State) :
  let s' := Avatar.triggerScan d s in
  Avatar.scanHistory s' = Avatar.scanHistory s /\
  Avatar.stored_history s' = Avatar.stored_history s.
Proof.
  unfold Avatar.triggerScan, Avatar.startCamera, Avatar.startMicrophone.
  destruct (Avatar.isScanning s), (Avatar.modelsLoaded s), (Avatar.cameraStream s),
    (camera_granted d), (microphone_granted d); split; reflexivity.
Qed.

Lemma avatar_completeScan_success (a : Analysis) (e : HistoryEntry) (s : Avatar.State) :
  entry_of a = Some e ->
  let s' := Avatar.completeScan AlphaEye_compute a s in
  Avatar.scanHistory s' = e :: Avatar.scanHistory s /\
  Avatar.stored_history s' = Some (saved_history (e :: Avatar.scanHistory s)).
Proof.
  intros H s'. subst s'. unfold entry_of in H. unfold Avatar.completeScan.
  destruct (analyse AlphaEye_compute a) as [p|m]; [| discriminate].
  inversion H; subst e; clear H.
  match goal with |- context [Avatar.stopMicrophone (Avatar.stopCamera ?x)] =>
    destruct (avatar_stop_devices_fields x) as (_ & _ & _ & _ & _ & Hh & Hsh & _)
  end.
  cbv zeta in *. rewrite Hh, Hsh.
  unfold Avatar.startMonitoring.
  destruct s as [sc ml fc cam aud tm stt lp mi h sh er ef].
  destruct tm, mi, cam; split; reflexivity.
Qed.

Lemma avatar_scans_history (scans : list (Devices * Analysis)) :
  forall (entries : list HistoryEntry) (s : Avatar.State),
    Forall2 (fun da e => entry_of (snd da) = Some e) scans entries ->
    let s' := avatar_scans scans s in
    Avatar.scanHistory s' = rev entries ++ Avatar.scanHistory s /\
    (scans <> [] ->
     Avatar.stored_history s'
     = Some (firstn 10 (rev entries ++ Avatar.scanHistory s))).
Proof.
  induction scans as [|da rest IH]; intros entries s HF; inversion HF; subst.
  - cbn. split; [reflexivity | congruence].
  - rename y into e. rename l' into es.
    destruct (avatar_triggerScan_history (fst da) s) as [Th _]. cbv zeta in Th.
    destruct (@avatar_completeScan_success (snd da) e
                (Avatar.triggerScan (fst da) s) H1) as (Hh & Hsh).
    cbv zeta in Hh, Hsh. rewrite Th in Hh, Hsh.
    fold (avatar_scan da s) in Hh, Hsh.
    destruct (IH es (avatar_scan da s) H3) as (Ih & Ish).
    cbn [avatar_scans fold_left]. fold (avatar_scans rest (avatar_scan da s)).
    cbv zeta in *. rewrite Hh in Ih, Ish.
    assert (E : rev (e :: es) ++ Avatar.scanHistory s
                = rev es ++ e :: Avatar.scanHistory s).
    { cbn [rev]. rewrite <- app_assoc. reflexivity. }
    rewrite E. split; [exact Ih |]. intros _.
    destruct rest as [|da' rest'].
    + inversion H3; subst. cbn. exact Hsh.
    + apply Ish. discriminate.
Qed.

(** X14. In the avatar-first orchestrator, starting idle with the models
    loaded and an empty history, after a run of scans that complete the
    history in memory holds their entries, newest first, and the history
    read back from storage is the ten newest of them. *)
Theorem avatar_stored_history_after_scans :
  forall (scans : list (Devices * Analysis)) (entries : list HistoryEntry)
         (s : Avatar.State),
    Avatar.isScanning s = false ->
    Avatar.modelsLoaded s = true ->
    Avatar.scanHistory s = [] ->
    loadHistory (Avatar.stored_history s) = [] ->
    Forall2 completes scans entries ->
    loadHistory (Avatar.stored_history (avatar_scans scans s))
      = firstn 10 (rev entries) /\
    List.length (loadHistory (Avatar.stored_history (avatar_scans scans s)))
      = Nat.min (List.length scans) 10 /\
    Avatar.scanHistory (avatar_scans scans s) = rev entries.
Proof.
  intros scans entries s _ _ Hh Hl HC.
  assert (HF : Forall2 (fun da e => entry_of (snd da) = Some e) scans entries).
  { revert HC. apply Forall2_impl. intros da e [_ H]. exact H. }
  destruct (@avatar_scans_history scans entries s HF) as (Hm & Hst).
  cbv zeta in Hm, Hst. rewrite Hh, app_nil_r in Hm, Hst.
  assert (Hlen : List.length entries = List.length scans).
  { symmetry. eapply Forall2_length; eassumption. }
  assert (E : loadHistory (Avatar.stored_history (avatar_scans scans s))
              = firstn 10 (rev entries)).
  { destruct scans as [|da rest].
    - inversion HF; subst. cbn. exact Hl.
    - rewrite Hst by discriminate. reflexivity. }
  rewrite E, length_firstn, length_rev, Hlen.
  repeat split; [lia | exact Hm].
Qed.

Lemma avatar_stored_history_after_scans_witness :
  (Avatar.isScanning avatar_ready = false /\
   Avatar.modelsLoaded avatar_ready = true /\
   Avatar.scanHistory avatar_ready = [] /\
   loadHistory (Avatar.stored_history avatar_ready) = [] /\
   Forall2 completes (repeat (devices_granted, analysis_empty) 11)
           (repeat entry_empty 11)) /\
  loadHistory (Avatar.stored_history
                 (avatar_scans (repeat (devices_granted, analysis_empty) 11)
                               avatar_ready))
    = repeat entry_empty 10 /\
  Avatar.scanHistory (avatar_scans (repeat (devices_granted, analysis_empty) 11)
                                   avatar_ready)
    = repeat entry_empty 11.
Proof.
  assert (HF : Forall2 completes (repeat (devices_granted, analysis_empty) 11)
                 (repeat entry_empty 11)).
  { cbn [repeat]. repeat constructor. }
  split; [repeat split; try assumption; reflexivity |].
  destruct (@avatar_stored_history_after_scans
              (repeat (devices_granted, analysis_empty) 11)
              (repeat entry_empty 11) avatar_ready
              eq_refl eq_refl eq_refl eq_refl HF)
    as (H1 & _ & H3).
  split; [rewrite H1; reflexivity | rewrite H3; reflexivity].
Defined.

(** ** Entries of the history *)

Lemma entry_of_sound (a : Analysis) (e : HistoryEntry) :
  entry_of a = Some e -> entry_sound e.
Proof.
  unfold entry_of, analyse, bind, AlphaEye_compute. intros H.
  destruct (vsa_fullAnalysis a) as [v|]; [| discriminate].
  destruct (threat_fullAnalysis a) as [t|]; [| discriminate].
  destruct (deception_fullAnalysis a) as [d|]; [| discriminate].
  destruct (threat_frameHistory a) as [u|]; [| discriminate].
  destruct (neuro_analyze a) as [n|]; [| discriminate].
  inversion H; subst e; clear H.
  unfold entry_sound, history_entry.
  cbn [h_dominantState h_params h_stateOfMind].
  split; [reflexivity |]. split; [reflexivity |].
  split; [apply getDominantState_in_keys |].
  exact (@compute_params_in_range t d n v (clock_profile a)).
Qed.

(** X15. In the tabbed orchestrator the history in memory is never
    trimmed: a run of scans that complete adds one entry each, newest
    first, in front of the entries already there, and every new entry
    agrees with itself: its dominant state and state of mind are those of
    its parameters, its dominant state is a key of the therapy
    directions, and its ten parameters are percentages. *)
Theorem history_in_memory :
  forall (scans : list (Devices * Analysis)) (entries : list HistoryEntry)
         (s : Tabs.State),
    Tabs.appState s <> Tabs.SCANNING ->
    Forall2 completes scans entries ->
    Forall entry_sound (Tabs.scanHistory s) ->
    Tabs.scanHistory (tabs_scans scans s) = rev entries ++ Tabs.scanHistory s /\
    List.length (Tabs.scanHistory (tabs_scans scans s))
      = (List.length scans + List.length (Tabs.scanHistory s))%nat /\
    Forall entry_sound (Tabs.scanHistory (tabs_scans scans s)).
Proof.
  intros scans entries s Hs HF Hold.
  destruct (@tabs_scans_history scans entries s Hs HF) as (_ & Hh & _).
  cbv zeta in Hh. rewrite Hh.
  assert (Hlen : List.length entries = List.length scans).
  { symmetry. eapply Forall2_length; eassumption. }
  split; [reflexivity |]. split.
  - rewrite length_app, length_rev. lia.
  - apply Forall_app. split; [| exact Hold].
    apply Forall_rev.
    clear Hh Hlen Hs Hold. induction HF as [|da e scans' entries' [_ He] _ IH].
    + constructor.
    + constructor; [exact (@entry_of_sound (snd da) e He) | exact IH].
Qed.

Lemma history_in_memory_witness :
  (Tabs.appState tabs_ready <> Tabs.SCANNING /\
   Forall2 completes (repeat (devices_granted, analysis_empty) 12)
           (repeat entry_empty 12) /\
   Forall entry_sound (Tabs.scanHistory tabs_ready)) /\
  List.length (Tabs.scanHistory
                 (tabs_scans (repeat (devices_granted, analysis_empty) 12) tabs_ready))
    = 12%nat /\
  Forall entry_sound
    (Tabs.scanHistory
       (tabs_scans (repeat (devices_granted, analysis_empty) 12) tabs_ready)).
Proof.
  assert (Hs : Tabs.appState tabs_ready <> Tabs.SCANNING) by discriminate.
  assert (HF : Forall2 completes (repeat (devices_granted, analysis_empty) 12)
                 (repeat entry_empty 12)).
  { cbn [repeat]. repeat constructor. }
  assert (H0 : Forall entry_sound (Tabs.scanHistory tabs_ready)) by constructor.
  split; [repeat split; assumption |].
  destruct (@history_in_memory (repeat (devices_granted, analysis_empty) 12)
              (repeat entry_empty 12) tabs_ready Hs HF H0) as (_ & H2 & H3).
  split; [exact H2 | exact H3].
Defined.

(* ================================================================== *)
(** * The countdown and the navigation *)
(* ================================================================== *)

(** ** The countdown *)

Import Session.

Lemma scanTimer_tick_early (fuse : Fusion) (duration t0 : Z)
    (tick : Z * Analysis) (s : Tabs.State) :
  Tabs.scanStartTime s = Some t0 -> fst tick < t0 + duration ->
  scanTimer_tick fuse duration tick s = s.
Proof.
  intros H0 Ht. unfold scanTimer_tick. rewrite H0. cbv zeta.
  destruct (Z.leb_spec (Z.max 0 (duration - (fst tick - t0))) 0);
    [lia | reflexivity].
Qed.

Lemma scanTimer_tick_due (fuse : Fusion) (duration t0 : Z)
    (tick : Z * Analysis) (s : Tabs.State) :
  Tabs.scanStartTime s = Some t0 -> t0 + duration <= fst tick ->
  scanTimer_tick fuse duration tick s = Tabs.completeScan fuse (snd tick) s.
Proof.
  intros H0 Ht. unfold scanTimer_tick. rewrite H0. cbv zeta.
  destruct (Z.leb_spec (Z.max 0 (duration - (fst tick - t0))) 0);
    [reflexivity | lia].
Qed.

Lemma tabs_completeScan_scanStartTime (fuse : Fusion) (a : Analysis)
    (s : Tabs.State) :
  Tabs.scanStartTime (Tabs.completeScan fuse a s) = Tabs.scanStartTime s.
Proof.
  unfold Tabs.completeScan, Tabs.stopMicrophone, Tabs.stopCamera.
  destruct s as [ap sc fc cam aud tm st lp h sh er ef].
  destruct (analyse fuse a); destruct cam, aud; reflexivity.
Qed.

Lemma run_callbacks_early (fuse : Fusion) (duration t0 : Z)
    (ticks : list (Z * Analysis)) (s : Tabs.State) :
  Tabs.scanStartTime s = Some t0 ->
  Forall (fun tick => fst tick < t0 + duration) ticks ->
  run_callbacks fuse duration ticks s = s.
Proof.
  intros H0 HF. induction HF as [|t rest Ht _ IH]; [reflexivity |].
  cbn [run_callbacks fold_left].
  rewrite (@scanTimer_tick_early fuse duration t0 t s H0 Ht). exact IH.
Qed.

Lemma run_ticks_early (fuse : Fusion) (duration t0 : Z) (ticks : list (Z * Analysis))
    (s : Tabs.State) :
  Tabs.scanStartTime s = Some t0 ->
  Forall (fun tick => fst tick < t0 + duration) ticks ->
  run_ticks fuse duration ticks s = s.
Proof.
  intros H0 HF. induction HF as [|t rest Ht _ IH]; [reflexivity |].
  cbn [run_ticks fold_left].
  assert (E : interval_tick fuse duration t s = s).
  { unfold interval_tick. destruct (Tabs.scanTimer s); [| reflexivity].
    exact (@scanTimer_tick_early fuse duration t0 t s H0 Ht). }
  rewrite E. exact IH.
Qed.

Lemma run_ticks_cleared (fuse : Fusion) (duration : Z) (ticks : list (Z * Analysis)) :
  forall s : Tabs.State,
    Tabs.scanTimer s = false -> run_ticks fuse duration ticks s = s.
Proof.
  induction ticks as [|t rest IH]; intros s H; [reflexivity |].
  cbn [run_ticks fold_left]. unfold interval_tick at 2. rewrite H.
  apply IH, H.
Qed.

(** X16. The countdown callback of the tabbed orchestrator changes
    nothing before [scanStartTime + duration] and runs [completeScan] at
    the first tick at or after it.  [completeScan] clears the interval
    that [scanTimer] holds, so the ticks of that interval complete the
    scan once, whatever would have followed.  The callback itself tests
    only the time: a due tick that still reaches it, from an interval
    that [scanTimer] no longer refers to, runs [completeScan] again. *)
Theorem countdown_completes_once :
  forall (fuse : Fusion) (duration t0 : Z) (before after : list (Z * Analysis))
         (tick late : Z * Analysis) (s : Tabs.State),
    Tabs.scanStartTime s = Some t0 ->
    Forall (fun early => fst early < t0 + duration) before ->
    t0 + duration <= fst tick ->
    t0 + duration <= fst late ->
    run_callbacks fuse duration before s = s /\
    scanTimer_tick fuse duration tick s = Tabs.completeScan fuse (snd tick) s /\
    Tabs.scanTimer (Tabs.completeScan fuse (snd tick) s) = false /\
    (Tabs.scanTimer s = true ->
     run_ticks fuse duration (before ++ tick :: after) s
       = Tabs.completeScan fuse (snd tick) s) /\
    scanTimer_tick fuse duration late (Tabs.completeScan fuse (snd tick) s)
      = Tabs.completeScan fuse (snd late) (Tabs.completeScan fuse (snd tick) s).
Proof.
  intros fuse duration t0 before after tick late s H0 HF Hd Hl.
  pose proof (@scanTimer_tick_due fuse duration t0 tick s H0 Hd) as T.
  destruct (tabs_completeScan_released fuse (snd tick) s) as (_ & _ & _ & Hc).
  split; [exact (@run_callbacks_early fuse duration t0 before s H0 HF) |].
  split; [exact T |]. split; [exact Hc |]. split.
  - intros Ht.
    pose proof (@run_ticks_early fuse duration t0 before s H0 HF) as E.
    unfold run_ticks in *. rewrite fold_left_app, E. cbn [fold_left].
    unfold interval_tick at 2. rewrite Ht, T.
    apply (@run_ticks_cleared fuse duration after), Hc.
  - apply (@scanTimer_tick_due fuse duration t0); [| exact Hl].
    rewrite tabs_completeScan_scanStartTime. exact H0.
Qed.

Lemma countdown_completes_once_witness :
  (Tabs.scanStartTime tabs_scanning = Some 1000 /\
   Forall (fun early : Z * Analysis => fst early < 1000 + 33000)
          [(1100, analysis_failing); (33900, analysis_failing)] /\
   1000 + 33000 <= fst (34000, analysis_empty) /\
   1000 + 33000 <= fst (34100, analysis_empty) /\
   Tabs.scanTimer tabs_scanning = true) /\
  run_ticks AlphaEye_compute 33000
            ([(1100, analysis_failing); (33900, analysis_failing)]
             ++ (34000, analysis_empty) :: [(34100, analysis_empty)])
            tabs_scanning
    = Tabs.completeScan AlphaEye_compute analysis_empty tabs_scanning /\
  scanTimer_tick AlphaEye_compute 33000 (34100, analysis_empty)
                 (Tabs.completeScan AlphaEye_compute analysis_empty tabs_scanning)
    = Tabs.completeScan AlphaEye_compute analysis_empty
        (Tabs.completeScan AlphaEye_compute analysis_empty tabs_scanning).
Proof.
  assert (HF : Forall (fun early : Z * Analysis => fst early < 1000 + 33000)
                 [(1100, analysis_failing); (33900, analysis_failing)]).
  { repeat constructor. }
  assert (Hd : 1000 + 33000 <= fst (34000, analysis_empty)).
  { cbn. lia. }
  assert (Hl : 1000 + 33000 <= fst (34100, analysis_empty)).
  { cbn. lia. }
  split; [repeat split; try assumption; reflexivity |].
  destruct (@countdown_completes_once AlphaEye_compute 33000 1000
              [(1100, analysis_failing); (33900, analysis_failing)]
              [(34100, analysis_empty)] (34000, analysis_empty)
              (34100, analysis_empty) tabs_scanning eq_refl HF Hd Hl)
    as (_ & _ & _ & H4 & H5).
  split; [exact (H4 eq_refl) | exact H5].
Defined.

(** ** Navigation *)

Lemma tabs_stopCamera_fields (s : Tabs.State) :
  Tabs.cameraStream (Tabs.stopCamera s) = false /\
  Tabs.appState (Tabs.stopCamera s) = Tabs.appState s /\
  Tabs.isScanning (Tabs.stopCamera s) = Tabs.isScanning s /\
  Tabs.scanTimer (Tabs.stopCamera s) = Tabs.scanTimer s /\
  Tabs.frameCount (Tabs.stopCamera s) = Tabs.frameCount s /\
  Tabs.audioStream (Tabs.stopCamera s) = Tabs.audioStream s.
Proof.
  unfold Tabs.stopCamera. destruct (Tabs.cameraStream s) eqn:E;
    cbn; rewrite ?E; repeat split; reflexivity.
Qed.

(** X17. Opening any tab other than the chat tab (tabbed orchestrator) or
    the home tab (avatar-first orchestrator) stops the camera and the
    background monitoring, and leaves the scan variables as they were: a
    scan that is running keeps running, without the camera. *)
Theorem navigation_releases_camera :
  forall (d : Devices) (tab : string) (ses : TabsSession) (sa : Avatar.State),
    tab <> EmptyString -> tab <> "panelChat" -> tab <> "panelHome" ->
    (Tabs.cameraStream (scan (tabs_navigate d tab ses)) = false /\
     chatMonitorInterval (tabs_navigate d tab ses) = false /\
     Tabs.appState (scan (tabs_navigate d tab ses)) = Tabs.appState (scan ses) /\
     Tabs.isScanning (scan (tabs_navigate d tab ses)) = Tabs.isScanning (scan ses) /\
     Tabs.scanTimer (scan (tabs_navigate d tab ses)) = Tabs.scanTimer (scan ses) /\
     Tabs.frameCount (scan (tabs_navigate d tab ses)) = Tabs.frameCount (scan ses)) /\
    (Avatar.cameraStream (avatar_navigate tab sa) = false /\
     Avatar.monitorInterval (avatar_navigate tab sa) = false /\
     Avatar.isScanning (avatar_navigate tab sa) = Avatar.isScanning sa /\
     Avatar.scanTimer (avatar_navigate tab sa) = Avatar.scanTimer sa).
Proof.
  intros d tab ses sa Hne Hchat Hhome.
  apply String.eqb_neq in Hchat. apply String.eqb_neq in Hhome.
  split.
  - assert (E : exists s0,
               tabs_navigate d tab ses = stopChatMonitoring
                 {| scan := s0; chatMonitorInterval := chatMonitorInterval ses |} /\
               Tabs.appState s0 = Tabs.appState (scan ses) /\
               Tabs.isScanning s0 = Tabs.isScanning (scan ses) /\
               Tabs.scanTimer s0 = Tabs.scanTimer (scan ses) /\
               Tabs.frameCount s0 = Tabs.frameCount (scan ses)).
    { unfold tabs_navigate. destruct tab as [|c t]; [contradiction |].
      rewrite Hchat.
      destruct (String.eqb (String c t) "panelResults");
        [destruct (Tabs.lastProfile (scan ses)) |];
        eexists; (split; [reflexivity | repeat split; reflexivity]). }
    destruct E as (s0 & -> & E1 & E2 & E3 & E4).
    unfold stopChatMonitoring. cbn [scan chatMonitorInterval].
    set (s1 := if chatMonitorInterval ses then Tabs.emit [ClearInterval] s0 else s0).
    assert (F : Tabs.appState s1 = Tabs.appState s0 /\
                Tabs.isScanning s1 = Tabs.isScanning s0 /\
                Tabs.scanTimer s1 = Tabs.scanTimer s0 /\
                Tabs.frameCount s1 = Tabs.frameCount s0)
      by (unfold s1; destruct (chatMonitorInterval ses); repeat split; reflexivity).
    destruct F as (F1 & F2 & F3 & F4).
    destruct (tabs_stopCamera_fields s1) as (G0 & G1 & G2 & G3 & G4 & _).
    rewrite G0, G1, G2, G3, G4, F1, F2, F3, F4, E1, E2, E3, E4.
    repeat split.
  - unfold avatar_navigate. destruct tab as [|c t]; [contradiction |].
    rewrite Hhome. unfold stopMonitoring, Avatar.stopCamera.
    destruct sa as [sc ml fc cam aud tm stt lp mi h sh er ef].
    destruct (String.eqb (String c t) "panelResults"); [destruct lp |];
      destruct mi, cam; repeat split; reflexivity.
Qed.

Lemma navigation_releases_camera_witness :
  ("panelResults" <> EmptyString /\ "panelResults" <> "panelChat" /\
   "panelResults" <> "panelHome") /\
  (Tabs.cameraStream (scan (tabs_navigate devices_granted "panelResults"
                                          session_scanning)) = false /\
   Tabs.isScanning (scan (tabs_navigate devices_granted "panelResults"
                                        session_scanning)) = true /\
   Tabs.scanTimer (scan (tabs_navigate devices_granted "panelResults"
                                       session_scanning)) = true) /\
  (Avatar.cameraStream (avatar_navigate "panelResults" avatar_scanning) = false /\
   Avatar.isScanning (avatar_navigate "panelResults" avatar_scanning) = true).
Proof.
  assert (H1 : "panelResults" <> EmptyString) by discriminate.
  assert (H2 : "panelResults" <> "panelChat") by discriminate.
  assert (H3 : "panelResults" <> "panelHome") by discriminate.
  split; [repeat split; assumption |].
  destruct (@navigation_releases_camera devices_granted "panelResults"
              session_scanning avatar_scanning H1 H2 H3)
    as ((T1 & _ & _ & T4 & T5 & _) & (A1 & _ & A3 & _)).
  split; [repeat split; assumption | split; assumption].
Defined.

(* ================================================================== *)
(** * Settings and conversation *)
(* ================================================================== *)

(** ** Stored settings *)

Import Settings.

Lemma own_property_app (a b : list (jsstring * json)) (k : jsstring) :
  own_property (a ++ b) k =
  match own_property b k with
  | Undefined => own_property a k
  | found => found
  end.
Proof.
  induction a as [|[k' v] a IH]; cbn [app own_property].
  - destruct (own_property b k); reflexivity.
  - rewrite IH. destruct (own_property b k); [| reflexivity].
    reflexivity.
Qed.

Lemma own_property_defined (props : list (jsstring * json)) (k : jsstring) :
  In k (List.map fst props) -> (forall k', Text.eqb k' k = true <-> k' = k) ->
  own_property props k <> Undefined.
Proof.
  intros H Heq. induction props as [|[k' v] rest IH]; [contradiction |].
  cbn [own_property]. destruct (own_property rest k) eqn:E; [| discriminate].
  destruct H as [H|H].
  - cbn [fst] in H. apply Heq in H. rewrite H. discriminate.
  - exfalso. apply IH; [exact H | reflexivity].
Qed.

Lemma Text_eqb_eq (a b : jsstring) : Text.eqb a b = true <-> a = b.
Proof.
  revert b. induction a as [|x a IH]; intros [|y b]; cbn [Text.eqb];
    try (split; [discriminate | discriminate]); [tauto |].
  rewrite andb_true_iff, N.eqb_eq, IH. split.
  - intros [-> ->]. reflexivity.
  - intros E. inversion E. auto.
Qed.

(** X18. The settings are the defaults overridden, key by key, by what
    the stored text contributes: a key of the stored object takes the
    stored value, any other key keeps its default, and every key of
    DEFAULTS is defined in the result whatever is stored, unreadable or
    malformed text included. *)
Theorem loadSettings_defaults_and_overrides :
  forall stored : option jsstring,
    (forall k : jsstring,
        own_property (loadSettings stored) k
        = match own_property (stored_overrides stored) k with
          | Undefined => own_property DEFAULTS k
          | found => found
          end) /\
    Forall (fun k => own_property (loadSettings stored) k <> Undefined)
           (List.map fst DEFAULTS).
Proof.
  intros stored.
  assert (E : forall k, own_property (loadSettings stored) k
              = match own_property (stored_overrides stored) k with
                | Undefined => own_property DEFAULTS k
                | found => found
                end).
  { intros k. unfold loadSettings, stored_overrides.
    destruct stored as [[|c t]|]; try reflexivity.
    destruct (JSON.parse (c :: t)); [apply own_property_app | reflexivity]. }
  split; [exact E |].
  apply Forall_forall. intros k H. rewrite E.
  destruct (own_property (stored_overrides stored) k) eqn:F; [| discriminate].
  apply own_property_defined; [exact H |].
  intros k'. apply Text_eqb_eq.
Qed.

(** ** Sending a chat message *)

Import OllamaRequest Conversation.

Section SendFacts.
Variable ToString : value -> jsstring.
Variable buildSystemPrompt : Profile -> jsstring.
Variable toLowerCase : jsstring -> jsstring.
Variable ollamaModel : string.
Variable ollamaUrl : jsstring.
Variable ttsEnabled : bool.

Lemma converse_spec (speak_if : bool) (x : Exchange) (s : State) :
  let s' := converse ToString buildSystemPrompt ollamaModel ollamaUrl speak_if x s in
  lastProfile s' = lastProfile s /\
  scans_scheduled s' = scans_scheduled s /\
  ((chatMessages s' = chatMessages s /\ requests s' = requests s /\
    connected s = false /\ fst (testConnection (probed x) false) = false)
   \/
   (requests s' = requests s
                  ++ [build ollamaModel (chatMessages s)
                            (Some (prompt_of buildSystemPrompt s))] /\
    ((thrown (reply x) = None /\
      chatMessages s' = chatMessages s ++ [assistant_turn ToString x])
     \/
     (thrown (reply x) <> None /\ chatMessages s' = chatMessages s)))).
Proof.
  unfold converse.
  destruct (connected s) eqn:Ec.
  - cbn [negb]. fold (prompt_of buildSystemPrompt s).
    destruct (thrown (reply x)) as [name|] eqn:Et.
    + destruct (String.eqb name "AbortError"); cbn;
        (split; [reflexivity |]; split; [reflexivity |]; right;
         split; [reflexivity |]; right; split; [discriminate | reflexivity]).
    + destruct (flat_map ToString (tokens (reply x))) eqn:Ef; [| destruct speak_if];
        cbn; (split; [reflexivity |]; split; [reflexivity |]; right;
              split; [reflexivity |]; left; split; [reflexivity |]);
        unfold assistant_turn; rewrite Ef; reflexivity.
  - destruct (probed x) as [[|]|]; cbn [testConnection negb fst].
    + fold (prompt_of buildSystemPrompt (set_connected true s)).
      change (prompt_of buildSystemPrompt (set_connected true s))
        with (prompt_of buildSystemPrompt s).
      destruct (thrown (reply x)) as [name|] eqn:Et.
      * destruct (String.eqb name "AbortError"); cbn;
          (split; [reflexivity |]; split; [reflexivity |]; right;
           split; [reflexivity |]; right; split; [discriminate | reflexivity]).
      * destruct (flat_map ToString (tokens (reply x))) eqn:Ef; [| destruct speak_if];
          cbn; (split; [reflexivity |]; split; [reflexivity |]; right;
                split; [reflexivity |]; left; split; [reflexivity |]);
          unfold assistant_turn; rewrite Ef; reflexivity.
    + cbn. split; [reflexivity |]. split; [reflexivity |]. left. auto.
    + cbn. split; [reflexivity |]. split; [reflexivity |]. left. auto.
Qed.

Lemma after_converse (speak_if : bool) (x : Exchange) (s : State) (c : N) (t : jsstring) :
  trim (input x) = c :: t ->
  sent_as_expected ToString buildSystemPrompt ollamaModel x s
    (converse ToString buildSystemPrompt ollamaModel ollamaUrl speak_if x
       (appendChatBubble "user" (c :: t)
          (push {| role := "user"; content := c :: t |} s))).
Proof.
  intros Ht.
  set (s1 := appendChatBubble "user" (c :: t)
               (push {| role := "user"; content := c :: t |} s)).
  destruct (converse_spec speak_if x s1) as (_ & _ & H). cbv zeta in H.
  assert (U : chatMessages s1 = chatMessages s ++ [user_turn x])
    by (unfold user_turn; rewrite Ht; reflexivity).
  assert (P : prompt_of buildSystemPrompt s1 = prompt_of buildSystemPrompt s)
    by reflexivity.
  assert (R : requests s1 = requests s) by reflexivity.
  unfold sent_as_expected.
  destruct H as [(Hc & Hr & _) | (Hr & [(Hn & Hc) | (Hn & Hc)])].
  - exists [], []. rewrite Hc, Hr, U, R, app_nil_r. repeat split; auto.
    intros F. contradiction.
  - exists [assistant_turn ToString x],
           [request_of buildSystemPrompt ollamaModel x s].
    rewrite Hc, Hr, U, R, P, <- app_assoc. unfold request_of.
    repeat split; auto. right. repeat split; auto. discriminate.
  - exists [], [request_of buildSystemPrompt ollamaModel x s].
    rewrite Hc, Hr, U, R, P. unfold request_of.
    repeat split; auto. intros _ F. contradiction.
Qed.

Lemma request_of_window (x : Exchange) (s : State) :
  last (messages (request_of buildSystemPrompt ollamaModel x s)) no_message
    = user_turn x /\
  (List.length (messages (request_of buildSystemPrompt ollamaModel x s)) <= 7)%nat.
Proof.
  unfold request_of. cbn [build messages].
  destruct (slice_last_suffix 6 (chatMessages s ++ [user_turn x]))
    as (dropped & Hd & Hl).
  set (kept := slice_last 6 (chatMessages s ++ [user_turn x])) in *.
  assert (Hk : kept <> []).
  { intros E. rewrite E in Hl. rewrite length_app in Hl. simpl in Hl. lia. }
  split.
  - rewrite (@last_app_nonempty _ _ kept no_message Hk).
    rewrite <- (@last_app_nonempty _ dropped kept no_message Hk), <- Hd.
    apply last_last.
  - rewrite length_app, Hl.
    destruct (prompt_of buildSystemPrompt s) as [|c p]; simpl; lia.
Qed.
End SendFacts.

(** X19. [sendMessage] does nothing when the trimmed input is empty.
    Otherwise it appends the user turn; the tabbed orchestrator then makes
    at most one request, namely for the conversation with the new turn and
    the prompt of the last profile, and appends the assistant turn exactly
    when the request was made and the reply ended without a throw. The
    avatar-first orchestrator does the same unless the text asks for a
    scan, in which case it schedules a scan and sends nothing. The
    request holds at most seven messages and ends with the user turn. *)
Theorem sendMessage_conversation :
  forall (ToString : value -> jsstring) (buildSystemPrompt : Profile -> jsstring)
         (toLowerCase : jsstring -> jsstring) (ollamaModel : string)
         (ollamaUrl : jsstring) (ttsEnabled : bool)
         (x : Exchange) (s : State),
    let st := tabs_sendMessage ToString buildSystemPrompt ollamaModel ollamaUrl
                ttsEnabled x s in
    let sa := avatar_sendMessage ToString buildSystemPrompt toLowerCase
                ollamaModel ollamaUrl x s in
    match trim (input x) with
    | [] => st = s /\ sa = s
    | text =>
        sent_as_expected ToString buildSystemPrompt ollamaModel x s st /\
        (if asks_for_scan toLowerCase text
         then chatMessages sa = chatMessages s ++ [user_turn x] /\
              requests sa = requests s /\
              scans_scheduled sa = S (scans_scheduled s)
         else sent_as_expected ToString buildSystemPrompt ollamaModel x s sa)
    end /\
    last (messages (request_of buildSystemPrompt ollamaModel x s)) no_message
      = user_turn x /\
    (List.length (messages (request_of buildSystemPrompt ollamaModel x s)) <= 7)%nat.
Proof.
  intros ToString buildSystemPrompt toLowerCase ollamaModel ollamaUrl ttsEnabled
         x s st sa.
  split; [| apply request_of_window].
  subst st sa. unfold tabs_sendMessage, avatar_sendMessage.
  destruct (trim (input x)) as [|c t] eqn:Ht; [split; reflexivity |].
  split; [apply after_converse, Ht |].
  unfold asks_for_scan.
  destruct (includes (str "scan me") (toLowerCase (c :: t))
            || includes (str "read me") (toLowerCase (c :: t))
            || includes (str "analyze me") (toLowerCase (c :: t)))%bool.
  - unfold user_turn. rewrite Ht. repeat split; reflexivity.
  - apply after_converse, Ht.
Qed.
